(** * mpp_backend: the directory server (server.js)

    A shallow embedding of the request handlers, the broadcaster, the
    token guard and the background monitor of [server.js], and the
    properties of the specification that concern them.

    Conventions of the model.
    - The MySQL store is an in-memory [world]: one list of rows per table.
      Every [db.query] consumes one entry of [db_faults]; [true] means that
      the callback is called with [err].
    - A compact JWS string is represented by what it decodes to: the key
      it was signed with and its payload ([Jws]); any other text is [Raw].
    - Text sent over a socket or in a response is kept as the [json] value
      that [JSON.stringify] / [res.json] serialise.
    - Time is in whole seconds ([NOW()], [Math.floor(Date.now() / 1000)]).
    - Route parameters and the [x-user-id] header are taken as the integers
      they denote; SQL [=] on text is [String.eqb].
    - A handler that throws inside a callback, or whose promise rejects
      with nothing to catch it, sends no answer and ends the process
      ([NoResponse], [serve]); the store outlives the process. *)

From Stdlib Require Import ZArith List String Bool Lia DecimalString.
Import ListNotations.
Local Open Scope string_scope.
Local Open Scope list_scope.
Local Open Scope Z_scope.

(** ** jsonwebtoken *)

Module Jwt.

(** The claim sets this server signs: [{ id, email }], later
    [twoFactorVerified], and the registered claims [iat] and [exp]. *)
Record claims := mkClaims {
  id : Z;
  email : string;
  twoFactorVerified : option bool;
  iat : option Z;
  exp : option Z
}.

Inductive token :=
| Jws (key : string) (payload : claims)
| Raw (text : string).

Definition set_exp (e : option Z) (p : claims) : claims :=
  mkClaims (id p) (email p) (twoFactorVerified p) (iat p) e.

Definition set_iat (t : option Z) (p : claims) : claims :=
  mkClaims (id p) (email p) (twoFactorVerified p) t (exp p).

Definition set_twoFactorVerified (b : option bool) (p : claims) : claims :=
  mkClaims (id p) (email p) b (iat p) (exp p).

(** [jwt.sign(payload, key, { expiresIn })]:
    [timestamp = payload.iat || now]; [payload.iat = timestamp];
    [payload.exp = timestamp + expiresIn]; it throws when the payload
    already has an [exp]. *)
Definition sign (payload : claims) (key : string) (expiresIn now : Z)
  : option token :=
  match exp payload with
  | Some _ => None
  | None =>
      let timestamp :=
        match iat payload with
        | Some t => if t =? 0 then now else t
        | None => now
        end in
      Some (Jws key (set_exp (Some (timestamp + expiresIn))
                             (set_iat (Some timestamp) payload)))
  end.

(** [jwt.verify(token, key, cb)]: [Some user] stands for [cb(null, user)],
    [None] for [cb(err)] (malformed, wrong signature, or
    [now >= payload.exp]). *)
Definition verify (t : token) (key : string) (now : Z) : option claims :=
  match t with
  | Raw _ => None
  | Jws k p =>
      if String.eqb k key then
        match exp p with
        | Some e => if now >=? e then None else Some p
        | None => Some p
        end
      else None
  end.

End Jwt.

(** ** JSON values *)

#[local] Set Warnings "-register-all".

Inductive json :=
| JNull
| JBool (b : bool)
| JNum (n : Z)
| JStr (s : string)
| JTok (t : Jwt.token)
| JArr (items : list json)
| JObj (fields : list (string * json)).

Fixpoint assoc (k : string) (fields : list (string * json)) : option json :=
  match fields with
  | [] => None
  | (k', v) :: rest => if String.eqb k k' then Some v else assoc k rest
  end.

Definition json_get (k : string) (j : json) : option json :=
  match j with
  | JObj fields => assoc k fields
  | _ => None
  end.

Definition JOptStr (o : option string) : json :=
  match o with
  | Some s => JStr s
  | None => JNull
  end.

(** Every key that occurs in a value, at any depth. *)
Fixpoint all_keys (j : json) : list string :=
  match j with
  | JArr items => flat_map all_keys items
  | JObj fields => flat_map (fun kv => fst kv :: all_keys (snd kv)) fields
  | _ => []
  end.

(** The two columns that hold credentials. *)
Definition credential_key (k : string) : bool :=
  String.eqb k "password" || String.eqb k "two_factor_secret".

(** ** Tables *)

(** [users]: the columns named by the INSERT statements and by the
    migration that adds [two_factor_secret], [two_factor_enabled] and
    [password]. *)
Record user_row := mkUser {
  u_id : Z;
  u_name : string;
  u_email : string;
  u_type : string;
  u_image : option string;
  u_password : option string;
  u_two_factor_secret : option string;
  u_two_factor_enabled : bool
}.

Record log_row := mkLog {
  l_user_id : option Z;
  l_action : string;
  l_entity : string;
  l_entity_id : Z;
  l_timestamp : Z
}.

Record monitored_row := mkMonitored {
  m_user_id : Z;
  m_reason : string;
  m_detected_at : Z
}.

(** A client of the WebSocket server: its [readyState] and the messages
    sent to it so far, oldest first. *)
Record ws_client := mkClient {
  ws_id : Z;
  readyState : Z;
  ws_sent : list json
}.

Definition WebSocket_OPEN : Z := 1.

Record world := mkWorld {
  users : list user_row;
  users_next_id : Z;
  logs : list log_row;
  monitored_users : list monitored_row;
  wss_clients : list ws_client;
  clock : Z;
  db_faults : list bool
}.

Definition set_users (us : list user_row) (next : Z) (w : world) : world :=
  mkWorld us next (logs w) (monitored_users w) (wss_clients w) (clock w)
          (db_faults w).

Definition set_logs (ls : list log_row) (w : world) : world :=
  mkWorld (users w) (users_next_id w) ls (monitored_users w) (wss_clients w)
          (clock w) (db_faults w).

Definition set_monitored_users (ms : list monitored_row) (w : world) : world :=
  mkWorld (users w) (users_next_id w) (logs w) ms (wss_clients w) (clock w)
          (db_faults w).

Definition set_wss_clients (cs : list ws_client) (w : world) : world :=
  mkWorld (users w) (users_next_id w) (logs w) (monitored_users w) cs
          (clock w) (db_faults w).

Definition set_db_faults (fs : list bool) (w : world) : world :=
  mkWorld (users w) (users_next_id w) (logs w) (monitored_users w)
          (wss_clients w) (clock w) fs.

(** ** The store: [db.query] and the statements the server sends *)

(** [db_query stmt w]: [None] is [err]; otherwise the statement runs and
    its result is handed to the callback. *)
Definition db_query {A : Type} (stmt : world -> A * world) (w : world)
  : option A * world :=
  match db_faults w with
  | true :: fs => (None, set_db_faults fs w)
  | false :: fs => let '(a, w') := stmt (set_db_faults fs w) in (Some a, w')
  | [] => let '(a, w') := stmt w in (Some a, w')
  end.

Definition read_only {A : Type} (q : world -> A) (w : world) : A * world :=
  (q w, w).

(** [SELECT id FROM users WHERE email = ?] *)
Definition select_id_where_email (email : string) (w : world) : list Z :=
  map u_id (filter (fun u => String.eqb (u_email u) email) (users w)).

(** [SELECT id FROM users WHERE email = ? AND id != ?] *)
Definition select_id_where_email_not_id (email : string) (id : Z) (w : world)
  : list Z :=
  map u_id
      (filter (fun u => String.eqb (u_email u) email && negb (u_id u =? id))
              (users w)).

(** [SELECT * FROM users] *)
Definition select_all_users (w : world) : list user_row := users w.

(** [SELECT * FROM users WHERE email = ?] *)
Definition select_users_where_email (email : string) (w : world)
  : list user_row :=
  filter (fun u => String.eqb (u_email u) email) (users w).

(** [SELECT two_factor_secret FROM users WHERE id = ?] *)
Definition select_secret_where_id (id : Z) (w : world)
  : list (option string) :=
  map u_two_factor_secret (filter (fun u => u_id u =? id) (users w)).

(** [SELECT id, name, email, type FROM users WHERE id = ?] *)
Definition select_profile_where_id (id : Z) (w : world) : list json :=
  map (fun u => JObj [("id", JNum (u_id u)); ("name", JStr (u_name u));
                      ("email", JStr (u_email u)); ("type", JStr (u_type u))])
      (filter (fun u => u_id u =? id) (users w)).

(** [INSERT INTO users (name, email, type) VALUES (?, ?, ?)]; the result
    is [insertId]. The other columns take their defaults. *)
Definition insert_user (name email type : string) (w : world) : Z * world :=
  let new_id := users_next_id w in
  (new_id,
   set_users (users w ++ [mkUser new_id name email type None None None false])
             (new_id + 1) w).

(** [UPDATE users SET name = ?, email = ?, type = ? WHERE id = ?]; the
    result is [affectedRows], the number of rows matched. *)
Definition update_user (name email type : string) (id : Z) (w : world)
  : Z * world :=
  (Z.of_nat (List.length (filter (fun u => u_id u =? id) (users w))),
   set_users
     (map (fun u =>
             if u_id u =? id
             then mkUser (u_id u) name email type (u_image u) (u_password u)
                         (u_two_factor_secret u) (u_two_factor_enabled u)
             else u)
          (users w))
     (users_next_id w) w).

(** [INSERT INTO logs (user_id, action, entity, entity_id)
     VALUES (?, <action>, 'user', ?)]; [timestamp] defaults to [NOW()]. *)
Definition insert_log (user_id : option Z) (action : string) (entity_id : Z)
  (w : world) : unit * world :=
  (tt, set_logs (logs w ++ [mkLog user_id action "user" entity_id (clock w)]) w).

(** Rows as [SELECT *] returns them and [JSON.stringify] writes them. *)
Definition row_json (u : user_row) : json :=
  JObj [("id", JNum (u_id u));
        ("name", JStr (u_name u));
        ("email", JStr (u_email u));
        ("type", JStr (u_type u));
        ("image", JOptStr (u_image u));
        ("password", JOptStr (u_password u));
        ("two_factor_secret", JOptStr (u_two_factor_secret u));
        ("two_factor_enabled", JNum (if u_two_factor_enabled u then 1 else 0))].

(** ** Responses *)

(** [Respond status body] is [res.status(status).json(body)].
    [NoResponse] is a handler that threw inside a callback or whose
    promise rejected before it answered: nothing catches either, so no
    answer is sent and Node ends the process (an uncaught exception, or
    an unhandled rejection, which ends the process from Node 15 on). The
    world that a handler returns with [NoResponse] is what the process
    leaves behind. *)
Inductive response :=
| Respond (status : Z) (body : json)
| NoResponse.

Definition status_of (r : response) : option Z :=
  match r with
  | Respond s _ => Some s
  | NoResponse => None
  end.

Definition body_of (r : response) : option json :=
  match r with
  | Respond _ b => Some b
  | NoResponse => None
  end.

Definition error_body (msg : string) : json := JObj [("error", JStr msg)].

(** The server process: [Up] while it serves, [Down] once it has ended.
    The tables of the store stay as the process left them. *)
Inductive process :=
| Up (w : world)
| Down (w : world).

(** One request sent to the process. A handler runs only in a process
    that is up, and the process is down after a [NoResponse]; a request
    to a process that is down gets no answer. *)
Definition serve (handler : world -> response * world) (p : process)
  : response * process :=
  match p with
  | Down w => (NoResponse, Down w)
  | Up w =>
      match handler w with
      | (NoResponse, w') => (NoResponse, Down w')
      | (Respond status body, w') => (Respond status body, Up w')
      end
  end.

(** ** The broadcaster *)

(** [getAllUsers]: [None] when the promise rejects. *)
Definition getAllUsers (w : world) : option (list user_row) * world :=
  db_query (read_only select_all_users) w.

Definition envelope (type : string) (data : json) (allUsers : list user_row)
  : json :=
  JObj [("type", JStr type); ("data", data);
        ("allUsers", JArr (map row_json allUsers))].

Definition ws_send (msg : json) (c : ws_client) : ws_client :=
  mkClient (ws_id c) (readyState c) (ws_sent c ++ [msg]).

(** [broadcastUpdate(type, data)]: [false] when [getAllUsers] rejected. *)
Definition broadcastUpdate (type : string) (data : json) (w : world)
  : bool * world :=
  match getAllUsers w with
  | (None, w1) => (false, w1)
  | (Some allUsers, w1) =>
      (true,
       set_wss_clients
         (map (fun client =>
                 if readyState client =? WebSocket_OPEN
                 then ws_send (envelope type data allUsers) client
                 else client)
              (wss_clients w1))
         w1)
  end.

(** ** The server *)

Section Server.

(** [process.env.JWT_SECRET] *)
Variable env_JWT_SECRET : option string.

(** express-validator: the [trim] sanitizer and the [isEmail] check. *)
Variable validator_trim : string -> string.
Variable validator_isEmail : string -> bool.

(** [bcrypt.compare(data, hash)] on two strings. *)
Variable bcrypt_compare : string -> string -> bool.

(** speakeasy: whether [token] is the one-time code of [secret]
    (base32) for the counter value [counter]. *)
Variable hotp_matches : option string -> Z -> string -> bool.

(** The unique indexes of [monitored_users]. The source does not declare
    the table, so they are a parameter: [monitored_unique old new] holds
    when inserting [new] would collide with the stored row [old]. *)
Variable monitored_unique : monitored_row -> monitored_row -> bool.

Definition JWT_SECRET : string :=
  match env_JWT_SECRET with
  | Some s => if String.eqb s EmptyString then "your-secret-key" else s
  | None => "your-secret-key"
  end.

(** A request: the parts of [req.headers], [req.params] and [req.body]
    that the handlers read. [authorization] is the header cut at its
    spaces, as [split(' ')] returns it. The body fields [name], [email],
    [type] and [token] are the texts sent; the validators and [!field]
    treat an absent one as the empty text, which stands for it. The
    password is [None] when the body has none: [bcrypt.compare] is then
    called with [undefined]. *)
Record request := mkRequest {
  authorization : option (list Jwt.token);
  x_user_id : option Z;
  param_id : Z;
  body_name : string;
  body_email : string;
  body_type : string;
  password_sent : option string;
  body_token : string
}.

(** [password] as [!password] and [bcrypt.hash] read it. *)
Definition body_password (req : request) : string :=
  match password_sent req with
  | Some password => password
  | None => EmptyString
  end.

Definition set_param_id (id : Z) (req : request) : request :=
  mkRequest (authorization req) (x_user_id req) id (body_name req)
            (body_email req) (body_type req) (password_sent req)
            (body_token req).

(** *** authenticateToken *)

(** [authHeader && authHeader.split(' ')[1]] *)
Definition presented_token (req : request) : option Jwt.token :=
  match authorization req with
  | Some parts => nth_error parts 1
  | None => None
  end.

Definition authenticateToken (req : request) (now : Z)
  : response + Jwt.claims :=
  match presented_token req with
  | None | Some (Jwt.Raw EmptyString) =>
      inl (Respond 401 (error_body "Access token required"))
  | Some t =>
      match Jwt.verify t JWT_SECRET now with
      | None => inl (Respond 403 (error_body "Invalid or expired token"))
      | Some user => inr user
      end
  end.

(** [app.METHOD(path, authenticateToken, handler)]: the handler runs
    only through [next()], with [req.user] set. *)
Definition authenticated
  (handler : Jwt.claims -> request -> world -> response * world)
  (req : request) (w : world) : response * world :=
  match authenticateToken req (clock w) with
  | inl rejection => (rejection, w)
  | inr user => handler user req w
  end.

(** *** validateUser, handleValidationErrors *)

Definition validateUser (req : request) : list (string * string) :=
  (if String.eqb (validator_trim (body_name req)) EmptyString
   then [("name", "Name is required")] else [])
  ++ (if validator_isEmail (body_email req)
      then [] else [("email", "Invalid email format")])
  ++ (if existsb (String.eqb (body_type req)) ["admin"; "user"]
      then [] else [("type", "Type must be either admin or user")]).

(** Of the error objects of express-validator, [msg] and [param]. *)
Definition validation_error (e : string * string) : json :=
  JObj [("msg", JStr (snd e)); ("param", JStr (fst e))].

(** [None] stands for [next()]. *)
Definition handleValidationErrors (req : request) : option response :=
  match validateUser req with
  | [] => None
  | errors =>
      Some (Respond 400 (JObj [("errors", JArr (map validation_error errors))]))
  end.

(** *** POST /users *)

Definition user_json (id : Z) (name email type : string) : json :=
  JObj [("id", JNum id); ("name", JStr name); ("email", JStr email);
        ("type", JStr type); ("image", JNull)].

Definition post_users (req : request) (w : world) : response * world :=
  match handleValidationErrors req with
  | Some errors => (errors, w)
  | None =>
      let name := validator_trim (body_name req) in
      let email := body_email req in
      let type := body_type req in
      match db_query (read_only (select_id_where_email email)) w with
      | (None, w1) => (Respond 500 (error_body "Server error"), w1)
      | (Some results, w1) =>
          if (0 <? List.length results)%nat then
            (Respond 400
               (JObj [("errors",
                       JArr [JObj [("param", JStr "email");
                                   ("msg", JStr "Email already exists")]])]),
             w1)
          else
            match db_query (insert_user name email type) w1 with
            | (None, w2) => (Respond 500 (error_body "Server error"), w2)
            | (Some insertId, w2) =>
                let newUser := user_json insertId name email type in
                match broadcastUpdate "USER_ADDED" newUser w2 with
                | (false, w3) => (NoResponse, w3)
                | (true, w3) => (Respond 201 newUser, w3)
                end
            end
      end
  end.

(** *** PATCH /users/:id *)

Definition patch_users (req : request) (w : world) : response * world :=
  match handleValidationErrors req with
  | Some errors => (errors, w)
  | None =>
      let id := param_id req in
      let name := validator_trim (body_name req) in
      let email := body_email req in
      let type := body_type req in
      let userId := x_user_id req in
      match db_query (read_only (select_id_where_email_not_id email id)) w with
      | (None, w1) => (Respond 500 (error_body "Server error"), w1)
      | (Some results, w1) =>
          if (0 <? List.length results)%nat then
            (Respond 400 (error_body "Email already exists"), w1)
          else
            match db_query (update_user name email type id) w1 with
            | (None, w2) => (Respond 500 (error_body "Server error"), w2)
            | (Some affectedRows, w2) =>
                if affectedRows =? 0 then
                  (Respond 404 (error_body "User not found"), w2)
                else
                  (* Log the update action; a failure is only printed *)
                  let w3 := snd (db_query (insert_log userId "update" id) w2) in
                  let updatedUser := user_json id name email type in
                  match broadcastUpdate "USER_UPDATED" updatedUser w3 with
                  | (false, w4) => (NoResponse, w4)
                  | (true, w4) => (Respond 200 updatedUser, w4)
                  end
            end
      end
  end.

(** *** POST /login *)

(** [if (value)] on a nullable text column. *)
Definition truthy (value : option string) : bool :=
  match value with
  | Some s => negb (String.eqb s EmptyString)
  | None => false
  end.

Definition login_claims (user : user_row) : Jwt.claims :=
  Jwt.mkClaims (u_id user) (u_email user) None None None.

Definition userResponse (user : user_row) : json :=
  JObj [("id", JNum (u_id user)); ("email", JStr (u_email user));
        ("name", JStr (u_name user)); ("type", JStr (u_type user))].

Definition invalid_credentials : response :=
  Respond 401 (error_body "Invalid credentials").

Definition post_login (req : request) (w : world) : response * world :=
  let email := body_email req in
  match db_query (read_only (select_users_where_email email)) w with
  | (None, w1) => (Respond 500 (error_body "Server error"), w1)
  | (Some [], w1) => (invalid_credentials, w1)
  | (Some (user :: _), w1) =>
      match u_password user, password_sent req with
      | None, _ | _, None =>
          (* bcrypt.compare rejects: data and hash arguments required *)
          (NoResponse, w1)
      | Some hash, Some password =>
          if negb (bcrypt_compare password hash) then
            (invalid_credentials, w1)
          else if truthy (u_two_factor_secret user) then
            (* temporary token for 2FA verification *)
            match Jwt.sign (login_claims user) JWT_SECRET 300 (clock w1) with
            | None => (NoResponse, w1)
            | Some tempToken =>
                (Respond 200 (JObj [("requiresTwoFactor", JBool true);
                                    ("tempToken", JTok tempToken)]), w1)
            end
          else
            match Jwt.sign (login_claims user) JWT_SECRET 3600 (clock w1) with
            | None => (NoResponse, w1)
            | Some accessToken =>
                (Respond 200 (JObj [("accessToken", JTok accessToken);
                                    ("user", userResponse user)]), w1)
            end
      end
  end.

(** *** POST /2fa/verify *)

(** [speakeasy.totp.verify({ secret, encoding, token, window })]: the
    counters from [counter - window] to [counter + window] are tried,
    [counter] being the number of 30-second steps since the epoch. *)
Definition totp_counter (now : Z) : Z := now / 30.

Definition totp_window (window now : Z) : list Z :=
  map (fun k => totp_counter now - window + Z.of_nat k)
      (seq 0 (Z.to_nat (2 * window + 1))).

Definition totp_verify (secret : option string) (token : string)
  (window now : Z) : bool :=
  existsb (fun counter => hotp_matches secret counter token)
          (totp_window window now).

Definition twofa_verify (user : Jwt.claims) (req : request) (w : world)
  : response * world :=
  let token := body_token req in
  let userId := Jwt.id user in
  match db_query (read_only (select_secret_where_id userId)) w with
  | (None, w1) | (Some [], w1) =>
      (Respond 500 (error_body "Failed to verify 2FA"), w1)
  | (Some (secret :: _), w1) =>
      if totp_verify secret token 1 (clock w1) then
        (* { ...req.user, twoFactorVerified: true }; delete payload.exp *)
        let payload :=
          Jwt.set_exp None (Jwt.set_twoFactorVerified (Some true) user) in
        match Jwt.sign payload JWT_SECRET 3600 (clock w1) with
        | None => (NoResponse, w1)
        | Some accessToken =>
            (Respond 200 (JObj [("accessToken", JTok accessToken)]), w1)
        end
      else
        (Respond 401 (error_body "Invalid 2FA token"), w1)
  end.

Definition post_2fa_verify : request -> world -> response * world :=
  authenticated twofa_verify.

(** *** GET /users/me *)

(** The handler that [app.get('/users/me', authenticateToken, ...)]
    registers. *)
Definition users_me (user : Jwt.claims) (req : request) (w : world)
  : response * world :=
  let userId := Jwt.id user in
  match db_query (read_only (select_profile_where_id userId)) w with
  | (None, w1) | (Some [], w1) =>
      (Respond 404 (error_body "User not found"), w1)
  | (Some (profile :: _), w1) => (Respond 200 profile, w1)
  end.


(** *** The background monitor *)

Definition string_of_Z (n : Z) : string :=
  NilZero.string_of_int (Z.to_int n).

Definition log_selected (now : Z) (l : log_row) : bool :=
  (l_timestamp l >? now - 120)
  && match l_user_id l with
     | Some u => negb (u =? 0)
     | None => false
     end.

Definition actor_of (l : log_row) : Z :=
  match l_user_id l with
  | Some u => u
  | None => 0
  end.

(** The actors of the rows that pass the WHERE clause, one per row. *)
Definition selected_actors (w : world) : list Z :=
  map actor_of (filter (log_selected (clock w)) (logs w)).

(** [SELECT user_id, COUNT( * ) as action_count FROM logs
     WHERE timestamp > (NOW() - INTERVAL 2 MINUTE)
       AND user_id IS NOT NULL AND user_id != 0
     GROUP BY user_id HAVING action_count > 10] *)
Definition select_suspicious (w : world) : list (Z * Z) :=
  filter (fun row => snd row >? 10)
         (map (fun u => (u, Z.of_nat (count_occ Z.eq_dec (selected_actors w) u)))
              (nodup Z.eq_dec (selected_actors w))).

(** [INSERT IGNORE INTO monitored_users (user_id, reason, detected_at)
     VALUES (?, ?, NOW())] *)
Definition insert_ignore_monitored (user_id : Z) (reason : string)
  (w : world) : unit * world :=
  let row := mkMonitored user_id reason (clock w) in
  if existsb (fun old => monitored_unique old row) (monitored_users w)
  then (tt, w)
  else (tt, set_monitored_users (monitored_users w ++ [row]) w).

Definition high_frequency (action_count : Z) : string :=
  String.append "High frequency: "
                (String.append (string_of_Z action_count) " actions in 2 min").

(** One firing of the [setInterval] callback. *)
Definition monitor_tick (w : world) : world :=
  match db_query (read_only select_suspicious) w with
  | (None, w1) => w1
  | (Some results, w1) =>
      fold_left
        (fun acc row =>
           snd (db_query
                  (insert_ignore_monitored (fst row) (high_frequency (snd row)))
                  acc))
        results w1
  end.

(** *** GET /users/:id *)

(** [SELECT id, name, email, image, type FROM users WHERE id = ?] *)
Definition select_entry_where_id (id : Z) (w : world) : list json :=
  map (fun u => JObj [("id", JNum (u_id u)); ("name", JStr (u_name u));
                      ("email", JStr (u_email u));
                      ("image", JOptStr (u_image u));
                      ("type", JStr (u_type u))])
      (filter (fun u => u_id u =? id) (users w)).

Definition get_user (req : request) (w : world) : response * world :=
  match db_query (read_only (select_entry_where_id (param_id req))) w with
  | (None, w1) => (Respond 500 (error_body "Server error"), w1)
  | (Some [], w1) => (Respond 404 (error_body "User not found"), w1)
  | (Some (row :: _), w1) => (Respond 200 row, w1)
  end.

(** [GET /users/me] as the server routes it. [app.get("/users/:id")] is
    registered before [app.get('/users/me', authenticateToken, ...)] and
    answers on every path without calling [next()]: a [GET] of
    [/users/me] is answered by it, with [id = 'me'], and neither
    [authenticateToken] nor [users_me] runs. MySQL compares the integer
    column [id] with the text ['me'] as numbers, where ['me'] is 0. *)
Definition get_users_me (req : request) (w : world) : response * world :=
  get_user (set_param_id 0 req) w.

(** *** DELETE /users/:id *)

(** [DELETE FROM users WHERE id = ?]; the result is [affectedRows]. *)
Definition delete_user (id : Z) (w : world) : Z * world :=
  (Z.of_nat (List.length (filter (fun u => u_id u =? id) (users w))),
   set_users (filter (fun u => negb (u_id u =? id)) (users w))
             (users_next_id w) w).

(** [{ id }] holds the route parameter as the text of the URL: here the
    decimal writing of the integer. [res.status(204).send()] has no
    body, written [JNull]. *)
Definition delete_users (req : request) (w : world) : response * world :=
  let id := param_id req in
  let userId := x_user_id req in
  match db_query (delete_user id) w with
  | (None, w1) => (Respond 500 (error_body "Failed to delete user"), w1)
  | (Some affectedRows, w1) =>
      if affectedRows =? 0 then
        (Respond 404 (error_body "User not found"), w1)
      else
        (* Log the delete action; a failure is only printed *)
        let w2 := snd (db_query (insert_log userId "delete" id) w1) in
        match broadcastUpdate "USER_DELETED"
                              (JObj [("id", JStr (string_of_Z id))]) w2 with
        | (false, w3) => (NoResponse, w3)
        | (true, w3) => (Respond 204 JNull, w3)
        end
  end.

(** *** The WebSocket server: a new connection *)

(** The callback of [wss.on('connection')] for a socket that the server
    has just added to [wss.clients]: it is sent the initial data, unless
    [getAllUsers] rejects, which is caught and printed. *)
Definition on_connection (id : Z) (w : world) : world :=
  let ws := mkClient id WebSocket_OPEN [] in
  match getAllUsers w with
  | (None, w1) => set_wss_clients (wss_clients w1 ++ [ws]) w1
  | (Some allUsers, w1) =>
      set_wss_clients
        (wss_clients w1 ++ [ws_send (envelope "INITIAL_DATA" JNull allUsers) ws])
        w1
  end.

(** *** POST /register *)

(** [bcrypt.hash(data, 10)], given the salt that it draws. *)
Variable bcrypt_hash : string -> string -> string.

(** [INSERT INTO users (name, email, password, type) VALUES (?, ?, ?, ?)] *)
Definition insert_user_with_password (name email password type : string)
  (w : world) : Z * world :=
  let new_id := users_next_id w in
  (new_id,
   set_users
     (users w ++ [mkUser new_id name email type None (Some password) None false])
     (new_id + 1) w).

(** [!field] on a body field. *)
Definition blank (field : string) : bool := String.eqb field EmptyString.

Definition post_register (salt : string) (req : request) (w : world)
  : response * world :=
  let name := body_name req in
  let email := body_email req in
  let password := body_password req in
  let type := body_type req in
  if blank name || blank email || blank password || blank type then
    (Respond 400 (error_body "All fields are required"), w)
  else
    match db_query (read_only (select_id_where_email email)) w with
    | (None, w1) => (Respond 500 (error_body "Server error"), w1)
    | (Some results, w1) =>
        if (0 <? List.length results)%nat then
          (Respond 400 (error_body "Email already exists"), w1)
        else
          let hashedPassword := bcrypt_hash salt password in
          match db_query
                  (insert_user_with_password name email hashedPassword type)
                  w1 with
          | (None, w2) => (Respond 500 (error_body "Server error"), w2)
          | (Some insertId, w2) =>
              (Respond 201 (JObj [("id", JNum insertId); ("name", JStr name);
                                  ("email", JStr email); ("type", JStr type)]),
               w2)
          end
    end.

(** *** POST /2fa/setup *)

(** [QRCode.toDataURL(text, cb)]: [None] is [cb(err)]. *)
Variable qrcode_toDataURL : string -> option string.

(** The migration declares [two_factor_secret VARCHAR(32)]. *)
Definition two_factor_secret_width : nat := 32.

(** What the column keeps of a text: its first 32 characters. *)
Definition column_text (secret : string) : string :=
  substring 0 two_factor_secret_width secret.

Definition too_long (secret : string) : bool :=
  (two_factor_secret_width <? String.length secret)%nat.

(** The [sql_mode] of the store, which the source does not set. In a
    strict mode (the default from MySQL 5.7 on) a row that is given a
    text longer than its column makes the statement fail with [Data too
    long]; otherwise the text is cut to the width of the column. *)
Variable sql_strict : bool.

(** [UPDATE users SET two_factor_secret = ? WHERE id = ?]; [false] is
    the statement failing on a row that it matched. *)
Definition update_secret (secret : string) (id : Z) (w : world)
  : bool * world :=
  if sql_strict && too_long secret
     && existsb (fun u => u_id u =? id) (users w)
  then (false, w)
  else
    (true,
     set_users
       (map (fun u =>
               if u_id u =? id
               then mkUser (u_id u) (u_name u) (u_email u) (u_type u)
                           (u_image u) (u_password u)
                           (Some (column_text secret))
                           (u_two_factor_enabled u)
               else u)
            (users w))
       (users_next_id w) w).

(** [generated] is what [speakeasy.generateSecret] drew: its [base32]
    (52 characters for the 32 bytes that it draws by default) and its
    [otpauth_url]. *)
Definition twofa_setup (generated : string * string) (user : Jwt.claims)
  (req : request) (w : world) : response * world :=
  let userId := Jwt.id user in
  let base32 := fst generated in
  let otpauth_url := snd generated in
  match db_query (update_secret base32 userId) w with
  | (None, w1) | (Some false, w1) =>
      (Respond 500 (error_body "Failed to setup 2FA"), w1)
  | (Some true, w1) =>
      match qrcode_toDataURL otpauth_url with
      | None => (Respond 500 (error_body "Failed to generate QR code"), w1)
      | Some data_url =>
          (Respond 200 (JObj [("secret", JStr base32);
                              ("qrCode", JStr data_url)]), w1)
      end
  end.

Definition post_2fa_setup (generated : string * string)
  : request -> world -> response * world :=
  authenticated (twofa_setup generated).

(** *** GET /users and GET /users/count: the statement they send *)

(** [req.query]: each parameter is absent or a text. *)
Record users_query := mkUsersQuery {
  q_name : option string;
  q_email : option string;
  q_type : option string;
  q_sort : option string;
  q_order : option string;
  q_limit : option string;
  q_offset : option string
}.

(** A bound parameter: a text, or a number ([None] is [NaN]). *)
Inductive sql_param :=
| PText (s : string)
| PNumber (n : option Z).

(** [parseInt] on a text; [None] is [NaN]. *)
Variable parseInt : string -> option Z.

(** [toLowerCase] and [toUpperCase], on the ASCII letters. *)
Definition lower_ascii (c : Ascii.ascii) : Ascii.ascii :=
  let n := Ascii.nat_of_ascii c in
  if ((65 <=? n) && (n <=? 90))%nat then Ascii.ascii_of_nat (n + 32) else c.

Definition upper_ascii (c : Ascii.ascii) : Ascii.ascii :=
  let n := Ascii.nat_of_ascii c in
  if ((97 <=? n) && (n <=? 122))%nat then Ascii.ascii_of_nat (n - 32) else c.

Fixpoint toLowerCase (s : string) : string :=
  match s with
  | EmptyString => EmptyString
  | String c rest => String (lower_ascii c) (toLowerCase rest)
  end.

Fixpoint toUpperCase (s : string) : string :=
  match s with
  | EmptyString => EmptyString
  | String c rest => String (upper_ascii c) (toUpperCase rest)
  end.

(** A destructuring default: [{ sort = 'name' } = req.query]. *)
Definition defaulted (default : string) (value : option string) : string :=
  match value with
  | Some s => s
  | None => default
  end.

(** [parseInt(limit)] where [limit] defaults to the number [default]. *)
Definition parsed (default : Z) (value : option string) : option Z :=
  match value with
  | Some s => parseInt s
  | None => Some default
  end.

(** [`%${name}%`] *)
Definition containing (s : string) : string :=
  String.append "%" (String.append s "%").

(** [if (value) { query += clause; params.push(param) }] *)
Definition filtered (value : option string) (clause : string)
  (param : string -> sql_param) (acc : string * list sql_param)
  : string * list sql_param :=
  if truthy value
  then (String.append (fst acc) clause,
        snd acc ++ [param (defaulted EmptyString value)])
  else acc.

Definition allowedSort : list string := ["name"; "email"; "type"; "created_at"].
Definition allowedOrder : list string := ["asc"; "desc"].

(** The text and the parameters that [GET /users] hands to [db.query]. *)
Definition users_list_statement (q : users_query) : string * list sql_param :=
  let sort := defaulted "name" (q_sort q) in
  let order := defaulted "asc" (q_order q) in
  let '(query, params) :=
    filtered (q_type q) " AND type = ?" PText
      (filtered (q_email q) " AND email LIKE ?" (fun s => PText (containing s))
         (filtered (q_name q) " AND name LIKE ?" (fun s => PText (containing s))
            ("SELECT * FROM users WHERE 1=1", []))) in
  let sortCol := if existsb (String.eqb sort) allowedSort then sort else "name" in
  let sortOrder :=
    if existsb (String.eqb (toLowerCase order)) allowedOrder
    then toUpperCase order else "ASC" in
  (String.append query
     (String.append " ORDER BY "
        (String.append sortCol
           (String.append " " (String.append sortOrder " LIMIT ? OFFSET ?")))),
   params ++ [PNumber (parsed 10 (q_limit q)); PNumber (parsed 0 (q_offset q))]).

(** The text and the parameters that [GET /users/count] hands to
    [db.query]; it reads [name] and [type] only. *)
Definition users_count_statement (q : users_query) : string * list sql_param :=
  filtered (q_type q) " AND type = ?" PText
    (filtered (q_name q) " AND name LIKE ?" (fun s => PText (containing s))
       ("SELECT COUNT(*) as count FROM users WHERE 1=1", [])).

(** The number of [?] in a statement. *)
Fixpoint placeholders (s : string) : nat :=
  match s with
  | EmptyString => O
  | String c rest =>
      if Ascii.eqb c (Ascii.ascii_of_nat 63)
      then S (placeholders rest) else placeholders rest
  end.

(** *** populateUsers.js *)

Definition BATCH_SIZE : Z := 1000.
Definition TOTAL : Z := 100000.

(** The [i]-th draw of faker: a name, an email, a type out of
    ['admin'] and ['user'], an avatar. *)
Variable faker : Z -> string * string * string * string.

(** [INSERT INTO users (name, email, type, image) VALUES ?] with a list
    of rows. *)
Fixpoint insert_rows (values : list (string * string * string * string))
  (w : world) : world :=
  match values with
  | [] => w
  | (name, email, type, image) :: rest =>
      insert_rows rest
        (set_users
           (users w ++ [mkUser (users_next_id w) name email type (Some image)
                               None None false])
           (users_next_id w + 1) w)
  end.

Definition insert_values (values : list (string * string * string * string))
  (w : world) : unit * world :=
  (tt, insert_rows values w).

(** How a run of the script ends: ['Done!'], the error of a query
    thrown, or still running when the fuel of the model is spent. *)
Inductive populated :=
| Done (w : world)
| Thrown (w : world)
| Running (inserted : Z) (w : world).

Fixpoint insertBatch (fuel : nat) (inserted : Z) (w : world) : populated :=
  match fuel with
  | O => Running inserted w
  | S fuel' =>
      if inserted >=? TOTAL then Done w
      else
        let values :=
          map (fun i => faker (inserted + Z.of_nat i))
              (seq 0 (Z.to_nat BATCH_SIZE)) in
        match db_query (insert_values values) w with
        | (None, w1) => Thrown w1
        | (Some _, w1) => insertBatch fuel' (inserted + BATCH_SIZE) w1
        end
  end.

(** *** Vocabulary of the specification *)

(** The world in which the next query has been answered. *)
Definition answered (w : world) : world :=
  set_db_faults (tl (db_faults w)) w.

(** What can be wrong with the token of a request, in the words of the
    specification: missing, invalid, expired. *)
Inductive token_problem := Missing | Invalid | Expired.

Inductive has_problem (req : request) (now : Z) : token_problem -> Prop :=
| no_header :
    authorization req = None -> has_problem req now Missing
| no_token parts :
    authorization req = Some parts -> nth_error parts 1 = None ->
    has_problem req now Missing
| empty_token parts :
    authorization req = Some parts ->
    nth_error parts 1 = Some (Jwt.Raw EmptyString) ->
    has_problem req now Missing
| malformed parts text :
    authorization req = Some parts ->
    nth_error parts 1 = Some (Jwt.Raw text) -> text <> EmptyString ->
    has_problem req now Invalid
| bad_signature parts key payload :
    authorization req = Some parts ->
    nth_error parts 1 = Some (Jwt.Jws key payload) -> key <> JWT_SECRET ->
    has_problem req now Invalid
| expired parts payload e :
    authorization req = Some parts ->
    nth_error parts 1 = Some (Jwt.Jws JWT_SECRET payload) ->
    Jwt.exp payload = Some e -> e <= now ->
    has_problem req now Expired.

(** The answers of [authenticateToken] to a request it turns down. *)
Definition rejection (p : token_problem) : response :=
  match p with
  | Missing => Respond 401 (error_body "Access token required")
  | Invalid | Expired => Respond 403 (error_body "Invalid or expired token")
  end.

(** The body with which [POST /login] asks for the second factor. *)
Definition challenge (tempToken : Jwt.token) : json :=
  JObj [("requiresTwoFactor", JBool true); ("tempToken", JTok tempToken)].

(** The body with which [POST /login] grants access at once. *)
Definition granted (accessToken : Jwt.token) (profile : json) : json :=
  JObj [("accessToken", JTok accessToken); ("user", profile)].

(** The token of this server for [user], issued at [now] for [ttl]
    seconds, without the [twoFactorVerified] claim. *)
Definition issued (user : user_row) (now ttl : Z) : Jwt.token :=
  Jwt.Jws JWT_SECRET
          (Jwt.mkClaims (u_id user) (u_email user) None (Some now)
                        (Some (now + ttl))).

(** [after] is [before] with the one message [msg] added. *)
Definition received_one (msg : json) (before after : ws_client) : Prop :=
  ws_id after = ws_id before
  /\ readyState after = readyState before
  /\ ws_sent after = ws_sent before ++ [msg].

(** Every client whose socket is open has received [msg] once; the other
    clients are as before. *)
Definition delivered (msg : json) (before after : list ws_client) : Prop :=
  Forall2 (fun c c' => if readyState c =? WebSocket_OPEN
                       then received_one msg c c' else c' = c)
          before after.

(** The two write operations that carry an email. *)
Inductive write := Create | Update.

Definition handle (op : write) : request -> world -> response * world :=
  match op with
  | Create => post_users
  | Update => patch_users
  end.

(** The email of the request belongs to an entry other than the one
    written: any entry for a create, an entry with another id for an
    update. *)
Definition collides (op : write) (req : request) (w : world) : Prop :=
  exists u, In u (users w) /\ u_email u = body_email req
            /\ match op with
               | Create => True
               | Update => u_id u <> param_id req
               end.

(** The answer to a write whose email is taken. *)
Definition conflict (op : write) : response :=
  match op with
  | Create =>
      Respond 400 (JObj [("errors",
                          JArr [JObj [("param", JStr "email");
                                      ("msg", JStr "Email already exists")]])])
  | Update => Respond 400 (error_body "Email already exists")
  end.

(** The trailing two-minute window: later than [now - 120], not later
    than [now]. *)
Definition in_window (now : Z) (l : log_row) : bool :=
  (now - 120 <? l_timestamp l) && (l_timestamp l <=? now).

Definition by_actor (actor : Z) (l : log_row) : bool :=
  match l_user_id l with
  | Some u => u =? actor
  | None => false
  end.

(** The number of logged events of [actor] inside the window. *)
Definition events_in_window (w : world) (actor : Z) : Z :=
  Z.of_nat
    (List.length
       (filter (fun l => by_actor actor l && in_window (clock w) l) (logs w))).

(** The store dates the events itself: none is dated after the clock. *)
Definition dated (w : world) : Prop :=
  forall l, In l (logs w) -> l_timestamp l <= clock w.

(** The number of rows of [monitored_users] that flag [actor]. *)
Definition flags_of (actor : Z) (table : list monitored_row) : Z :=
  Z.of_nat (List.length (filter (fun m => m_user_id m =? actor) table)).

(** The effect of one [INSERT IGNORE] of the monitor on the table. *)
Definition ignore_insert (now : Z) (table : list monitored_row) (row : Z * Z)
  : list monitored_row :=
  let new := mkMonitored (fst row) (high_frequency (snd row)) now in
  if existsb (fun old => monitored_unique old new) table
  then table else table ++ [new].

(** The ids handed out so far are below the next one. *)
Definition ids_fresh (w : world) : Prop :=
  forall u, In u (users w) -> u_id u < users_next_id w.

(** What the directory keeps: fresh ids, and no two entries with the
    same id or the same email. *)
Definition consistent (w : world) : Prop :=
  ids_fresh w
  /\ NoDup (map u_id (users w))
  /\ NoDup (map u_email (users w)).

(** No entry other than entry [id] holds [email]. *)
Definition email_free_for (id : Z) (email : string) (w : world) : Prop :=
  forall u, In u (users w) -> u_email u = email -> u_id u = id.

(** The row that an update or a delete by [actor] writes to the logs. *)
Definition event (actor : option Z) (action : string) (id : Z) (w : world)
  : log_row :=
  mkLog actor action "user" id (clock w).

(** [n] times the same update, one after the other. *)
Fixpoint patch_users_times (n : nat) (req : request) (w : world) : world :=
  match n with
  | O => w
  | S n' => patch_users_times n' req (snd (patch_users req w))
  end.

(** A request that carries [t] as [Authorization: Bearer t]. *)
Definition bearer (t : Jwt.token) : request :=
  mkRequest (Some [Jwt.Raw "Bearer"; t]) None 0 EmptyString EmptyString
            EmptyString None EmptyString.

(** In the words of the specification: the user has a second-factor
    secret enrolled. *)
Definition enrolled (user : user_row) : Prop :=
  exists secret,
    u_two_factor_secret user = Some secret /\ secret <> EmptyString.

(** An answer that turns the request down: a status from 400 on. *)
Definition refused (r : response) : bool :=
  match r with
  | Respond status _ => 400 <=? status
  | NoResponse => false
  end.

(** The tables and the clients of [w'] are those of [w]. *)
Definition same_content (w w' : world) : Prop :=
  users w' = users w
  /\ users_next_id w' = users_next_id w
  /\ logs w' = logs w
  /\ monitored_users w' = monitored_users w
  /\ wss_clients w' = wss_clients w.

(** *** Sample data *)

Definition sample_secret : string := "JBSWY3DPEHPK3PXP".

Definition ana : user_row :=
  mkUser 1 "Ana" "ana@example.com" "admin" (Some "ana.png")
         (Some "hash-of-ana") (Some sample_secret) false.

Definition bob : user_row :=
  mkUser 2 "Bob" "bob@example.com" "user" None (Some "hash-of-bob") None false.

Definition open_client : ws_client := mkClient 1 WebSocket_OPEN [].
Definition closing_client : ws_client := mkClient 2 2 [].

Definition sample_world_at (now : Z) : world :=
  mkWorld [ana; bob] 3 [] [] [open_client; closing_client] now [].

Definition sample_world : world := sample_world_at 1000.

(** A stand-in for speakeasy: the code of every secret is ["123456"]
    at counter 34 and nothing else. *)
Definition sample_hotp (secret : option string) (counter : Z) (token : string)
  : bool :=
  String.eqb token "123456" && (counter =? 34).

(** A log of [n] updates by actor 7 at time 950, and one by nobody. *)
Definition busy_world (n : nat) : world :=
  mkWorld [ana; bob] 3
          (mkLog None "delete" "user" 2 990
           :: repeat (mkLog (Some 7) "update" "user" 1 950) n)
          [] [] 1000 [].

(** A unique index on [monitored_users.user_id]. *)
Definition unique_user_id (old new : monitored_row) : bool :=
  m_user_id old =? m_user_id new.

Definition code_request (t : Jwt.token) (code : string) : request :=
  mkRequest (Some [Jwt.Raw "Bearer"; t]) None 0 EmptyString EmptyString
            EmptyString None code.

Definition write_request (id : Z) (name email type : string) : request :=
  mkRequest None (Some 7) id name email type None EmptyString.

(** Stand-ins for the sanitizer and the check of express-validator. *)
Definition sample_trim (s : string) : string := s.
Definition sample_isEmail (s : string) : bool := negb (String.eqb s EmptyString).

Definition login_request (email password : string) : request :=
  mkRequest None None 0 EmptyString email EmptyString (Some password)
            EmptyString.

Definition no_credentials : request :=
  mkRequest None None 0 EmptyString EmptyString EmptyString None EmptyString.

(** A stand-in for [bcrypt.hash], matching [sample_compare]. *)
Definition sample_hash (salt data : string) : string :=
  String.append "hash-of-" data.

(** A stand-in for [QRCode.toDataURL]: it fails on the empty text. *)
Definition sample_qrcode (text : string) : option string :=
  if String.eqb text EmptyString then None
  else Some (String.append "data:image/png;base64," text).

Definition sample_faker (i : Z) : string * string * string * string :=
  ("Name", "name@example.com", "user", "avatar.png").

Definition register_request (name email password type : string) : request :=
  mkRequest None None 0 name email type (Some password) EmptyString.

(** A session of Bob: a token granted at 900 for one hour. *)
Definition bob_session : Jwt.claims :=
  Jwt.mkClaims 2 "bob@example.com" None (Some 900) (Some 4500).

(** A verified session of Ana, from a login at 1000. *)
Definition ana_verified : Jwt.claims :=
  Jwt.mkClaims 1 "ana@example.com" (Some true) (Some 1000) (Some 4600).

(** What [speakeasy.generateSecret] may draw: a base32 text of 52
    characters and its URL. *)
Definition sample_generated : string * string :=
  ("KRUGS4ZANFZSAYJAON2HE2LOM4QG6ZRAGMZCAYTZORSXGIDMN5XG",
   "otpauth://totp/YourApp").

(** A stand-in for [bcrypt.compare]: the hash of [p] is ["hash-of-" ++ p]. *)
Definition sample_compare (data hash : string) : bool :=
  String.eqb (String.append "hash-of-" data) hash.

(** ** Properties *)

(** *** The store *)

Lemma db_query_up {A : Type} (stmt : world -> A * world) (w : world) :
  db_faults w = [] ->
  db_query stmt w = (Some (fst (stmt w)), snd (stmt w)).
Proof.
  intros Hup. unfold db_query. rewrite Hup. now destruct (stmt w).
Qed.

Lemma db_query_answered {A : Type} (stmt : world -> A * world) (w : world) :
  hd false (db_faults w) = false ->
  db_query stmt w = (Some (fst (stmt (answered w))), snd (stmt (answered w))).
Proof.
  unfold db_query, answered. destruct w as [us n ls ms cs t fs]. simpl.
  destruct fs as [|[] fs]; simpl; intros H; try discriminate;
    unfold set_db_faults; simpl;
    match goal with |- context [stmt ?x] => now destruct (stmt x) end.
Qed.

(** *** The token guard *)

Lemma authenticateToken_problem req now p :
  has_problem req now p -> authenticateToken req now = inl (rejection p).
Proof.
  intros H. unfold authenticateToken, presented_token.
  destruct H as [Hh | parts Hh Ht | parts Hh Ht | parts text Hh Ht Hne
                | parts key payload Hh Ht Hk | parts payload e Hh Ht He Hle];
    rewrite Hh; try rewrite Ht; simpl; try reflexivity.
  - destruct text as [|c text]; [congruence | reflexivity].
  - destruct (String.eqb_spec key JWT_SECRET); [contradiction | reflexivity].
  - rewrite String.eqb_refl, He.
    destruct (Z.geb_spec now e); [reflexivity | lia].
Qed.

Lemma authenticateToken_valid req now payload e :
  presented_token req = Some (Jwt.Jws JWT_SECRET payload) ->
  Jwt.exp payload = Some e -> now < e ->
  authenticateToken req now = inr payload.
Proof.
  intros Htok He Hlt. unfold authenticateToken. rewrite Htok.
  unfold Jwt.verify. rewrite String.eqb_refl, He.
  destruct (Z.geb_spec now e); [lia | reflexivity].
Qed.

(** C7, as the code has it: a request without a token is answered 401
    "Access token required", a request whose token is invalid or
    expired is answered 403 "Invalid or expired token"; in each case
    the guarded handler is not run and the world is left as it was. *)
Theorem authenticated_rejects handler req w p :
  has_problem req (clock w) p ->
  authenticated handler req w = (rejection p, w).
Proof.
  intros H. unfold authenticated.
  now rewrite (authenticateToken_problem _ _ _ H).
Qed.

(** *** Login *)

Lemma answered_users w : users (answered w) = users w.
Proof. reflexivity. Qed.

Lemma answered_clock w : clock (answered w) = clock w.
Proof. reflexivity. Qed.

(** A read-only query changes nothing but the queue of faults. *)
Lemma db_query_read_only {A : Type} (q : world -> A) (w : world) :
  db_query (read_only q) w = (None, answered w)
  \/ db_query (read_only q) w = (Some (q (answered w)), answered w).
Proof.
  unfold db_query, answered, read_only.
  destruct w as [us n ls ms cs t fs]; simpl.
  destruct fs as [|[] fs]; simpl; auto.
Qed.

Lemma post_login_cases req w :
  hd false (db_faults w) = false ->
  post_login req w =
  (match filter (fun u => String.eqb (u_email u) (body_email req)) (users w) with
   | [] => invalid_credentials
   | user :: _ =>
       match u_password user, password_sent req with
       | Some hash, Some password =>
           if bcrypt_compare password hash then
             if truthy (u_two_factor_secret user)
             then Respond 200 (challenge (issued user (clock w) 300))
             else Respond 200 (granted (issued user (clock w) 3600)
                                       (userResponse user))
           else invalid_credentials
       | _, _ => NoResponse
       end
   end, answered w).
Proof.
  intros Hup. unfold post_login.
  rewrite (db_query_answered _ _ Hup). unfold read_only; simpl fst; simpl snd.
  unfold select_users_where_email. rewrite answered_users, answered_clock.
  destruct (filter _ (users w)) as [|user rest]; [reflexivity |].
  destruct (u_password user) as [hash|]; [| reflexivity].
  destruct (password_sent req) as [password|]; [| reflexivity].
  destruct (bcrypt_compare password hash); simpl; [| reflexivity].
  destruct (truthy (u_two_factor_secret user)); reflexivity.
Qed.

(** [if (user.two_factor_secret)] holds exactly for the users that the
    specification calls enrolled. *)
Lemma truthy_enrolled user :
  truthy (u_two_factor_secret user) = true <-> enrolled user.
Proof.
  unfold truthy, enrolled. destruct (u_two_factor_secret user) as [s|].
  - destruct (String.eqb_spec s EmptyString) as [-> | Hne]; simpl.
    + split; [discriminate |]. intros [s' [[= <-] Hs']]. contradiction.
    + split; [| reflexivity]. intros _. now exists s.
  - split; [discriminate |]. intros [s' [Hs' _]]. discriminate.
Qed.

(** C5, as the code has it. A login whose lookup the store answers
    fails with 401 "Invalid credentials" when no user has the email or
    the stored hash does not match the password sent; for a matching
    password it returns, when the user has no second-factor secret
    enrolled, a one-hour token and the profile made of exactly id,
    email, name and type, and when the user is enrolled,
    [requiresTwoFactor] and a five-minute token only. No answer of the
    login has a [password] or [two_factor_secret] key. But when the
    matched user has no hash stored, or the body has no password, the
    login sends no answer at all: [bcrypt.compare] rejects and nothing
    catches it. *)
Theorem login_outcomes req w :
  hd false (db_faults w) = false ->
  let found :=
    filter (fun u => String.eqb (u_email u) (body_email req)) (users w) in
  let answer := fst (post_login req w) in
  (found = [] -> answer = Respond 401 (error_body "Invalid credentials"))
  /\ (forall user hash password,
        hd_error found = Some user -> u_password user = Some hash ->
        password_sent req = Some password ->
        bcrypt_compare password hash = false ->
        answer = Respond 401 (error_body "Invalid credentials"))
  /\ (forall user hash password,
        hd_error found = Some user -> u_password user = Some hash ->
        password_sent req = Some password ->
        bcrypt_compare password hash = true ->
        ~ enrolled user ->
        answer =
        Respond 200
          (JObj [("accessToken", JTok (issued user (clock w) 3600));
                 ("user", JObj [("id", JNum (u_id user));
                                ("email", JStr (u_email user));
                                ("name", JStr (u_name user));
                                ("type", JStr (u_type user))])]))
  /\ (forall user hash password,
        hd_error found = Some user -> u_password user = Some hash ->
        password_sent req = Some password ->
        bcrypt_compare password hash = true ->
        enrolled user ->
        answer =
        Respond 200
          (JObj [("requiresTwoFactor", JBool true);
                 ("tempToken", JTok (issued user (clock w) 300))]))
  /\ (forall user,
        hd_error found = Some user ->
        u_password user = None \/ password_sent req = None ->
        answer = NoResponse)
  /\ (forall body,
        body_of answer = Some body ->
        existsb credential_key (all_keys body) = false).
Proof.
  intros Hup found answer. subst answer.
  rewrite (post_login_cases _ _ Hup). fold found. simpl fst.
  repeat split.
  - intros ->. reflexivity.
  - intros user hash password Hf Hp Hs Hc. destruct found; inversion Hf; subst.
    now rewrite Hp, Hs, Hc.
  - intros user hash password Hf Hp Hs Hc Ht.
    destruct found; inversion Hf; subst. rewrite Hp, Hs, Hc.
    destruct (truthy (u_two_factor_secret user)) eqn:E; [| reflexivity].
    apply truthy_enrolled in E. contradiction.
  - intros user hash password Hf Hp Hs Hc Ht.
    destruct found; inversion Hf; subst. rewrite Hp, Hs, Hc.
    apply truthy_enrolled in Ht. now rewrite Ht.
  - intros user Hf [Hp | Hs]; destruct found; inversion Hf; subst.
    + now rewrite Hp.
    + rewrite Hs. now destruct (u_password user).
  - intros body. destruct found as [|user rest].
    + intros [= <-]. reflexivity.
    + destruct (u_password user); [| discriminate].
      destruct (password_sent req); [| discriminate].
      destruct (bcrypt_compare _ _); [| intros [= <-]; reflexivity].
      destruct (truthy _); intros [= <-]; reflexivity.
Qed.

(** The token that the login hands out with a challenge. *)
Lemma post_login_challenge req w tempToken :
  fst (post_login req w) = Respond 200 (challenge tempToken) ->
  exists user, tempToken = issued user (clock w) 300.
Proof.
  unfold post_login.
  destruct (db_query_read_only
              (select_users_where_email (body_email req)) w) as [-> | ->];
    [discriminate |].
  destruct (select_users_where_email _ _) as [|user rest]; [discriminate |].
  destruct (u_password user) as [hash|]; [| discriminate].
  destruct (password_sent req) as [password|]; [| discriminate].
  destruct (negb _); [discriminate |].
  rewrite answered_clock.
  destruct (truthy _); simpl.
  - intros [= <-]. now exists user.
  - discriminate.
Qed.

(** C1, as the code has it: the token that the login hands out with
    the challenge carries no [twoFactorVerified] claim, and
    [authenticateToken], the only guard of the server, lets it through
    to any handler until 300 seconds after the login; from then on it
    is answered 403 "Invalid or expired token". *)
Theorem pending_token_until_expiry handler req w tempToken req' w' :
  fst (post_login req w) = Respond 200 (challenge tempToken) ->
  presented_token req' = Some tempToken ->
  exists user,
    tempToken = Jwt.Jws JWT_SECRET user
    /\ Jwt.twoFactorVerified user = None
    /\ authenticated handler req' w' =
       if clock w' <? clock w + 300
       then handler user req' w'
       else (Respond 403 (error_body "Invalid or expired token"), w').
Proof.
  intros Hlogin Htok.
  destruct (post_login_challenge _ _ _ Hlogin) as [user ->].
  eexists. split; [reflexivity |]. split; [reflexivity |].
  unfold authenticated, authenticateToken. rewrite Htok.
  unfold issued, Jwt.verify. rewrite String.eqb_refl. simpl.
  destruct (Z.geb_spec (clock w') (clock w + 300));
    destruct (Z.ltb_spec (clock w') (clock w + 300)); try lia; reflexivity.
Qed.

(** *** The directory: create and update *)

Lemma db_query_cases {A : Type} (stmt : world -> A * world) (w : world) :
  db_query stmt w = (None, answered w)
  \/ db_query stmt w
     = (Some (fst (stmt (answered w))), snd (stmt (answered w))).
Proof.
  unfold db_query, answered. destruct w as [us n ls ms cs t fs]; simpl.
  destruct fs as [|[] fs]; simpl; auto; right;
    unfold set_db_faults; simpl;
    match goal with |- context [stmt ?x] => now destruct (stmt x) end.
Qed.

Lemma delivered_map msg cs :
  delivered msg cs
    (map (fun client => if readyState client =? WebSocket_OPEN
                        then ws_send msg client else client) cs).
Proof.
  unfold delivered. induction cs as [|c cs IH]; simpl; constructor; auto.
  destruct (readyState c =? WebSocket_OPEN); [| reflexivity].
  repeat split.
Qed.

Lemma broadcastUpdate_cases type data w :
  broadcastUpdate type data w = (false, answered w)
  \/ (broadcastUpdate type data w
      = (true,
         set_wss_clients
           (map (fun client =>
                   if readyState client =? WebSocket_OPEN
                   then ws_send (envelope type data (users w)) client
                   else client)
                (wss_clients w))
           (answered w))).
Proof.
  unfold broadcastUpdate, getAllUsers.
  destruct (db_query_read_only select_all_users w) as [-> | ->]; auto.
Qed.

Lemma broadcastUpdate_up type data w :
  db_faults w = [] ->
  broadcastUpdate type data w
  = (true,
     set_wss_clients
       (map (fun client =>
               if readyState client =? WebSocket_OPEN
               then ws_send (envelope type data (users w)) client
               else client)
            (wss_clients w))
       w).
Proof.
  intros Hup. unfold broadcastUpdate, getAllUsers.
  now rewrite (db_query_up _ _ Hup).
Qed.

Lemma filter_nil_iff {A : Type} (f : A -> bool) (l : list A) :
  filter f l = [] <-> forall x, In x l -> f x = false.
Proof.
  induction l as [|a l IH]; simpl.
  - split; [intros _ x [] | reflexivity].
  - destruct (f a) eqn:Ha; split.
    + discriminate.
    + intros H. specialize (H a (or_introl eq_refl)). congruence.
    + intros H x [<- | Hx]; [exact Ha | now apply IH].
    + intros H. apply IH. intros x Hx. apply H. now right.
Qed.

Lemma taken_results {A : Type} (f : user_row -> bool) (g : user_row -> A)
  (us : list user_row) (u : user_row) :
  In u us -> f u = true -> (0 <? List.length (map g (filter f us)))%nat = true.
Proof.
  intros Hin Hf.
  destruct (filter f us) as [|x xs] eqn:E; [| reflexivity].
  rewrite (proj1 (filter_nil_iff f us) E u Hin) in Hf. discriminate.
Qed.

(** C4: a valid create or update whose email belongs to another entry,
    and whose duplicate check the store answers, is refused with 400
    "Email already exists"; the users, the logs and the monitored users
    are as before and no client has been sent anything. *)
Theorem duplicate_email_refused op req w :
  validateUser req = [] ->
  hd false (db_faults w) = false ->
  collides op req w ->
  let w' := snd (handle op req w) in
  fst (handle op req w) = conflict op
  /\ users w' = users w
  /\ users_next_id w' = users_next_id w
  /\ logs w' = logs w
  /\ monitored_users w' = monitored_users w
  /\ wss_clients w' = wss_clients w.
Proof.
  intros Hvalid Hup [u (Hin & Hmail & Hother)].
  destruct op; simpl handle; cbv zeta.
  - unfold post_users, handleValidationErrors.
    rewrite Hvalid, (db_query_answered _ _ Hup).
    unfold read_only, select_id_where_email; simpl fst; simpl snd.
    rewrite (taken_results _ u_id _ u Hin); [repeat split |].
    rewrite Hmail. apply String.eqb_refl.
  - unfold patch_users, handleValidationErrors.
    rewrite Hvalid, (db_query_answered _ _ Hup).
    unfold read_only, select_id_where_email_not_id; simpl fst; simpl snd.
    rewrite (taken_results _ u_id _ u Hin); [repeat split |].
    rewrite Hmail, String.eqb_refl. simpl.
    destruct (Z.eqb_spec (u_id u) (param_id req)); [contradiction | reflexivity].
Qed.

(** C3, as the code has it: a valid create whose email no entry has,
    with the store answering, is answered 201, persists the entry and
    sends every open client one ['USER_ADDED'] envelope whose [allUsers]
    ends with the new entry -- and leaves the logs as they were: no
    ['create'] event is written. *)
Theorem post_users_writes_no_log req w :
  validateUser req = [] ->
  db_faults w = [] ->
  (forall u, In u (users w) -> u_email u <> body_email req) ->
  let entry :=
    mkUser (users_next_id w) (validator_trim (body_name req))
           (body_email req) (body_type req) None None None false in
  let newUser :=
    JObj [("id", JNum (users_next_id w));
          ("name", JStr (validator_trim (body_name req)));
          ("email", JStr (body_email req));
          ("type", JStr (body_type req));
          ("image", JNull)] in
  let w' := snd (post_users req w) in
  fst (post_users req w) = Respond 201 newUser
  /\ users w' = users w ++ [entry]
  /\ delivered (JObj [("type", JStr "USER_ADDED");
                      ("data", newUser);
                      ("allUsers", JArr (map row_json (users w ++ [entry])))])
               (wss_clients w) (wss_clients w')
  /\ logs w' = logs w.
Proof.
  intros Hvalid Hup Hfree. cbv zeta.
  unfold post_users, handleValidationErrors.
  rewrite Hvalid, (db_query_up _ _ Hup).
  unfold read_only, select_id_where_email; simpl fst; simpl snd.
  assert (E : filter (fun u => String.eqb (u_email u) (body_email req)) (users w)
              = []).
  { apply filter_nil_iff. intros u Hin.
    destruct (String.eqb_spec (u_email u) (body_email req)); [| reflexivity].
    now apply Hfree in Hin. }
  rewrite E. simpl.
  rewrite (db_query_up _ _ Hup). simpl fst; simpl snd.
  rewrite broadcastUpdate_up by exact Hup. simpl.
  repeat split. apply delivered_map.
Qed.

(** C10: whenever an update is answered 200, each stored entry keeps its
    id, image, password, second-factor secret and flag, the entries with
    another id are untouched and the entry updated has the name, email
    and type of the request; the body of the answer and the [data] of the
    ['USER_UPDATED'] envelope sent to every open client are the entry
    with [image: null]. *)
Theorem patch_users_reports_null_image req w body :
  fst (patch_users req w) = Respond 200 body ->
  let w' := snd (patch_users req w) in
  body = JObj [("id", JNum (param_id req));
               ("name", JStr (validator_trim (body_name req)));
               ("email", JStr (body_email req));
               ("type", JStr (body_type req));
               ("image", JNull)]
  /\ Forall2 (fun u u' =>
                u_id u' = u_id u
                /\ u_image u' = u_image u
                /\ u_password u' = u_password u
                /\ u_two_factor_secret u' = u_two_factor_secret u
                /\ u_two_factor_enabled u' = u_two_factor_enabled u
                /\ if u_id u =? param_id req
                   then u_name u' = validator_trim (body_name req)
                        /\ u_email u' = body_email req
                        /\ u_type u' = body_type req
                   else u' = u)
             (users w) (users w')
  /\ delivered (JObj [("type", JStr "USER_UPDATED");
                      ("data", body);
                      ("allUsers", JArr (map row_json (users w')))])
               (wss_clients w) (wss_clients w').
Proof.
  cbv zeta. unfold patch_users, handleValidationErrors.
  destruct (validateUser req); [| discriminate].
  destruct (db_query_read_only
              (select_id_where_email_not_id (body_email req) (param_id req)) w)
    as [-> | ->]; [discriminate |].
  destruct (0 <? List.length _)%nat; [discriminate |].
  destruct (db_query_cases
              (update_user (validator_trim (body_name req)) (body_email req)
                           (body_type req) (param_id req)) (answered w))
    as [-> | ->]; [discriminate |].
  simpl fst at 2. destruct (_ =? 0); [discriminate |].
  match goal with
  | |- context [broadcastUpdate ?t ?d ?x] =>
      destruct (broadcastUpdate_cases t d x) as [-> | ->]
  end; [discriminate |].
  simpl fst. intros [= <-]. split; [reflexivity |]. split.
  - simpl snd.
    assert (E : forall A (stmt : world -> A * world) x,
               users (snd (db_query stmt x)) = users (snd (stmt (answered x)))
               \/ users (snd (db_query stmt x)) = users x).
    { intros A stmt x. destruct (db_query_cases stmt x) as [-> | ->]; auto. }
    simpl users.
    match goal with
    | |- context [db_query ?stmt ?x] => destruct (E _ stmt x) as [-> | ->]
    end; simpl;
      induction (users w) as [|u us IH]; simpl; constructor; auto;
      destruct (u_id u =? param_id req); simpl; repeat split.
  - simpl snd. simpl wss_clients at 2.
    assert (E : forall A (stmt : world -> A * world) x,
               (forall y, wss_clients (snd (stmt y)) = wss_clients y) ->
               wss_clients (snd (db_query stmt x)) = wss_clients x).
    { intros A stmt x H. destruct (db_query_cases stmt x) as [-> | ->];
        [reflexivity | exact (H (answered x))]. }
    rewrite E by reflexivity. simpl wss_clients.
    apply delivered_map.
Qed.

(** *** The second factor *)

Lemma totp_verify_window secret token now :
  totp_verify secret token 1 now = true
  <-> exists step, -1 <= step <= 1
                   /\ hotp_matches secret (now / 30 + step) token = true.
Proof.
  unfold totp_verify, totp_window, totp_counter. simpl.
  rewrite !orb_true_iff. split.
  - intros [H | [H | [H | H]]]; [| | | discriminate].
    + exists (-1). split; [lia |].
      now replace (now / 30 + -1) with (now / 30 - 1 + 0) by lia.
    + exists 0. split; [lia |].
      now replace (now / 30 + 0) with (now / 30 - 1 + 1) by lia.
    + exists 1. split; [lia |].
      now replace (now / 30 + 1) with (now / 30 - 1 + 2) by lia.
  - intros [step [Hstep H]].
    assert (Hcases : step = -1 \/ step = 0 \/ step = 1) by lia.
    destruct Hcases as [-> | [-> | ->]].
    + left. now replace (now / 30 - 1 + 0) with (now / 30 + -1) by lia.
    + right; left. now replace (now / 30 - 1 + 1) with (now / 30 + 0) by lia.
    + right; right; left.
      now replace (now / 30 - 1 + 2) with (now / 30 + 1) by lia.
Qed.

(** C6, as the code has it: take the token that a login after the epoch
    handed out with its challenge, present it within its 300 seconds to
    the verification, with the store answering and a secret stored for
    the user. The code of the request is accepted exactly when it is
    the code of that secret for the current 30-second counter or for
    one of its two neighbours. The token issued on acceptance has the
    id, the email and the issue time of the presented one,
    [twoFactorVerified: true], and an expiry of one hour after that
    issue time, the time of the login, whenever the verification takes
    place; any other code is answered 401 "Invalid 2FA token". *)
Theorem second_factor_window req0 w0 user req w secret :
  fst (post_login req0 w0) = Respond 200 (challenge (Jwt.Jws JWT_SECRET user)) ->
  0 < clock w0 ->
  presented_token req = Some (Jwt.Jws JWT_SECRET user) ->
  clock w < clock w0 + 300 ->
  hd false (db_faults w) = false ->
  hd_error (map u_two_factor_secret
                (filter (fun u => u_id u =? Jwt.id user) (users w)))
  = Some (Some secret) ->
  let in_window :=
    exists step, -1 <= step <= 1
                 /\ hotp_matches (Some secret) (clock w / 30 + step)
                                 (body_token req) = true in
  let answer := fst (post_2fa_verify req w) in
  let verified :=
    Jwt.mkClaims (Jwt.id user) (Jwt.email user) (Some true) (Jwt.iat user)
                 (Some (clock w0 + 3600)) in
  Jwt.exp user = Some (clock w0 + 300)
  /\ (in_window <->
      answer = Respond 200 (JObj [("accessToken",
                                   JTok (Jwt.Jws JWT_SECRET verified))]))
  /\ (~ in_window -> answer = Respond 401 (error_body "Invalid 2FA token")).
Proof.
  intros Hlogin Hepoch Htok Hfresh Hup Hsecret in_window answer verified.
  destruct (post_login_challenge _ _ _ Hlogin) as [u Hu].
  unfold issued in Hu. injection Hu as ->.
  subst answer verified. simpl Jwt.exp. simpl Jwt.id in *. simpl Jwt.email.
  simpl Jwt.iat.
  split; [reflexivity |].
  unfold post_2fa_verify, authenticated.
  rewrite (authenticateToken_valid _ _ _ _ Htok eq_refl Hfresh).
  unfold twofa_verify. rewrite (db_query_answered _ _ Hup).
  unfold read_only, select_secret_where_id; simpl fst; simpl snd.
  simpl Jwt.id.
  destruct (map u_two_factor_secret _) as [|s rest]; [discriminate |].
  injection Hsecret as ->.
  unfold Jwt.sign. simpl.
  destruct (Z.eqb_spec (clock w0) 0); [lia |].
  destruct (totp_verify (Some secret) (body_token req) 1 (clock w)) eqn:Hv.
  - apply totp_verify_window in Hv.
    split; [split; [reflexivity | intros _; exact Hv] | contradiction].
  - assert (Hout : ~ in_window).
    { intros Hin. apply totp_verify_window in Hin. congruence. }
    split; [split; [contradiction | discriminate] | reflexivity].
Qed.

(** *** The background monitor *)

Lemma selected_actors_nonzero w actor :
  In actor (selected_actors w) -> actor <> 0.
Proof.
  unfold selected_actors. rewrite in_map_iff.
  intros [l [<- Hl]]. apply filter_In in Hl. destruct Hl as [_ Hl].
  unfold log_selected in Hl. unfold actor_of.
  destruct (l_user_id l) as [u|];
    [| now rewrite andb_false_r in Hl].
  apply andb_true_iff in Hl. destruct Hl as [_ Hu].
  destruct (Z.eqb_spec u 0); [discriminate | assumption].
Qed.

Lemma count_selected w actor :
  actor <> 0 -> dated w ->
  Z.of_nat (count_occ Z.eq_dec (selected_actors w) actor)
  = events_in_window w actor.
Proof.
  intros Hnz. unfold dated, events_in_window, selected_actors.
  generalize (clock w) as now. intros now Hdated. f_equal.
  induction (logs w) as [|l ls IH]; [reflexivity |].
  assert (Hstep : by_actor actor l && in_window now l
                  = log_selected now l && (actor_of l =? actor)).
  { specialize (Hdated l (or_introl eq_refl)).
    unfold by_actor, in_window, log_selected, actor_of. rewrite Z.gtb_ltb.
    destruct (Z.leb_spec (l_timestamp l) now); [| lia].
    rewrite andb_true_r.
    destruct (l_user_id l) as [u|]; simpl; [| now rewrite andb_false_r].
    destruct (now - 120 <? l_timestamp l);
      destruct (Z.eqb_spec u 0); destruct (Z.eqb_spec u actor);
      simpl; try reflexivity; congruence. }
  assert (IH' := IH (fun x Hx => Hdated x (or_intror Hx))).
  cbn [filter]. rewrite Hstep.
  destruct (log_selected now l); cbn [andb map]; [| exact IH'].
  cbn [count_occ].
  destruct (Z.eq_dec (actor_of l) actor);
    destruct (Z.eqb_spec (actor_of l) actor); try contradiction.
  - cbn [List.length]. now rewrite IH'.
  - exact IH'.
Qed.

Lemma suspicious_actors w :
  map fst (select_suspicious w)
  = filter (fun u => Z.of_nat (count_occ Z.eq_dec (selected_actors w) u) >? 10)
           (nodup Z.eq_dec (selected_actors w)).
Proof.
  unfold select_suspicious.
  induction (nodup Z.eq_dec (selected_actors w)) as [|u us IH];
    [reflexivity |].
  simpl. destruct (_ >? 10); simpl; now rewrite IH.
Qed.

Lemma suspicious_NoDup w : NoDup (map fst (select_suspicious w)).
Proof.
  rewrite suspicious_actors. apply NoDup_filter, NoDup_nodup.
Qed.

Lemma suspicious_iff w actor :
  dated w ->
  In actor (map fst (select_suspicious w))
  <-> actor <> 0 /\ events_in_window w actor > 10.
Proof.
  intros Hdated. rewrite suspicious_actors, filter_In, nodup_In. split.
  - intros [Hin Hc]. pose proof (selected_actors_nonzero _ _ Hin) as Hnz.
    split; [exact Hnz |]. rewrite <- (count_selected _ _ Hnz Hdated).
    now apply Z.gtb_gt.
  - intros [Hnz Hc]. rewrite <- (count_selected _ _ Hnz Hdated) in Hc.
    split; [| now apply Z.gtb_gt].
    apply (count_occ_In Z.eq_dec). lia.
Qed.

Lemma insert_ignore_up acc row :
  db_faults acc = [] ->
  snd (db_query (insert_ignore_monitored (fst row) (high_frequency (snd row)))
                acc)
  = set_monitored_users (ignore_insert (clock acc) (monitored_users acc) row)
                        acc.
Proof.
  intros Hup. rewrite (db_query_up _ _ Hup).
  unfold insert_ignore_monitored, ignore_insert. cbv zeta.
  destruct (existsb _ (monitored_users acc)); [| reflexivity].
  now destruct acc.
Qed.

Lemma monitor_tick_up w :
  db_faults w = [] ->
  monitor_tick w
  = set_monitored_users
      (fold_left (ignore_insert (clock w)) (select_suspicious w)
                 (monitored_users w))
      w.
Proof.
  intros Hup. unfold monitor_tick. rewrite (db_query_up _ _ Hup).
  unfold read_only; simpl fst; simpl snd.
  assert (G : forall rows acc,
             db_faults acc = [] ->
             fold_left
               (fun acc row =>
                  snd (db_query (insert_ignore_monitored
                                   (fst row) (high_frequency (snd row))) acc))
               rows acc
             = set_monitored_users
                 (fold_left (ignore_insert (clock acc)) rows
                            (monitored_users acc))
                 acc).
  { induction rows as [|row rows IH]; intros acc Hacc; simpl.
    - now destruct acc.
    - rewrite (insert_ignore_up _ _ Hacc). rewrite IH by exact Hacc.
      reflexivity. }
  now apply G.
Qed.

Lemma flags_of_app actor table new :
  flags_of actor (table ++ [new])
  = flags_of actor table + (if m_user_id new =? actor then 1 else 0).
Proof.
  unfold flags_of. rewrite filter_app, length_app. simpl.
  destruct (m_user_id new =? actor); simpl; lia.
Qed.

Lemma existsb_false {A : Type} (f : A -> bool) (l : list A) :
  (forall x, In x l -> f x = false) -> existsb f l = false.
Proof.
  intros H. induction l as [|a l IH]; [reflexivity |]. simpl.
  rewrite (H a (or_introl eq_refl)). apply IH. intros x Hx. apply H. now right.
Qed.

(** Rows inserted for other actors do not change the flags of [actor]. *)
Lemma flags_of_others now actor rows table :
  ~ In actor (map fst rows) ->
  flags_of actor (fold_left (ignore_insert now) rows table)
  = flags_of actor table.
Proof.
  revert table. induction rows as [|row rows IH]; intros table Hnot;
    [reflexivity |].
  simpl in Hnot. simpl fold_left.
  rewrite IH by (intros H; apply Hnot; now right).
  unfold ignore_insert. cbv zeta.
  destruct (existsb _ table); [reflexivity |].
  rewrite flags_of_app. simpl.
  destruct (Z.eqb_spec (fst row) actor) as [E | E]; [| lia].
  exfalso. apply Hnot. now left.
Qed.

Section UniqueIndex.

(** Whatever the unique indexes of [monitored_users] are made of, they
    include the [user_id] column. *)
Hypothesis unique_by_user :
  forall old new,
    monitored_unique old new = true -> m_user_id old = m_user_id new.

Lemma flags_of_fold now actor rows table :
  NoDup (map fst rows) ->
  (forall old new, In old table -> m_user_id new = actor ->
                   monitored_unique old new = false) ->
  flags_of actor (fold_left (ignore_insert now) rows table)
  = flags_of actor table
    + (if existsb (Z.eqb actor) (map fst rows) then 1 else 0).
Proof.
  revert table. induction rows as [|row rows IH]; intros table Hnd Hfree.
  - simpl. lia.
  - simpl map in *. simpl existsb. simpl fold_left.
    inversion Hnd as [|x xs Hnotin Hnd']; subst.
    destruct (Z.eqb_spec actor (fst row)) as [-> | Hne].
    + rewrite flags_of_others by exact Hnotin.
      unfold ignore_insert. cbv zeta.
      rewrite existsb_false.
      * rewrite flags_of_app. simpl. now rewrite Z.eqb_refl.
      * intros old Hold. now apply Hfree.
    + simpl. rewrite IH; [| exact Hnd' |].
      * f_equal. unfold ignore_insert. cbv zeta.
        destruct (existsb _ table); [reflexivity |].
        rewrite flags_of_app. simpl.
        destruct (Z.eqb_spec (fst row) actor); [congruence | lia].
      * intros old new Hold Hnew. unfold ignore_insert in Hold.
        cbv zeta in Hold.
        destruct (existsb _ table); [now apply Hfree |].
        apply in_app_or in Hold. destruct Hold as [Hold | [<- | []]];
          [now apply Hfree |].
        destruct (monitored_unique _ new) eqn:E; [| reflexivity].
        apply unique_by_user in E. simpl in E. congruence.
Qed.

(** C8: one run of the monitor, with the store answering, over logs
    dated by the store and a table in which no stored row blocks a flag
    for [actor], adds exactly one flag for [actor] when the actor is not
    0 and has more than 10 logged events inside the trailing two-minute
    window, and none otherwise; events without an actor count for
    nobody. *)
Theorem monitor_flags_frequent_actors w actor :
  db_faults w = [] ->
  dated w ->
  (forall old new, In old (monitored_users w) -> m_user_id new = actor ->
                   monitored_unique old new = false) ->
  flags_of actor (monitored_users (monitor_tick w))
  = flags_of actor (monitored_users w)
    + (if negb (actor =? 0) && (events_in_window w actor >? 10)
       then 1 else 0).
Proof.
  intros Hup Hdated Hfree. rewrite (monitor_tick_up _ Hup).
  simpl monitored_users.
  rewrite flags_of_fold; [| apply suspicious_NoDup | exact Hfree].
  f_equal.
  destruct (existsb (Z.eqb actor) (map fst (select_suspicious w))) eqn:E.
  - apply existsb_exists in E. destruct E as [x [Hx Hax]].
    apply Z.eqb_eq in Hax. subst x.
    apply (suspicious_iff _ _ Hdated) in Hx. destruct Hx as [Hnz Hc].
    destruct (Z.eqb_spec actor 0); [contradiction |].
    apply Z.gtb_gt in Hc. now rewrite Hc.
  - destruct (Z.eqb_spec actor 0); [reflexivity |]. simpl.
    destruct (events_in_window w actor >? 10) eqn:Hc; [| reflexivity].
    apply Z.gtb_gt in Hc.
    assert (Hin : In actor (map fst (select_suspicious w)))
      by (apply (suspicious_iff _ _ Hdated); split; [assumption | lia]).
    assert (Ht : existsb (Z.eqb actor) (map fst (select_suspicious w)) = true).
    { apply existsb_exists. exists actor. split; [exact Hin |].
      apply Z.eqb_refl. }
    congruence.
Qed.

End UniqueIndex.

Section IgnoreDuplicates.

(** A row equal to a stored row collides with it: some unique index of
    [monitored_users] is made of inserted columns only. *)
Hypothesis unique_refl : forall row, monitored_unique row row = true.

Lemma ignore_insert_incl now table row :
  incl table (ignore_insert now table row).
Proof.
  unfold ignore_insert. cbv zeta. destruct (existsb _ table).
  - apply incl_refl.
  - apply incl_appl, incl_refl.
Qed.

Lemma fold_ignore_insert_incl now rows table :
  incl table (fold_left (ignore_insert now) rows table).
Proof.
  revert table. induction rows as [|row rows IH]; intros table; simpl.
  - apply incl_refl.
  - eapply incl_tran; [apply ignore_insert_incl | apply IH].
Qed.

Lemma existsb_incl {A : Type} (f : A -> bool) (l l' : list A) :
  incl l l' -> existsb f l = true -> existsb f l' = true.
Proof.
  intros Hincl H. apply existsb_exists in H. destruct H as [x [Hx Hf]].
  apply existsb_exists. exists x. split; [now apply Hincl | exact Hf].
Qed.

Lemma fold_ignore_insert_covers now rows table row :
  In row rows ->
  existsb (fun old => monitored_unique
                        old (mkMonitored (fst row) (high_frequency (snd row)) now))
          (fold_left (ignore_insert now) rows table) = true.
Proof.
  revert table. induction rows as [|r rows IH]; intros table Hin;
    [destruct Hin |].
  simpl. destruct Hin as [-> | Hin]; [| now apply IH].
  apply (existsb_incl _ (ignore_insert now table row));
    [apply fold_ignore_insert_incl |].
  unfold ignore_insert. cbv zeta.
  destruct (existsb _ table) eqn:E; [exact E |].
  rewrite existsb_app. simpl. rewrite unique_refl. now rewrite orb_true_r.
Qed.

Lemma fold_ignore_insert_covered now rows table :
  (forall row, In row rows ->
     existsb (fun old => monitored_unique
                           old (mkMonitored (fst row) (high_frequency (snd row))
                                            now))
             table = true) ->
  fold_left (ignore_insert now) rows table = table.
Proof.
  induction rows as [|r rows IH]; intros H; [reflexivity |].
  simpl. unfold ignore_insert at 2. cbv zeta.
  rewrite (H r (or_introl eq_refl)). apply IH.
  intros row Hrow. apply H. now right.
Qed.

(** C9: with the store answering, the logs unchanged and the clock not
    advanced, a second run of the monitor right after the first leaves
    [monitored_users] exactly as the first run left it; no actor gets a
    second flag. *)
Theorem monitor_tick_twice w :
  db_faults w = [] ->
  monitored_users (monitor_tick (monitor_tick w))
  = monitored_users (monitor_tick w)
  /\ forall actor,
       flags_of actor (monitored_users (monitor_tick (monitor_tick w)))
       = flags_of actor (monitored_users (monitor_tick w)).
Proof.
  intros Hup.
  assert (E : monitored_users (monitor_tick (monitor_tick w))
              = monitored_users (monitor_tick w)).
  { rewrite (monitor_tick_up w Hup).
    rewrite monitor_tick_up by exact Hup.
    simpl monitored_users. simpl clock.
    change (select_suspicious (set_monitored_users _ w))
      with (select_suspicious w).
    apply fold_ignore_insert_covered.
    intros row Hrow. now apply fold_ignore_insert_covers. }
  split; [exact E |]. intros actor. now rewrite E.
Qed.

End IgnoreDuplicates.

(** *** The directory: read, delete, what the writes compose to *)

Lemma matched_rows (f : user_row -> bool) (us : list user_row) (u : user_row) :
  In u us -> f u = true ->
  (Z.of_nat (List.length (filter f us)) =? 0) = false.
Proof.
  intros Hin Hf.
  destruct (filter f us) as [|x xs] eqn:E.
  - rewrite (proj1 (filter_nil_iff f us) E u Hin) in Hf. discriminate.
  - apply Z.eqb_neq. simpl List.length. lia.
Qed.

Lemma deliver_up type data w :
  db_faults w = [] ->
  fst (broadcastUpdate type data w) = true
  /\ users (snd (broadcastUpdate type data w)) = users w
  /\ users_next_id (snd (broadcastUpdate type data w)) = users_next_id w
  /\ logs (snd (broadcastUpdate type data w)) = logs w
  /\ monitored_users (snd (broadcastUpdate type data w)) = monitored_users w
  /\ clock (snd (broadcastUpdate type data w)) = clock w
  /\ db_faults (snd (broadcastUpdate type data w)) = []
  /\ delivered (envelope type data (users w)) (wss_clients w)
               (wss_clients (snd (broadcastUpdate type data w))).
Proof.
  intros Hup. rewrite (broadcastUpdate_up _ _ _ Hup). simpl.
  repeat split; try assumption. apply delivered_map.
Qed.

(** The successful update, step by step. *)
Lemma patch_users_success req w :
  validateUser req = [] ->
  db_faults w = [] ->
  (exists u, In u (users w) /\ u_id u = param_id req) ->
  email_free_for (param_id req) (body_email req) w ->
  patch_users req w
  = (Respond 200 (user_json (param_id req) (validator_trim (body_name req))
                            (body_email req) (body_type req)),
     snd (broadcastUpdate "USER_UPDATED"
            (user_json (param_id req) (validator_trim (body_name req))
                       (body_email req) (body_type req))
            (snd (insert_log (x_user_id req) "update" (param_id req)
                    (snd (update_user (validator_trim (body_name req))
                                      (body_email req) (body_type req)
                                      (param_id req) w)))))).
Proof.
  intros Hvalid Hup [u [Hin Hid]] Hfree.
  unfold patch_users, handleValidationErrors.
  rewrite Hvalid, (db_query_up _ _ Hup).
  unfold read_only, select_id_where_email_not_id; simpl fst; simpl snd.
  assert (E : filter (fun x => String.eqb (u_email x) (body_email req)
                               && negb (u_id x =? param_id req)) (users w)
              = []).
  { apply filter_nil_iff. intros x Hx.
    destruct (String.eqb_spec (u_email x) (body_email req)) as [He | He];
      [| reflexivity].
    rewrite (Hfree x Hx He), Z.eqb_refl. reflexivity. }
  rewrite E. simpl map. simpl List.length. cbv iota.
  change (0 <? 0)%nat with false. cbv iota.
  rewrite (db_query_up _ _ Hup). simpl fst at 1.
  rewrite (matched_rows _ _ u Hin) by (now apply Z.eqb_eq).
  cbv zeta.
  rewrite db_query_up by exact Hup.
  destruct (deliver_up "USER_UPDATED"
              (user_json (param_id req) (validator_trim (body_name req))
                         (body_email req) (body_type req))
              (snd (insert_log (x_user_id req) "update" (param_id req)
                      (snd (update_user (validator_trim (body_name req))
                                        (body_email req) (body_type req)
                                        (param_id req) w)))) Hup)
    as [Hb _].
  destruct (broadcastUpdate _ _ _) as [b w4]. simpl in Hb. now subst b.
Qed.

Lemma patch_users_success_world req w :
  validateUser req = [] ->
  db_faults w = [] ->
  (exists u, In u (users w) /\ u_id u = param_id req) ->
  email_free_for (param_id req) (body_email req) w ->
  let w' := snd (patch_users req w) in
  users w'
  = map (fun u =>
           if u_id u =? param_id req
           then mkUser (u_id u) (validator_trim (body_name req))
                       (body_email req) (body_type req) (u_image u)
                       (u_password u) (u_two_factor_secret u)
                       (u_two_factor_enabled u)
           else u)
        (users w)
  /\ logs w' = logs w ++ [event (x_user_id req) "update" (param_id req) w]
  /\ monitored_users w' = monitored_users w
  /\ clock w' = clock w
  /\ db_faults w' = [].
Proof.
  intros Hvalid Hup Hex Hfree. cbv zeta.
  rewrite (patch_users_success _ _ Hvalid Hup Hex Hfree). simpl snd.
  match goal with
  | |- context [broadcastUpdate ?t ?d ?x] =>
      destruct (deliver_up t d x Hup) as (_ & Hu & _ & Hl & Hm & Hc & Hf & _)
  end.
  rewrite Hu, Hl, Hm, Hc, Hf. repeat split.
Qed.

(** X1: a valid update of an entry that exists, with an email that no
    other entry holds and the store answering, is answered 200 and
    writes exactly one row to the logs: the actor of the [x-user-id]
    header, ['update'], ['user'], the id, dated now. *)
Theorem patch_users_records_event req w :
  validateUser req = [] ->
  db_faults w = [] ->
  (exists u, In u (users w) /\ u_id u = param_id req) ->
  email_free_for (param_id req) (body_email req) w ->
  status_of (fst (patch_users req w)) = Some 200
  /\ logs (snd (patch_users req w))
     = logs w ++ [mkLog (x_user_id req) "update" "user" (param_id req)
                        (clock w)].
Proof.
  intros Hvalid Hup Hex Hfree. split.
  - now rewrite (patch_users_success _ _ Hvalid Hup Hex Hfree).
  - exact (proj1 (proj2 (patch_users_success_world _ _ Hvalid Hup Hex Hfree))).
Qed.

Lemma patch_users_times_world n req w :
  validateUser req = [] ->
  db_faults w = [] ->
  (exists u, In u (users w) /\ u_id u = param_id req) ->
  email_free_for (param_id req) (body_email req) w ->
  let w' := patch_users_times n req w in
  logs w' = logs w ++ repeat (event (x_user_id req) "update" (param_id req) w) n
  /\ monitored_users w' = monitored_users w
  /\ clock w' = clock w
  /\ db_faults w' = [].
Proof.
  intros Hvalid. revert w.
  induction n as [|n IH]; intros w Hup Hex Hfree; cbv zeta.
  - simpl. rewrite app_nil_r. repeat split. exact Hup.
  - simpl patch_users_times.
    destruct (patch_users_success_world _ _ Hvalid Hup Hex Hfree)
      as (Hu & Hl & Hm & Hc & Hf).
    assert (Hex' : exists u, In u (users (snd (patch_users req w)))
                             /\ u_id u = param_id req).
    { destruct Hex as [u [Hin Hid]]. rewrite Hu.
      eexists. split; [apply in_map; exact Hin |].
      destruct (u_id u =? param_id req); exact Hid. }
    assert (Hfree' : email_free_for (param_id req) (body_email req)
                                    (snd (patch_users req w))).
    { intros x Hx. rewrite Hu in Hx. apply in_map_iff in Hx.
      destruct Hx as [u [<- Hin]].
      destruct (Z.eqb_spec (u_id u) (param_id req)) as [E | E].
      - intros _. exact E.
      - now apply Hfree. }
    destruct (IH _ Hf Hex' Hfree') as (Hl' & Hm' & Hc' & Hf').
    split; [| split; [| split]].
    + rewrite Hl', Hl. unfold event. rewrite Hc, <- app_assoc. reflexivity.
    + now rewrite Hm', Hm.
    + now rewrite Hc', Hc.
    + exact Hf'.
Qed.

(** The successful create, step by step. *)
Lemma post_users_success req w :
  validateUser req = [] ->
  db_faults w = [] ->
  (forall u, In u (users w) -> u_email u <> body_email req) ->
  let newUser := user_json (users_next_id w) (validator_trim (body_name req))
                           (body_email req) (body_type req) in
  let w' := snd (post_users req w) in
  fst (post_users req w) = Respond 201 newUser
  /\ users w'
     = users w ++ [mkUser (users_next_id w) (validator_trim (body_name req))
                          (body_email req) (body_type req) None None None false]
  /\ users_next_id w' = users_next_id w + 1
  /\ logs w' = logs w
  /\ clock w' = clock w
  /\ db_faults w' = []
  /\ wss_clients w'
     = map (fun client =>
              if readyState client =? WebSocket_OPEN
              then ws_send
                     (envelope "USER_ADDED" newUser
                        (users w
                         ++ [mkUser (users_next_id w)
                                    (validator_trim (body_name req))
                                    (body_email req) (body_type req)
                                    None None None false]))
                     client
              else client)
           (wss_clients w).
Proof.
  intros Hvalid Hup Hfree. cbv zeta.
  unfold post_users, handleValidationErrors.
  rewrite Hvalid, (db_query_up _ _ Hup).
  unfold read_only, select_id_where_email; simpl fst; simpl snd.
  assert (E : filter (fun u => String.eqb (u_email u) (body_email req)) (users w)
              = []).
  { apply filter_nil_iff. intros u Hin.
    destruct (String.eqb_spec (u_email u) (body_email req)); [| reflexivity].
    now apply Hfree in Hin. }
  rewrite E. simpl.
  rewrite (db_query_up _ _ Hup). simpl fst; simpl snd.
  rewrite broadcastUpdate_up by exact Hup. simpl.
  repeat split. exact Hup.
Qed.

Lemma filter_fresh w :
  ids_fresh w -> filter (fun u => u_id u =? users_next_id w) (users w) = [].
Proof.
  intros Hfresh. apply filter_nil_iff. intros u Hin.
  apply Z.eqb_neq. specialize (Hfresh u Hin). lia.
Qed.

(** X3: after a create that succeeded, in a directory whose ids are
    below the next id, reading the entry back by the id of the answer
    gives the name, email and type that were written, with no image. *)
Theorem create_then_get req w req' :
  validateUser req = [] ->
  db_faults w = [] ->
  (forall u, In u (users w) -> u_email u <> body_email req) ->
  ids_fresh w ->
  param_id req' = users_next_id w ->
  json_get "id" (match fst (post_users req w) with
                 | Respond _ body => body
                 | NoResponse => JNull
                 end) = Some (JNum (param_id req'))
  /\ fst (get_user req' (snd (post_users req w)))
     = Respond 200 (JObj [("id", JNum (param_id req'));
                          ("name", JStr (validator_trim (body_name req)));
                          ("email", JStr (body_email req));
                          ("image", JNull);
                          ("type", JStr (body_type req))]).
Proof.
  intros Hvalid Hup Hfree Hfresh Hid.
  destruct (post_users_success _ _ Hvalid Hup Hfree)
    as (Ha & Hu & _ & _ & _ & Hf & _).
  rewrite Ha, Hid. split; [reflexivity |].
  unfold get_user. rewrite (db_query_up _ _ Hf).
  unfold read_only, select_entry_where_id; simpl fst; simpl snd.
  rewrite Hu, Hid, filter_app, (filter_fresh _ Hfresh). simpl.
  now rewrite Z.eqb_refl.
Qed.

(** X4: an entry made by [POST /users] has no password hash; after a
    create that succeeded, a login with the email of the new entry gets
    no answer at all, whatever the password: [bcrypt.compare] rejects
    and nothing catches it. *)
Theorem create_then_login_unanswered req w req' :
  validateUser req = [] ->
  db_faults w = [] ->
  (forall u, In u (users w) -> u_email u <> body_email req) ->
  body_email req' = body_email req ->
  fst (post_login req' (snd (post_users req w))) = NoResponse.
Proof.
  intros Hvalid Hup Hfree Hmail.
  destruct (post_users_success _ _ Hvalid Hup Hfree)
    as (_ & Hu & _ & _ & _ & Hf & _).
  rewrite post_login_cases by (now rewrite Hf).
  rewrite Hu, Hmail, filter_app. simpl fst.
  assert (E : filter (fun u => String.eqb (u_email u) (body_email req)) (users w)
              = []).
  { apply filter_nil_iff. intros u Hin.
    destruct (String.eqb_spec (u_email u) (body_email req)); [| reflexivity].
    now apply Hfree in Hin. }
  rewrite E. simpl. now rewrite String.eqb_refl.
Qed.

(** X5: no answer of [GET /users/:id] has a [password] or a
    [two_factor_secret] key, whatever the store holds. *)
Theorem get_user_discloses_no_credentials req w body :
  body_of (fst (get_user req w)) = Some body ->
  existsb credential_key (all_keys body) = false.
Proof.
  unfold get_user.
  destruct (db_query_read_only (select_entry_where_id (param_id req)) w)
    as [-> | ->].
  - intros [= <-]. reflexivity.
  - unfold select_entry_where_id.
    destruct (filter _ (users (answered w))) as [|u us]; simpl.
    + intros [= <-]. reflexivity.
    + intros [= <-]. now destruct (u_image u).
Qed.

Lemma filter_map_commute {A : Type} (p : A -> bool) (f : A -> A) (l : list A) :
  (forall x, p (f x) = p x) -> filter p (map f l) = map f (filter p l).
Proof.
  intros H. induction l as [|a l IH]; simpl; [reflexivity |].
  rewrite H. destruct (p a); simpl; now rewrite IH.
Qed.

(** X6: after an update that succeeded, reading the entry back shows the
    name, email and type of the update and the image that is stored,
    not the [image: null] that the update answered. *)
Theorem update_then_get req w req' :
  validateUser req = [] ->
  db_faults w = [] ->
  (exists u, In u (users w) /\ u_id u = param_id req) ->
  email_free_for (param_id req) (body_email req) w ->
  param_id req' = param_id req ->
  exists u,
    hd_error (filter (fun x => u_id x =? param_id req) (users w)) = Some u
    /\ json_get "image" (match fst (patch_users req w) with
                         | Respond _ body => body
                         | NoResponse => JNull
                         end) = Some JNull
    /\ fst (get_user req' (snd (patch_users req w)))
       = Respond 200 (JObj [("id", JNum (param_id req));
                            ("name", JStr (validator_trim (body_name req)));
                            ("email", JStr (body_email req));
                            ("image", JOptStr (u_image u));
                            ("type", JStr (body_type req))]).
Proof.
  intros Hvalid Hup Hex Hfree Hid.
  destruct (patch_users_success_world _ _ Hvalid Hup Hex Hfree)
    as (Hu & _ & _ & _ & Hf).
  destruct Hex as [u0 [Hin0 Hid0]].
  destruct (filter (fun x => u_id x =? param_id req) (users w))
    as [|u us] eqn:E.
  { apply Z.eqb_eq in Hid0.
    rewrite (proj1 (filter_nil_iff _ _) E u0 Hin0) in Hid0. discriminate. }
  exists u. split; [reflexivity |]. split.
  - now rewrite (patch_users_success _ _ Hvalid Hup
                   (ex_intro _ u0 (conj Hin0 Hid0)) Hfree).
  - assert (Hu_id : u_id u = param_id req).
    { assert (Hin : In u (filter (fun x => u_id x =? param_id req) (users w)))
        by (rewrite E; now left).
      apply filter_In in Hin. now apply Z.eqb_eq. }
    unfold get_user. rewrite (db_query_up _ _ Hf).
    unfold read_only, select_entry_where_id; simpl fst; simpl snd.
    rewrite Hu, Hid, filter_map_commute.
    + rewrite E. simpl. apply Z.eqb_eq in Hu_id. rewrite Hu_id. simpl.
      apply Z.eqb_eq in Hu_id. now rewrite Hu_id.
    + intros x. now destruct (u_id x =? param_id req) eqn:Ex; simpl; rewrite Ex.
Qed.

(** The successful delete, step by step. *)
Lemma delete_users_steps req w :
  db_faults w = [] ->
  (exists u, In u (users w) /\ u_id u = param_id req) ->
  delete_users req w
  = (Respond 204 JNull,
     snd (broadcastUpdate "USER_DELETED"
            (JObj [("id", JStr (string_of_Z (param_id req)))])
            (snd (insert_log (x_user_id req) "delete" (param_id req)
                    (snd (delete_user (param_id req) w)))))).
Proof.
  intros Hup [u [Hin Hid]]. unfold delete_users.
  rewrite (db_query_up _ _ Hup). simpl fst at 1.
  rewrite (matched_rows _ _ u Hin) by (now apply Z.eqb_eq).
  cbv zeta. rewrite db_query_up by exact Hup.
  rewrite !broadcastUpdate_up by exact Hup. reflexivity.
Qed.

Lemma delete_users_success req w :
  db_faults w = [] ->
  (exists u, In u (users w) /\ u_id u = param_id req) ->
  let w' := snd (delete_users req w) in
  fst (delete_users req w) = Respond 204 JNull
  /\ users w' = filter (fun u => negb (u_id u =? param_id req)) (users w)
  /\ users_next_id w' = users_next_id w
  /\ logs w' = logs w ++ [event (x_user_id req) "delete" (param_id req) w]
  /\ db_faults w' = []
  /\ delivered (envelope "USER_DELETED"
                         (JObj [("id", JStr (string_of_Z (param_id req)))])
                         (filter (fun u => negb (u_id u =? param_id req))
                                 (users w)))
               (wss_clients w) (wss_clients w').
Proof.
  intros Hup Hex. cbv zeta. rewrite (delete_users_steps _ _ Hup Hex).
  simpl fst. simpl snd.
  match goal with
  | |- context [broadcastUpdate ?t ?d ?x] =>
      destruct (deliver_up t d x Hup) as (_ & Hu & Hn & Hl & _ & _ & Hf & Hd)
  end.
  rewrite Hu, Hn, Hl, Hf. repeat split. exact Hd.
Qed.

(** X7: a delete of an entry that exists, with the store answering, is
    answered 204, removes the entry and nothing else, writes one
    ['delete'] row for the actor to the logs and sends every open client
    one ['USER_DELETED'] envelope whose [allUsers] is the rest; a read of
    the id right after is answered 404. *)
Theorem delete_users_removes req w req' :
  db_faults w = [] ->
  (exists u, In u (users w) /\ u_id u = param_id req) ->
  param_id req' = param_id req ->
  let w' := snd (delete_users req w) in
  status_of (fst (delete_users req w)) = Some 204
  /\ users w' = filter (fun u => negb (u_id u =? param_id req)) (users w)
  /\ logs w' = logs w ++ [mkLog (x_user_id req) "delete" "user" (param_id req)
                                (clock w)]
  /\ delivered (JObj [("type", JStr "USER_DELETED");
                      ("data", JObj [("id", JStr (string_of_Z (param_id req)))]);
                      ("allUsers", JArr (map row_json (users w')))])
               (wss_clients w) (wss_clients w')
  /\ fst (get_user req' w') = Respond 404 (error_body "User not found").
Proof.
  intros Hup Hex Hid. cbv zeta.
  destruct (delete_users_success _ _ Hup Hex) as (Ha & Hu & _ & Hl & Hf & Hd).
  rewrite Ha, Hu, Hl. repeat split; [exact Hd |].
  unfold get_user. rewrite (db_query_up _ _ Hf).
  unfold read_only, select_entry_where_id; simpl fst; simpl snd.
  rewrite Hu, Hid.
  assert (E : filter (fun u => u_id u =? param_id req)
                     (filter (fun u => negb (u_id u =? param_id req)) (users w))
              = []).
  { apply filter_nil_iff. intros x Hx. apply filter_In in Hx.
    destruct Hx as [_ Hx]. now destruct (u_id x =? param_id req). }
  now rewrite E.
Qed.

Lemma filter_all_true {A : Type} (f : A -> bool) (l : list A) :
  (forall x, In x l -> f x = true) -> filter f l = l.
Proof.
  induction l as [|a l IH]; intros H; simpl; [reflexivity |].
  rewrite (H a (or_introl eq_refl)). f_equal. apply IH.
  intros x Hx. apply H. now right.
Qed.

(** X8: a delete of an id that no entry has, answered by the store, is
    answered 404; the entries and the logs are as before and no client
    is sent anything. *)
Theorem delete_users_unknown req w :
  hd false (db_faults w) = false ->
  (forall u, In u (users w) -> u_id u <> param_id req) ->
  let w' := snd (delete_users req w) in
  fst (delete_users req w) = Respond 404 (error_body "User not found")
  /\ users w' = users w
  /\ logs w' = logs w
  /\ wss_clients w' = wss_clients w.
Proof.
  intros Hup Hnone. cbv zeta.
  assert (E : filter (fun u => u_id u =? param_id req) (users w) = []).
  { apply filter_nil_iff. intros u Hin. apply Z.eqb_neq. now apply Hnone. }
  assert (K : filter (fun u => negb (u_id u =? param_id req)) (users w)
              = users w).
  { apply filter_all_true. intros u Hin.
    destruct (Z.eqb_spec (u_id u) (param_id req)); [| reflexivity].
    now apply Hnone in Hin. }
  assert (Heq : delete_users req w
                = (Respond 404 (error_body "User not found"),
                   snd (delete_user (param_id req) (answered w)))).
  { unfold delete_users. rewrite (db_query_answered _ _ Hup).
    unfold delete_user at 1. simpl fst. rewrite E. reflexivity. }
  rewrite Heq. simpl. rewrite K. repeat split.
Qed.

(** *** Registration and enrolment *)

Lemma answered_up w : db_faults w = [] -> answered w = w.
Proof.
  destruct w as [us n ls ms cs t fs]. simpl. now intros ->.
Qed.

Lemma unused_email email w :
  (forall u, In u (users w) -> u_email u <> email) ->
  filter (fun u => String.eqb (u_email u) email) (users w) = [].
Proof.
  intros Hfree. apply filter_nil_iff. intros u Hin.
  destruct (String.eqb_spec (u_email u) email); [| reflexivity].
  now apply Hfree in Hin.
Qed.

(** The successful registration, step by step. *)
Lemma post_register_success salt req w :
  blank (body_name req) || blank (body_email req)
  || blank (body_password req) || blank (body_type req) = false ->
  db_faults w = [] ->
  (forall u, In u (users w) -> u_email u <> body_email req) ->
  post_register salt req w
  = (Respond 201 (JObj [("id", JNum (users_next_id w));
                        ("name", JStr (body_name req));
                        ("email", JStr (body_email req));
                        ("type", JStr (body_type req))]),
     snd (insert_user_with_password
            (body_name req) (body_email req)
            (bcrypt_hash salt (body_password req)) (body_type req) w)).
Proof.
  intros Hfields Hup Hfree. unfold post_register.
  rewrite Hfields, (db_query_up _ _ Hup).
  unfold read_only, select_id_where_email; simpl fst; simpl snd.
  rewrite (unused_email _ _ Hfree). simpl.
  now rewrite (db_query_up _ _ Hup).
Qed.

(** X9: a registration with all four fields and an email that no entry
    has, with the store answering, is answered 201 with id, name, email
    and type; it tells no client and writes no log row. When
    [bcrypt.compare] accepts the password against the hash that
    [bcrypt.hash] made of it, a login with the same email and password
    is then granted a one-hour token and the registered profile, and a
    login that sends a password that [bcrypt.compare] turns down is
    answered 401. *)
Theorem register_then_login salt req w req' password :
  blank (body_name req) || blank (body_email req)
  || blank (body_password req) || blank (body_type req) = false ->
  db_faults w = [] ->
  (forall u, In u (users w) -> u_email u <> body_email req) ->
  body_email req' = body_email req ->
  password_sent req' = Some password ->
  let hash := bcrypt_hash salt (body_password req) in
  let w' := snd (post_register salt req w) in
  let entry :=
    mkUser (users_next_id w) (body_name req) (body_email req) (body_type req)
           None (Some hash) None false in
  fst (post_register salt req w)
  = Respond 201 (JObj [("id", JNum (users_next_id w));
                       ("name", JStr (body_name req));
                       ("email", JStr (body_email req));
                       ("type", JStr (body_type req))])
  /\ logs w' = logs w
  /\ wss_clients w' = wss_clients w
  /\ fst (post_login req' w')
     = if bcrypt_compare password hash
       then Respond 200
              (JObj [("accessToken", JTok (issued entry (clock w) 3600));
                     ("user", JObj [("id", JNum (users_next_id w));
                                    ("email", JStr (body_email req));
                                    ("name", JStr (body_name req));
                                    ("type", JStr (body_type req))])])
       else Respond 401 (error_body "Invalid credentials").
Proof.
  intros Hfields Hup Hfree Hmail Hsent. cbv zeta.
  rewrite (post_register_success _ _ _ Hfields Hup Hfree).
  simpl fst at 1. simpl snd.
  split; [reflexivity |]. split; [reflexivity |]. split; [reflexivity |].
  rewrite post_login_cases by (simpl; now rewrite Hup).
  simpl users. rewrite Hmail, filter_app, (unused_email _ _ Hfree).
  simpl. rewrite String.eqb_refl. simpl. rewrite Hsent.
  now destruct (bcrypt_compare _ _).
Qed.

(** X10: once a registration has succeeded, a second one with the same
    email is answered 400 "Email already exists" and adds no entry,
    whatever its other fields are. *)
Theorem register_twice_refused salt req w salt' req' :
  blank (body_name req) || blank (body_email req)
  || blank (body_password req) || blank (body_type req) = false ->
  db_faults w = [] ->
  (forall u, In u (users w) -> u_email u <> body_email req) ->
  blank (body_name req') || blank (body_email req')
  || blank (body_password req') || blank (body_type req') = false ->
  body_email req' = body_email req ->
  let w' := snd (post_register salt req w) in
  fst (post_register salt' req' w')
  = Respond 400 (error_body "Email already exists")
  /\ users (snd (post_register salt' req' w')) = users w'.
Proof.
  intros Hfields Hup Hfree Hfields' Hmail. cbv zeta.
  rewrite (post_register_success _ _ _ Hfields Hup Hfree). simpl snd.
  unfold post_register at 1 2. rewrite Hfields'.
  rewrite db_query_up by exact Hup.
  unfold read_only, select_id_where_email; simpl fst; simpl snd.
  rewrite Hmail, filter_app, (unused_email _ _ Hfree). simpl.
  rewrite String.eqb_refl. simpl. split; reflexivity.
Qed.

Lemma column_text_blank secret :
  String.eqb (column_text secret) EmptyString = String.eqb secret EmptyString.
Proof. now destruct secret. Qed.

(** The update where the store takes the text: the column then holds
    its first 32 characters. *)
Lemma update_secret_stores secret id w :
  sql_strict && too_long secret = false ->
  update_secret secret id w
  = (true,
     set_users
       (map (fun u =>
               if u_id u =? id
               then mkUser (u_id u) (u_name u) (u_email u) (u_type u)
                           (u_image u) (u_password u)
                           (Some (column_text secret))
                           (u_two_factor_enabled u)
               else u)
            (users w))
       (users_next_id w) w).
Proof. intros H. unfold update_secret. now rewrite H. Qed.

(** The update that a strict store refuses. *)
Lemma update_secret_refused secret id w u :
  sql_strict && too_long secret = true ->
  hd_error (filter (fun x => u_id x =? id) (users w)) = Some u ->
  update_secret secret id w = (false, w).
Proof.
  intros H Hu. unfold update_secret. rewrite H.
  assert (E : existsb (fun x => u_id x =? id) (users w) = true).
  { apply existsb_exists. exists u.
    assert (Hin : In u (filter (fun x => u_id x =? id) (users w)))
      by (destruct (filter _ (users w)); [discriminate |];
          injection Hu as ->; now left).
    now apply filter_In in Hin. }
  now rewrite E.
Qed.

Lemma hd_filter_map {A : Type} (p : A -> bool) (f : A -> A) (l : list A) (x : A) :
  (forall y, p (f y) = p y) ->
  hd_error (filter p l) = Some x ->
  hd_error (filter p (map f l)) = Some (f x).
Proof.
  intros Hp H. rewrite (filter_map_commute _ _ _ Hp).
  destruct (filter p l); [discriminate |]. simpl in *. congruence.
Qed.

(** X11: take a store that keeps the new secret (it is not strict, or
    the secret fits the 32 characters of the column). When the
    enrolment has stored the secret and the QR code cannot be drawn, the
    caller is answered 500 "Failed to generate QR code" and never sees
    the secret; what the column took of it stays stored, and the next
    login of that user with the right password is asked for the second
    factor. *)
Theorem setup_failure_enrolls generated user req w req' u hash password :
  db_faults w = [] ->
  sql_strict && too_long (fst generated) = false ->
  qrcode_toDataURL (snd generated) = None ->
  fst generated <> EmptyString ->
  hd_error (filter (fun x => String.eqb (u_email x) (body_email req')) (users w))
  = Some u ->
  u_id u = Jwt.id user ->
  u_password u = Some hash ->
  password_sent req' = Some password ->
  bcrypt_compare password hash = true ->
  let w' := snd (twofa_setup generated user req w) in
  fst (twofa_setup generated user req w)
  = Respond 500 (error_body "Failed to generate QR code")
  /\ (forall x, In x (users w') -> u_id x = Jwt.id user ->
                u_two_factor_secret x = Some (column_text (fst generated)))
  /\ fst (post_login req' w')
     = Respond 200 (JObj [("requiresTwoFactor", JBool true);
                          ("tempToken", JTok (issued u (clock w) 300))]).
Proof.
  intros Hup Hfit Hqr Hne Hfound Hid Hpw Hsent Hcmp. cbv zeta.
  assert (Heq : twofa_setup generated user req w
                = (Respond 500 (error_body "Failed to generate QR code"),
                   snd (update_secret (fst generated) (Jwt.id user) w))).
  { unfold twofa_setup.
    rewrite (db_query_up _ _ Hup), (update_secret_stores _ _ _ Hfit).
    cbn [fst snd]. now rewrite Hqr. }
  rewrite Heq, (update_secret_stores _ _ _ Hfit). cbn [fst snd].
  split; [reflexivity |]. split.
  - intros x Hx Hxid. simpl in Hx. apply in_map_iff in Hx.
    destruct Hx as [y [<- Hy]].
    destruct (Z.eqb_spec (u_id y) (Jwt.id user)) as [E | E];
      [reflexivity | contradiction].
  - rewrite post_login_cases by (simpl; now rewrite Hup).
    simpl users. simpl clock. simpl fst.
    match goal with
    | |- context [filter ?p (map ?f (users w))] =>
        assert (Hp : forall y, p (f y) = p y)
          by (intros y; simpl; now destruct (u_id y =? Jwt.id user));
        pose proof (hd_filter_map p f (users w) u Hp Hfound) as H';
        destruct (filter p (map f (users w))) as [|x xs]; [discriminate |]
    end.
    simpl in H'. injection H' as ->.
    apply Z.eqb_eq in Hid. rewrite Hid. simpl u_password.
    rewrite Hpw, Hsent, Hcmp. simpl u_two_factor_secret. unfold truthy.
    rewrite column_text_blank.
    destruct (String.eqb_spec (fst generated) EmptyString);
      [contradiction | reflexivity].
Qed.

(** X12: enrolment against the column that the migration declares. Let
    a user present a valid token to [POST /2fa/setup], with the store
    answering. A strict store refuses a secret of more than 32
    characters: the answer is 500 "Failed to setup 2FA" and no entry
    changes. Otherwise the answer carries the whole secret and its QR
    code while the store keeps the first 32 characters; the next login
    with the right password is answered the challenge with a
    five-minute token; and the verification with that token accepts the
    codes of the stored text for the current counter and its two
    neighbours, answering a token for the same user with
    [twoFactorVerified: true] that expires one hour after the login. *)
Theorem enrol_login_verify generated data_url session
  req_setup req_login req_verify w u hash password :
  db_faults w = [] ->
  0 < clock w ->
  presented_token req_setup = Some (Jwt.Jws JWT_SECRET session) ->
  (exists e, Jwt.exp session = Some e /\ clock w < e) ->
  Jwt.id session = u_id u ->
  hd_error (filter (fun x => u_id x =? u_id u) (users w)) = Some u ->
  hd_error (filter (fun x => String.eqb (u_email x) (body_email req_login))
                   (users w)) = Some u ->
  u_password u = Some hash ->
  password_sent req_login = Some password ->
  bcrypt_compare password hash = true ->
  fst generated <> EmptyString ->
  qrcode_toDataURL (snd generated) = Some data_url ->
  presented_token req_verify = Some (issued u (clock w) 300) ->
  (exists step, -1 <= step <= 1
                /\ hotp_matches (Some (column_text (fst generated)))
                                (clock w / 30 + step)
                                (body_token req_verify) = true) ->
  let w1 := snd (post_2fa_setup generated req_setup w) in
  let w2 := snd (post_login req_login w1) in
  (sql_strict && too_long (fst generated) = true ->
   fst (post_2fa_setup generated req_setup w)
   = Respond 500 (error_body "Failed to setup 2FA")
   /\ users w1 = users w)
  /\ (sql_strict && too_long (fst generated) = false ->
      fst (post_2fa_setup generated req_setup w)
      = Respond 200 (JObj [("secret", JStr (fst generated));
                           ("qrCode", JStr data_url)])
      /\ hd_error (map u_two_factor_secret
                       (filter (fun x => u_id x =? u_id u) (users w1)))
         = Some (Some (column_text (fst generated)))
      /\ fst (post_login req_login w1)
         = Respond 200 (JObj [("requiresTwoFactor", JBool true);
                              ("tempToken", JTok (issued u (clock w) 300))])
      /\ fst (post_2fa_verify req_verify w2)
         = Respond 200
             (JObj [("accessToken",
                     JTok (Jwt.Jws JWT_SECRET
                             (Jwt.mkClaims (u_id u) (u_email u) (Some true)
                                           (Some (clock w))
                                           (Some (clock w + 3600)))))])).
Proof.
  intros Hup Hepoch Htok [e [He Hlt]] Hsid Hbyid Hbymail Hpw Hsent Hcmp Hne Hqr
         Htok' Hcode.
  cbv zeta. split.
  { intros Hlong.
    assert (Hsetup : post_2fa_setup generated req_setup w
                     = (Respond 500 (error_body "Failed to setup 2FA"), w)).
    { unfold post_2fa_setup, authenticated.
      rewrite (authenticateToken_valid _ _ _ _ Htok He Hlt).
      unfold twofa_setup. rewrite (db_query_up _ _ Hup), Hsid.
      now rewrite (update_secret_refused _ _ _ u Hlong Hbyid). }
    rewrite Hsetup. split; reflexivity. }
  intros Hfit.
  assert (Hsetup : post_2fa_setup generated req_setup w
                   = (Respond 200 (JObj [("secret", JStr (fst generated));
                                         ("qrCode", JStr data_url)]),
                      snd (update_secret (fst generated) (u_id u) w))).
  { unfold post_2fa_setup, authenticated.
    rewrite (authenticateToken_valid _ _ _ _ Htok He Hlt).
    unfold twofa_setup.
    rewrite (db_query_up _ _ Hup), Hsid, (update_secret_stores _ _ _ Hfit).
    cbn [fst snd]. now rewrite Hqr. }
  rewrite Hsetup, (update_secret_stores _ _ _ Hfit). cbn [fst snd].
  match goal with
  | |- context [post_login req_login ?x] => set (w1 := x)
  end.
  assert (Hup1 : db_faults w1 = []) by exact Hup.
  assert (Hupdated :
            forall p, (forall y, p (match u_id y =? u_id u with
                                    | true =>
                                        mkUser (u_id y) (u_name y) (u_email y)
                                               (u_type y) (u_image y)
                                               (u_password y)
                                               (Some (column_text (fst generated)))
                                               (u_two_factor_enabled y)
                                    | false => y
                                    end) = p y) ->
                      hd_error (filter p (users w)) = Some u ->
                      exists rest,
                        filter p (users w1)
                        = mkUser (u_id u) (u_name u) (u_email u) (u_type u)
                                 (u_image u) (u_password u)
                                 (Some (column_text (fst generated)))
                                 (u_two_factor_enabled u) :: rest).
  { intros p Hp Hhd. subst w1. simpl users.
    pose proof (hd_filter_map p _ (users w) u Hp Hhd) as H'.
    destruct (filter p (map _ (users w))) as [|x xs]; [discriminate |].
    simpl in H'. rewrite Z.eqb_refl in H'. injection H' as ->.
    now exists xs. }
  assert (Hclock : clock w1 = clock w) by reflexivity.
  clearbody w1.
  assert (Hlogin : post_login req_login w1
                   = (Respond 200 (challenge (issued u (clock w) 300)), w1)).
  { rewrite post_login_cases by (now rewrite Hup1).
    destruct (Hupdated
                (fun x => String.eqb (u_email x) (body_email req_login))
                ltac:(intros y; destruct (u_id y =? u_id u); reflexivity)
                Hbymail) as [rest ->].
    simpl u_password. rewrite Hpw, Hsent, Hcmp. simpl u_two_factor_secret.
    unfold truthy. rewrite column_text_blank.
    destruct (String.eqb_spec (fst generated) EmptyString); [contradiction |].
    simpl negb. cbv iota. f_equal; [| now apply answered_up].
    now rewrite Hclock. }
  rewrite Hlogin. cbn [fst snd].
  destruct (Hupdated
              (fun x => u_id x =? u_id u)
              ltac:(intros y; destruct (u_id y =? u_id u) eqn:E; simpl;
                    rewrite ?E; reflexivity)
              Hbyid) as [rest Hrest].
  split; [reflexivity |]. split; [now rewrite Hrest |].
  split; [reflexivity |].
  unfold post_2fa_verify, authenticated.
  rewrite (authenticateToken_valid _ _ _ (clock w + 300) Htok' eq_refl)
    by (rewrite Hclock; lia).
  unfold twofa_verify. rewrite (db_query_up _ _ Hup1).
  unfold read_only, select_secret_where_id; simpl fst; simpl snd.
  simpl Jwt.id. rewrite Hrest.
  simpl map. cbv iota. rewrite Hclock.
  rewrite (proj2 (totp_verify_window _ _ _) Hcode).
  unfold Jwt.sign. simpl.
  destruct (Z.eqb_spec (clock w) 0); [lia | reflexivity].
Qed.

(** X13: verifying again does not prolong a session. When the token
    that a verification issued is itself presented to [POST
    /2fa/verify], still valid, with a code in the window, the token
    answered is the token presented. *)
Theorem reverify_same_token req w session issued_at secret :
  presented_token req = Some (Jwt.Jws JWT_SECRET session) ->
  Jwt.twoFactorVerified session = Some true ->
  Jwt.iat session = Some issued_at -> issued_at <> 0 ->
  Jwt.exp session = Some (issued_at + 3600) ->
  clock w < issued_at + 3600 ->
  hd false (db_faults w) = false ->
  hd_error (map u_two_factor_secret
                (filter (fun u => u_id u =? Jwt.id session) (users w)))
  = Some secret ->
  (exists step, -1 <= step <= 1
                /\ hotp_matches secret (clock w / 30 + step) (body_token req)
                   = true) ->
  fst (post_2fa_verify req w)
  = Respond 200 (JObj [("accessToken", JTok (Jwt.Jws JWT_SECRET session))]).
Proof.
  intros Htok Hflag Hiat Hnz Hexp Hlt Hup Hsecret Hcode.
  unfold post_2fa_verify, authenticated.
  rewrite (authenticateToken_valid _ _ _ _ Htok Hexp Hlt).
  unfold twofa_verify. rewrite (db_query_answered _ _ Hup).
  unfold read_only, select_secret_where_id; simpl fst; simpl snd.
  destruct (map u_two_factor_secret _) as [|s rest]; [discriminate |].
  injection Hsecret as ->.
  rewrite (proj2 (totp_verify_window _ _ _) Hcode).
  unfold Jwt.sign. simpl. rewrite Hiat.
  destruct (Z.eqb_spec issued_at 0); [contradiction |].
  destruct session as [i m f t x]. simpl in *. now subst.
Qed.

(** X14: tokens outlive their user. After a delete that succeeded, a
    token of the deleted user that is still valid passes the guard:
    [POST /2fa/verify] runs its handler, which finds no entry and
    answers 500 "Failed to verify 2FA", not 401 or 403. *)
Theorem deleted_user_token req w req' session e :
  db_faults w = [] ->
  (exists u, In u (users w) /\ u_id u = param_id req) ->
  presented_token req' = Some (Jwt.Jws JWT_SECRET session) ->
  Jwt.id session = param_id req ->
  Jwt.exp session = Some e -> clock w < e ->
  fst (post_2fa_verify req' (snd (delete_users req w)))
  = Respond 500 (error_body "Failed to verify 2FA").
Proof.
  intros Hup Hex Htok Hid He Hlt.
  rewrite (delete_users_steps _ _ Hup Hex). simpl snd.
  rewrite broadcastUpdate_up by exact Hup. simpl snd.
  unfold post_2fa_verify, authenticated.
  rewrite (authenticateToken_valid _ _ _ _ Htok He) by exact Hlt.
  unfold twofa_verify. rewrite db_query_up by exact Hup.
  unfold read_only, select_secret_where_id; simpl fst; simpl snd.
  rewrite Hid.
  assert (E : filter (fun u => u_id u =? param_id req)
                     (filter (fun u => negb (u_id u =? param_id req)) (users w))
              = []).
  { apply filter_nil_iff. intros x Hx. apply filter_In in Hx.
    destruct Hx as [_ Hx]. now destruct (u_id x =? param_id req). }
  now rewrite E.
Qed.

(** X27: [GET /users/me] never reaches its guard. The route of [GET
    /users/:id] is registered first and answers the request itself:
    whatever the [Authorization] header is, valid token or none, with
    the store answering and no entry of id 0 the answer is 404 "User not
    found". *)
Theorem get_users_me_unguarded req w :
  hd false (db_faults w) = false ->
  (forall u, In u (users w) -> u_id u <> 0) ->
  get_users_me req w
  = (Respond 404 (error_body "User not found"), answered w).
Proof.
  intros Hup Hnone. unfold get_users_me, get_user.
  rewrite (db_query_answered _ _ Hup).
  unfold read_only, select_entry_where_id; simpl fst; simpl snd.
  assert (E : filter (fun u => u_id u =? 0) (users w) = []).
  { apply filter_nil_iff. intros u Hin. apply Z.eqb_neq. now apply Hnone. }
  simpl. rewrite E. reflexivity.
Qed.

(** *** Observers *)

(** X15: a client that connects and then witnesses a create has
    received, with the store answering, exactly two messages: the
    ['INITIAL_DATA'] envelope with no data and the entries as they were,
    then the ['USER_ADDED'] envelope whose [allUsers] is that same list
    followed by the new entry. The clients that were there before get
    the second message only, when open. *)
Theorem connect_then_create id req w :
  validateUser req = [] ->
  db_faults w = [] ->
  (forall u, In u (users w) -> u_email u <> body_email req) ->
  let entry :=
    mkUser (users_next_id w) (validator_trim (body_name req))
           (body_email req) (body_type req) None None None false in
  let added :=
    JObj [("type", JStr "USER_ADDED");
          ("data", JObj [("id", JNum (users_next_id w));
                         ("name", JStr (validator_trim (body_name req)));
                         ("email", JStr (body_email req));
                         ("type", JStr (body_type req));
                         ("image", JNull)]);
          ("allUsers", JArr (map row_json (users w ++ [entry])))] in
  exists others,
    wss_clients (snd (post_users req (on_connection id w)))
    = others
      ++ [mkClient id WebSocket_OPEN
                   [JObj [("type", JStr "INITIAL_DATA");
                          ("data", JNull);
                          ("allUsers", JArr (map row_json (users w)))];
                    added]]
    /\ delivered added (wss_clients w) others.
Proof.
  intros Hvalid Hup Hfree. cbv zeta.
  assert (Hconn : on_connection id w
                  = set_wss_clients
                      (wss_clients w
                       ++ [mkClient id WebSocket_OPEN
                                    [envelope "INITIAL_DATA" JNull (users w)]])
                      w).
  { unfold on_connection, getAllUsers. now rewrite (db_query_up _ _ Hup). }
  rewrite Hconn.
  destruct (post_users_success req
              (set_wss_clients
                 (wss_clients w
                  ++ [mkClient id WebSocket_OPEN
                               [envelope "INITIAL_DATA" JNull (users w)]])
                 w) Hvalid Hup Hfree)
    as (_ & _ & _ & _ & _ & _ & Hc).
  rewrite Hc. simpl wss_clients. simpl users. simpl users_next_id.
  rewrite map_app. eexists. split; [reflexivity | apply delivered_map].
Qed.

(** *** The statements of the two list endpoints *)

Lemma upper_lower_ascii c : upper_ascii (lower_ascii c) = upper_ascii c.
Proof.
  destruct c as [[] [] [] [] [] [] [] []]; reflexivity.
Qed.

Lemma toUpperCase_toLowerCase s : toUpperCase (toLowerCase s) = toUpperCase s.
Proof.
  induction s as [|c s IH]; simpl; [reflexivity |].
  now rewrite upper_lower_ascii, IH.
Qed.

Lemma sortOrder_allowed order :
  In (if existsb (String.eqb (toLowerCase order)) allowedOrder
      then toUpperCase order else "ASC")
     ["ASC"; "DESC"].
Proof.
  destruct (existsb _ allowedOrder) eqn:E; [| now left].
  apply existsb_exists in E. destruct E as [x [Hx Hlow]].
  apply String.eqb_eq in Hlow.
  rewrite <- toUpperCase_toLowerCase, Hlow.
  destruct Hx as [<- | [<- | []]]; [now left | right; now left].
Qed.

Lemma sortCol_allowed sort :
  In (if existsb (String.eqb sort) allowedSort then sort else "name")
     allowedSort.
Proof.
  destruct (existsb _ allowedSort) eqn:E; [| now left].
  apply existsb_exists in E. destruct E as [x [Hx Heq]].
  apply String.eqb_eq in Heq. now subst x.
Qed.

(** X16: whatever the request says, the text that [GET /users] sends to
    the store is put together from fixed pieces: the three filters, each
    present exactly when its parameter is a non-empty text, an [ORDER
    BY] on one of the four allowed columns in [ASC] or [DESC], and the
    limit. No text of the request is part of it, and it has exactly as
    many [?] as there are bound parameters. *)
Theorem users_list_statement_fixed q :
  exists col dir,
    In col ["name"; "email"; "type"; "created_at"]
    /\ In dir ["ASC"; "DESC"]
    /\ fst (users_list_statement q)
       = String.append
           (String.append
              (String.append
                 (String.append "SELECT * FROM users WHERE 1=1"
                    (if truthy (q_name q) then " AND name LIKE ?"
                     else EmptyString))
                 (if truthy (q_email q) then " AND email LIKE ?"
                  else EmptyString))
              (if truthy (q_type q) then " AND type = ?" else EmptyString))
           (String.append " ORDER BY "
              (String.append col
                 (String.append " " (String.append dir " LIMIT ? OFFSET ?"))))
    /\ placeholders (fst (users_list_statement q))
       = List.length (snd (users_list_statement q)).
Proof.
  unfold users_list_statement.
  pose proof (sortCol_allowed (defaulted "name" (q_sort q))) as Hcol.
  pose proof (sortOrder_allowed (defaulted "asc" (q_order q))) as Hdir.
  set (col := if existsb _ allowedSort then _ else _) in *.
  set (dir := if existsb _ allowedOrder then _ else _) in *.
  exists col, dir. clearbody col dir.
  split; [exact Hcol |]. split; [exact Hdir |].
  unfold filtered.
  destruct (truthy (q_name q)), (truthy (q_email q)), (truthy (q_type q));
    (split; [reflexivity |]);
    destruct Hcol as [<- | [<- | [<- | [<- | []]]]];
    destruct Hdir as [<- | [<- | []]]; reflexivity.
Qed.

(** X17: [GET /users/count] binds the filter parameters of [GET /users]
    exactly when the request has no [email] filter; with one, the count
    is taken without it. *)
Theorem users_count_ignores_email q :
  snd (users_list_statement q)
  = snd (users_count_statement q)
    ++ [PNumber (parsed 10 (q_limit q)); PNumber (parsed 0 (q_offset q))]
  <-> truthy (q_email q) = false.
Proof.
  unfold users_list_statement, users_count_statement, filtered.
  destruct (truthy (q_name q)), (truthy (q_email q)), (truthy (q_type q));
    simpl; split; intros H; try reflexivity; try discriminate;
    apply (f_equal (@List.length _)) in H; simpl in H; discriminate.
Qed.

(** *** populateUsers.js *)

Lemma insert_rows_spec values w :
  exists added,
    users (insert_rows values w) = users w ++ added
    /\ List.length added = List.length values
    /\ Forall (fun u => u_password u = None) added
    /\ db_faults (insert_rows values w) = db_faults w.
Proof.
  revert w. induction values as [|[[[name email] type] image] rest IH];
    intros w; simpl.
  - exists []. rewrite app_nil_r. repeat split. constructor.
  - destruct (IH (set_users
                    (users w ++ [mkUser (users_next_id w) name email type
                                        (Some image) None None false])
                    (users_next_id w + 1) w))
      as (added & Hu & Hlen & Hpw & Hf).
    eexists (_ :: added). rewrite Hu. simpl users. rewrite <- app_assoc.
    split; [reflexivity |]. split; [simpl; now rewrite Hlen |].
    split; [constructor; [reflexivity | exact Hpw] | exact Hf].
Qed.

Lemma insertBatch_batches (k fuel : nat) inserted w :
  db_faults w = [] ->
  (k < fuel)%nat ->
  TOTAL <= inserted + Z.of_nat k * BATCH_SIZE ->
  (k = O \/ inserted + (Z.of_nat k - 1) * BATCH_SIZE < TOTAL) ->
  exists w' added,
    insertBatch fuel inserted w = Done w'
    /\ users w' = users w ++ added
    /\ Z.of_nat (List.length added) = Z.of_nat k * BATCH_SIZE
    /\ Forall (fun u => u_password u = None) added.
Proof.
  revert fuel inserted w.
  induction k as [|k IH]; intros fuel inserted w Hup Hfuel Hreach Hexact;
    (destruct fuel as [|fuel]; [lia |]); cbn [insertBatch].
  - destruct (Z.geb_spec inserted TOTAL); [| lia].
    exists w, []. rewrite app_nil_r. repeat split. constructor.
  - destruct (Z.geb_spec inserted TOTAL).
    { destruct Hexact as [Hk | Hk]; [discriminate |].
      unfold BATCH_SIZE in *. lia. }
    rewrite (db_query_up _ _ Hup). unfold insert_values. cbn [fst snd].
    match goal with
    | |- context [insert_rows ?vs w] =>
        destruct (insert_rows_spec vs w) as (added & Hu & Hlen & Hpw & Hf);
        set (w1 := insert_rows vs w) in *
    end.
    destruct (IH fuel (inserted + BATCH_SIZE) w1) as (w' & more & Hd & Hu' & Hl' & Hp');
      [now rewrite Hf | lia | unfold BATCH_SIZE in *; lia
       | destruct Hexact as [Hk | Hk]; [discriminate |];
         destruct k; [now left | right; unfold BATCH_SIZE in *; lia] |].
    exists w', (added ++ more). rewrite Hd, Hu', Hu, <- app_assoc.
    split; [reflexivity |]. split; [reflexivity |]. split.
    + rewrite length_app, Hlen, length_map, length_seq.
      unfold BATCH_SIZE in *. lia.
    + apply Forall_app. now split.
Qed.

(** X18: with the store answering, the script ends with ['Done!']: it
    has added exactly 100000 entries after the ones that were there,
    none of them with a password hash. When the store
    refuses the first batch, the error is thrown and nothing is added. *)
Theorem populate_inserts_total fuel w :
  (100 < fuel)%nat ->
  (db_faults w = [] ->
   exists w' added,
     insertBatch fuel 0 w = Done w'
     /\ users w' = users w ++ added
     /\ Z.of_nat (List.length added) = TOTAL
     /\ Forall (fun u => u_password u = None) added)
  /\ (hd false (db_faults w) = true ->
      exists w', insertBatch fuel 0 w = Thrown w' /\ users w' = users w).
Proof.
  intros Hfuel. split.
  - intros Hup.
    destruct (insertBatch_batches 100 fuel 0 w Hup Hfuel)
      as (w' & added & Hd & Hu & Hl & Hp);
      [unfold TOTAL, BATCH_SIZE; lia
      | right; unfold TOTAL, BATCH_SIZE; lia |].
    exists w', added. repeat split; try assumption.
  - intros Hdown. destruct fuel as [|fuel]; [lia |]. cbn [insertBatch].
    change (0 >=? TOTAL) with false. cbv iota.
    unfold db_query. destruct (db_faults w) as [|[] fs]; try discriminate.
    eexists. split; reflexivity.
Qed.

(** *** What the directory keeps *)

Lemma consistent_same w w' :
  users w' = users w -> users_next_id w' = users_next_id w ->
  consistent w -> consistent w'.
Proof.
  unfold consistent, ids_fresh. intros -> ->. exact (fun H => H).
Qed.

Lemma NoDup_map_snoc {A B : Type} (f : A -> B) (l : list A) (x : A) :
  NoDup (map f l) -> ~ In (f x) (map f l) -> NoDup (map f (l ++ [x])).
Proof.
  intros Hnd Hnot. rewrite map_app. simpl.
  induction (map f l) as [|b bs IH]; simpl.
  - constructor; [intros [] | constructor].
  - inversion Hnd as [|? ? Hb Hbs]; subst. constructor.
    + intros Hin. apply in_app_or in Hin. destruct Hin as [Hin | [Hin | []]].
      * contradiction.
      * apply Hnot. now left.
    + apply IH; [exact Hbs |]. intros Hin. apply Hnot. now right.
Qed.

Lemma NoDup_map_filter {A B : Type} (f : A -> B) (p : A -> bool) (l : list A) :
  NoDup (map f l) -> NoDup (map f (filter p l)).
Proof.
  induction l as [|a l IH]; simpl; [intros _; constructor |].
  intros Hnd. inversion Hnd as [|? ? Ha Hl]; subst.
  destruct (p a); simpl; [| now apply IH].
  constructor; [| now apply IH].
  intros Hin. apply Ha. apply in_map_iff in Hin.
  destruct Hin as [x [Hx Hin]]. apply filter_In in Hin.
  apply in_map_iff. exists x. split; [exact Hx | apply Hin].
Qed.

(** An entry appended with the next id and an unused email. *)
Lemma consistent_insert w row next :
  consistent w ->
  u_id row = users_next_id w ->
  ~ In (u_email row) (map u_email (users w)) ->
  next = users_next_id w + 1 ->
  consistent (set_users (users w ++ [row]) next w).
Proof.
  intros (Hfresh & Hids & Hmails) Hid Hmail ->. unfold consistent, ids_fresh.
  simpl. split; [| split].
  - intros u Hin. apply in_app_or in Hin. destruct Hin as [Hin | [<- | []]].
    + specialize (Hfresh u Hin). lia.
    + lia.
  - apply NoDup_map_snoc; [exact Hids |]. intros Hin.
    apply in_map_iff in Hin. destruct Hin as [u [Hu Hin]].
    specialize (Hfresh u Hin). lia.
  - now apply NoDup_map_snoc.
Qed.

Lemma consistent_filter w p :
  consistent w -> consistent (set_users (filter p (users w)) (users_next_id w) w).
Proof.
  intros (Hfresh & Hids & Hmails). unfold consistent, ids_fresh. simpl.
  split; [| split].
  - intros u Hin. apply filter_In in Hin. now apply Hfresh.
  - now apply NoDup_map_filter.
  - now apply NoDup_map_filter.
Qed.

Lemma updated_emails id email (f : user_row -> user_row) us :
  (forall u, u_id (f u) = u_id u) ->
  (forall u, u_email (f u) = if u_id u =? id then email else u_email u) ->
  NoDup (map u_id us) -> NoDup (map u_email us) ->
  (forall u, In u us -> u_email u = email -> u_id u = id) ->
  NoDup (map u_email (map f us)).
Proof.
  intros Hfid Hfmail. induction us as [|u us IH]; simpl; intros Hids Hmails Hfree;
    [constructor |].
  inversion Hids as [|? ? Hu_id Hids']; subst.
  inversion Hmails as [|? ? Hu_mail Hmails']; subst.
  constructor.
  - intros Hin. apply in_map_iff in Hin. destruct Hin as [v' [Hv' Hin]].
    apply in_map_iff in Hin. destruct Hin as [v [<- Hv]].
    rewrite !Hfmail in Hv'.
    assert (Hvu : u_id v <> u_id u).
    { intros E. apply Hu_id. rewrite <- E. now apply in_map. }
    destruct (Z.eqb_spec (u_id v) id) as [Ev | Ev];
      destruct (Z.eqb_spec (u_id u) id) as [Eu | Eu].
    + congruence.
    + symmetry in Hv'. apply (Hfree u (or_introl eq_refl)) in Hv'. contradiction.
    + apply (Hfree v (or_intror Hv)) in Hv'. contradiction.
    + apply Hu_mail. rewrite <- Hv'. now apply in_map.
  - apply IH; [exact Hids' | exact Hmails' |].
    intros v Hv. apply Hfree. now right.
Qed.

Lemma consistent_update w id name email type :
  consistent w ->
  email_free_for id email w ->
  consistent (snd (update_user name email type id w)).
Proof.
  intros (Hfresh & Hids & Hmails) Hfree. unfold consistent, ids_fresh. simpl.
  assert (Hid : forall u,
             u_id (if u_id u =? id
                   then mkUser (u_id u) name email type (u_image u)
                               (u_password u) (u_two_factor_secret u)
                               (u_two_factor_enabled u)
                   else u) = u_id u)
    by (intros u; now destruct (u_id u =? id)).
  split; [| split].
  - intros u' Hin. apply in_map_iff in Hin. destruct Hin as [u [<- Hin]].
    rewrite Hid. now apply Hfresh.
  - rewrite map_map. erewrite map_ext; [exact Hids | exact Hid].
  - apply (updated_emails id email); try assumption.
    intros u. now destruct (u_id u =? id).
Qed.

Lemma consistent_secret w secret id :
  consistent w -> consistent (snd (update_secret secret id w)).
Proof.
  intros Hw. unfold update_secret.
  destruct (sql_strict && too_long secret && existsb _ (users w));
    [exact Hw |].
  destruct Hw as (Hfresh & Hids & Hmails). unfold consistent, ids_fresh. simpl.
  assert (Hid : forall u,
             u_id (if u_id u =? id
                   then mkUser (u_id u) (u_name u) (u_email u) (u_type u)
                               (u_image u) (u_password u)
                               (Some (column_text secret))
                               (u_two_factor_enabled u)
                   else u) = u_id u)
    by (intros u; now destruct (u_id u =? id)).
  assert (Hmail : forall u,
             u_email (if u_id u =? id
                      then mkUser (u_id u) (u_name u) (u_email u) (u_type u)
                                  (u_image u) (u_password u)
                                  (Some (column_text secret))
                                  (u_two_factor_enabled u)
                      else u) = u_email u)
    by (intros u; now destruct (u_id u =? id)).
  split; [| split].
  - intros u' Hin. apply in_map_iff in Hin. destruct Hin as [u [<- Hin]].
    rewrite Hid. now apply Hfresh.
  - rewrite map_map. erewrite map_ext; [exact Hids | exact Hid].
  - rewrite map_map. erewrite map_ext; [exact Hmails | exact Hmail].
Qed.

Lemma consistent_answered w : consistent w -> consistent (answered w).
Proof. now apply consistent_same. Qed.

(** A statement that keeps the directory consistent does so through
    [db.query], answered or not. *)
Lemma consistent_query {A : Type} (stmt : world -> A * world) w :
  (forall x, consistent x -> consistent (snd (stmt x))) ->
  consistent w -> consistent (snd (db_query stmt w)).
Proof.
  intros Hstmt Hw. destruct (db_query_cases stmt w) as [-> | ->]; simpl.
  - now apply consistent_answered.
  - now apply Hstmt, consistent_answered.
Qed.

Lemma consistent_broadcast type data w :
  consistent w -> consistent (snd (broadcastUpdate type data w)).
Proof.
  intros Hw. destruct (broadcastUpdate_cases type data w) as [-> | ->]; simpl;
    now apply (consistent_same w).
Qed.

Lemma empty_results (p : user_row -> bool) us :
  (0 <? List.length (map u_id (filter p us)))%nat = false ->
  forall u, In u us -> p u = false.
Proof.
  intros H. apply filter_nil_iff.
  destruct (filter p us); [reflexivity | discriminate].
Qed.

(** X19: the directory stays consistent. If the ids are below the next
    id and no two entries share an id or an email, the same holds after
    a create, an update, a delete, a registration or an enrolment,
    whatever the request is and whichever queries the store answers. *)
Theorem writes_keep_consistent w req :
  consistent w ->
  consistent (snd (post_users req w))
  /\ consistent (snd (patch_users req w))
  /\ consistent (snd (delete_users req w))
  /\ (forall salt, consistent (snd (post_register salt req w)))
  /\ (forall generated user,
        consistent (snd (twofa_setup generated user req w))).
Proof.
  intros Hw.
  assert (Hunused : forall email,
             (0 <? List.length
                     (map u_id
                          (filter (fun u => String.eqb (u_email u) email)
                                  (users w))))%nat = false ->
             ~ In email (map u_email (users w))).
  { intros email E Hin. apply in_map_iff in Hin. destruct Hin as [u [Hu Hin]].
    pose proof (empty_results _ _ E u Hin) as Hf. simpl in Hf.
    rewrite Hu, String.eqb_refl in Hf. discriminate. }
  split; [| split; [| split; [| split]]].
  - unfold post_users. destruct (handleValidationErrors req); [exact Hw |].
    destruct (db_query_read_only
                (select_id_where_email (body_email req)) w) as [-> | ->];
      [now apply consistent_answered |].
    unfold select_id_where_email. simpl users.
    destruct (0 <? List.length _)%nat eqn:E; [now apply consistent_answered |].
    destruct (db_query_cases
                (insert_user (validator_trim (body_name req)) (body_email req)
                             (body_type req)) (answered w)) as [-> | ->];
      [now apply consistent_answered, consistent_answered |].
    cbn [fst].
    assert (Hins : consistent
                     (snd (insert_user (validator_trim (body_name req))
                                       (body_email req) (body_type req)
                                       (answered (answered w)))))
      by (apply (consistent_insert (answered (answered w)));
          [now apply consistent_answered, consistent_answered
          | reflexivity | exact (Hunused _ E) | reflexivity]).
    match goal with
    | |- context [broadcastUpdate ?t ?d ?x] =>
        pose proof (consistent_broadcast t d x Hins) as H;
        destruct (broadcastUpdate t d x) as [[] w3]; exact H
    end.
  - unfold patch_users. destruct (handleValidationErrors req); [exact Hw |].
    destruct (db_query_read_only
                (select_id_where_email_not_id (body_email req) (param_id req))
                w) as [-> | ->];
      [now apply consistent_answered |].
    unfold select_id_where_email_not_id. simpl users.
    destruct (0 <? List.length _)%nat eqn:E; [now apply consistent_answered |].
    assert (Hfree : email_free_for (param_id req) (body_email req) w).
    { intros u Hin Hmail. pose proof (empty_results _ _ E u Hin) as Hf.
      simpl in Hf. rewrite Hmail, String.eqb_refl in Hf. simpl in Hf.
      destruct (Z.eqb_spec (u_id u) (param_id req)); [assumption | discriminate]. }
    destruct (db_query_cases
                (update_user (validator_trim (body_name req)) (body_email req)
                             (body_type req) (param_id req)) (answered w))
      as [-> | ->];
      [now apply consistent_answered, consistent_answered |].
    assert (Hupd : consistent
                     (snd (update_user (validator_trim (body_name req))
                                       (body_email req) (body_type req)
                                       (param_id req) (answered (answered w)))))
      by (apply consistent_update;
          [now apply consistent_answered, consistent_answered | exact Hfree]).
    cbn [fst]. destruct (_ =? 0); [exact Hupd |]. cbv zeta.
    match goal with
    | |- context [broadcastUpdate ?t ?d (snd (db_query ?stmt ?y))] =>
        assert (Hlog : consistent (snd (db_query stmt y)))
          by (apply consistent_query; [| exact Hupd];
              intros x Hx; exact (consistent_same x _ eq_refl eq_refl Hx));
        pose proof (consistent_broadcast t d _ Hlog) as H;
        destruct (broadcastUpdate t d (snd (db_query stmt y))) as [[] w3];
        exact H
    end.
  - unfold delete_users.
    destruct (db_query_cases (delete_user (param_id req)) w) as [-> | ->];
      [now apply consistent_answered |].
    assert (Hdel : consistent (snd (delete_user (param_id req) (answered w))))
      by (apply (consistent_filter (answered w)); now apply consistent_answered).
    cbn [fst]. destruct (_ =? 0); [exact Hdel |]. cbv zeta.
    match goal with
    | |- context [broadcastUpdate ?t ?d (snd (db_query ?stmt ?y))] =>
        assert (Hlog : consistent (snd (db_query stmt y)))
          by (apply consistent_query; [| exact Hdel];
              intros x Hx; exact (consistent_same x _ eq_refl eq_refl Hx));
        pose proof (consistent_broadcast t d _ Hlog) as H;
        destruct (broadcastUpdate t d (snd (db_query stmt y))) as [[] w3];
        exact H
    end.
  - intros salt. unfold post_register.
    destruct (_ || _); [exact Hw |].
    destruct (db_query_read_only
                (select_id_where_email (body_email req)) w) as [-> | ->];
      [now apply consistent_answered |].
    unfold select_id_where_email. simpl users.
    destruct (0 <? List.length _)%nat eqn:E; [now apply consistent_answered |].
    destruct (db_query_cases
                (insert_user_with_password
                   (body_name req) (body_email req)
                   (bcrypt_hash salt (body_password req)) (body_type req))
                (answered w)) as [-> | ->];
      [now apply consistent_answered, consistent_answered |].
    cbn [fst snd].
    apply (consistent_insert (answered (answered w)));
      [now apply consistent_answered, consistent_answered
      | reflexivity | exact (Hunused _ E) | reflexivity].
  - intros generated user. unfold twofa_setup.
    destruct (db_query_cases (update_secret (fst generated) (Jwt.id user)) w)
      as [-> | ->];
      [now apply consistent_answered |].
    cbn [fst].
    assert (Hsec : consistent
                     (snd (update_secret (fst generated) (Jwt.id user)
                                         (answered w))))
      by (apply consistent_secret; now apply consistent_answered).
    destruct (fst (update_secret _ _ _)); [| exact Hsec].
    destruct (qrcode_toDataURL (snd generated)); exact Hsec.
Qed.

(** *** Sessions *)

Lemma post_login_granted req w accessToken profile :
  fst (post_login req w)
  = Respond 200 (JObj [("accessToken", JTok accessToken); ("user", profile)]) ->
  exists user,
    accessToken = issued user (clock w) 3600 /\ profile = userResponse user.
Proof.
  unfold post_login.
  destruct (db_query_read_only
              (select_users_where_email (body_email req)) w) as [-> | ->];
    [discriminate |].
  destruct (select_users_where_email _ _) as [|user rest]; [discriminate |].
  destruct (u_password user) as [hash|]; [| discriminate].
  destruct (password_sent req) as [password|]; [| discriminate].
  destruct (negb _); [discriminate |].
  rewrite answered_clock.
  destruct (truthy _); simpl.
  - discriminate.
  - intros [= <- <-]. now exists user.
Qed.

(** X20: the token that a login grants at once opens the guarded
    endpoints, as the user of the profile it came with, for one hour
    from the login; from then on it is answered 403 "Invalid or expired
    token". *)
Theorem granted_token_lifetime handler req w accessToken profile req' w' :
  fst (post_login req w)
  = Respond 200 (JObj [("accessToken", JTok accessToken); ("user", profile)]) ->
  presented_token req' = Some accessToken ->
  exists user,
    accessToken = Jwt.Jws JWT_SECRET user
    /\ json_get "id" profile = Some (JNum (Jwt.id user))
    /\ json_get "email" profile = Some (JStr (Jwt.email user))
    /\ authenticated handler req' w' =
       if clock w' <? clock w + 3600
       then handler user req' w'
       else (Respond 403 (error_body "Invalid or expired token"), w').
Proof.
  intros Hlogin Htok.
  destruct (post_login_granted _ _ _ _ Hlogin) as [user [-> ->]].
  eexists. split; [reflexivity |]. split; [reflexivity |].
  split; [reflexivity |].
  unfold authenticated, authenticateToken. rewrite Htok.
  unfold issued, Jwt.verify. rewrite String.eqb_refl. simpl.
  destruct (Z.geb_spec (clock w') (clock w + 3600));
    destruct (Z.ltb_spec (clock w') (clock w + 3600)); try lia; reflexivity.
Qed.

(** *** Refusals, and queries that the store fails *)

Lemma db_query_ok {A : Type} (stmt : world -> A * world) w fs :
  db_faults w = false :: fs ->
  db_query stmt w
  = (Some (fst (stmt (set_db_faults fs w))), snd (stmt (set_db_faults fs w))).
Proof.
  intros H. unfold db_query. rewrite H.
  now destruct (stmt (set_db_faults fs w)).
Qed.

Lemma nobody_matched (p : user_row -> bool) us :
  (Z.of_nat (List.length (filter p us)) =? 0) = true ->
  forall u, In u us -> p u = false.
Proof.
  intros H. apply filter_nil_iff.
  apply Z.eqb_eq in H. destruct (filter p us); [reflexivity | simpl in H; lia].
Qed.

Lemma update_user_nobody name email type id w :
  (fst (update_user name email type id w) =? 0) = true ->
  users (snd (update_user name email type id w)) = users w.
Proof.
  unfold update_user. simpl. intros H.
  rewrite <- (map_id (users w)) at 2. apply map_ext_in.
  intros u Hin. now rewrite (nobody_matched _ _ H u Hin).
Qed.

Lemma delete_user_nobody id w :
  (fst (delete_user id w) =? 0) = true ->
  users (snd (delete_user id w)) = users w.
Proof.
  unfold delete_user. simpl. intros H.
  apply filter_all_true. intros u Hin.
  now rewrite (nobody_matched _ _ H u Hin).
Qed.

Ltac answer H :=
  injection H as <- <-; try discriminate; repeat split.

Ltac branch H :=
  match type of H with
  | context [if ?b then _ else _] => destruct b eqn:?
  end.

Lemma post_users_refusal req w r w' :
  post_users req w = (r, w') -> refused r = true -> same_content w w'.
Proof.
  unfold post_users. intros H Hr.
  destruct (handleValidationErrors req); [answer H |].
  destruct (db_query_read_only (select_id_where_email (body_email req)) w)
    as [E | E]; rewrite E in H; [answer H |].
  branch H; [answer H |].
  destruct (db_query_cases
              (insert_user (validator_trim (body_name req)) (body_email req)
                           (body_type req))
              (answered w)) as [E2 | E2]; rewrite E2 in H; [answer H |].
  destruct (broadcastUpdate _ _ _) as [[|] w3]; injection H as <- <-;
    discriminate.
Qed.

Lemma patch_users_refusal req w r w' :
  patch_users req w = (r, w') -> refused r = true -> same_content w w'.
Proof.
  unfold patch_users. intros H Hr.
  destruct (handleValidationErrors req); [answer H |].
  destruct (db_query_read_only
              (select_id_where_email_not_id (body_email req) (param_id req)) w)
    as [E | E]; rewrite E in H; [answer H |].
  branch H; [answer H |].
  destruct (db_query_cases
              (update_user (validator_trim (body_name req)) (body_email req)
                           (body_type req) (param_id req))
              (answered w)) as [E2 | E2]; rewrite E2 in H; [answer H |].
  branch H.
  - injection H as <- <-.
    match goal with
    | K : (fst _ =? 0) = true |- _ =>
        pose proof (update_user_nobody _ _ _ _ _ K) as Hsame
    end.
    split; [exact Hsame | repeat split].
  - destruct (broadcastUpdate _ _ _) as [[|] w4]; injection H as <- <-;
      discriminate.
Qed.

Lemma delete_users_refusal req w r w' :
  delete_users req w = (r, w') -> refused r = true -> same_content w w'.
Proof.
  unfold delete_users. intros H Hr.
  destruct (db_query_cases (delete_user (param_id req)) w) as [E | E];
    rewrite E in H; [answer H |].
  branch H.
  - injection H as <- <-.
    match goal with
    | K : (fst _ =? 0) = true |- _ =>
        pose proof (delete_user_nobody _ _ K) as Hsame
    end.
    split; [exact Hsame | repeat split].
  - destruct (broadcastUpdate _ _ _) as [[|] w3]; injection H as <- <-;
      discriminate.
Qed.

Lemma post_register_refusal salt req w r w' :
  post_register salt req w = (r, w') -> refused r = true -> same_content w w'.
Proof.
  unfold post_register. intros H Hr.
  branch H; [answer H |].
  destruct (db_query_read_only (select_id_where_email (body_email req)) w)
    as [E | E]; rewrite E in H; [answer H |].
  branch H; [answer H |].
  destruct (db_query_cases
              (insert_user_with_password
                 (body_name req) (body_email req)
                 (bcrypt_hash salt (body_password req)) (body_type req))
              (answered w)) as [E2 | E2]; rewrite E2 in H;
    injection H as <- <-; [repeat split | discriminate].
Qed.

(** X22: a refusal changes nothing. Whenever a create, an update, a
    delete or a registration is answered with a status from 400 on, be
    it for the request or because the store failed a query, the users,
    the logs, the flags and what every client has received are as
    before. *)
Theorem refusals_change_nothing salt handler req w :
  In handler [post_users; patch_users; delete_users; post_register salt] ->
  refused (fst (handler req w)) = true ->
  same_content w (snd (handler req w)).
Proof.
  intros [<- | [<- | [<- | [<- | []]]]] H.
  - exact (post_users_refusal req w _ _ (surjective_pairing _) H).
  - exact (patch_users_refusal req w _ _ (surjective_pairing _) H).
  - exact (delete_users_refusal req w _ _ (surjective_pairing _) H).
  - exact (post_register_refusal salt req w _ _ (surjective_pairing _) H).
Qed.

(** X23: an update of an id that no entry has, with an email that no
    entry holds and the store answering, is answered 404 "User not
    found" and changes nothing. *)
Theorem patch_users_unknown req w :
  validateUser req = [] ->
  db_faults w = [] ->
  (forall u, In u (users w) -> u_id u <> param_id req) ->
  (forall u, In u (users w) -> u_email u <> body_email req) ->
  fst (patch_users req w) = Respond 404 (error_body "User not found")
  /\ same_content w (snd (patch_users req w)).
Proof.
  intros Hvalid Hup Hnone Hfree.
  assert (E : filter (fun u => String.eqb (u_email u) (body_email req)
                               && negb (u_id u =? param_id req)) (users w)
              = []).
  { apply filter_nil_iff. intros u Hin.
    destruct (String.eqb_spec (u_email u) (body_email req)); [| reflexivity].
    now apply Hfree in Hin. }
  assert (K : filter (fun u => u_id u =? param_id req) (users w) = []).
  { apply filter_nil_iff. intros u Hin. apply Z.eqb_neq. now apply Hnone. }
  assert (Heq : fst (patch_users req w)
                = Respond 404 (error_body "User not found")).
  { unfold patch_users, handleValidationErrors.
    rewrite Hvalid, (db_query_up _ _ Hup).
    unfold read_only, select_id_where_email_not_id; simpl fst; simpl snd.
    rewrite E. simpl.
    rewrite (db_query_up _ _ Hup). unfold update_user at 1. simpl fst.
    rewrite K. reflexivity. }
  split; [exact Heq |].
  apply (patch_users_refusal req w (fst (patch_users req w)));
    [apply surjective_pairing | now rewrite Heq].
Qed.

(** X24: when the insert of a create has gone through and the read of
    the entries for the broadcast fails, the entry is stored, no client
    is told, the caller gets no answer and the process ends: the same
    request sent again gets no answer either. A server that runs again
    on the store as it was left answers that request 400 "Email already
    exists". *)
Theorem create_answer_lost req w :
  validateUser req = [] ->
  db_faults w = [false; false; true] ->
  (forall u, In u (users w) -> u_email u <> body_email req) ->
  let entry :=
    mkUser (users_next_id w) (validator_trim (body_name req))
           (body_email req) (body_type req) None None None false in
  exists w',
    serve (post_users req) (Up w) = (NoResponse, Down w')
    /\ users w' = users w ++ [entry]
    /\ wss_clients w' = wss_clients w
    /\ fst (serve (post_users req) (Down w')) = NoResponse
    /\ (forall again,
          users again = users w' -> db_faults again = [] ->
          fst (serve (post_users req) (Up again)) = conflict Create).
Proof.
  intros Hvalid Hf Hfree. cbv zeta.
  assert (E : filter (fun u => String.eqb (u_email u) (body_email req)) (users w)
              = []) by now apply unused_email.
  assert (Heq : exists w',
             post_users req w = (NoResponse, w')
             /\ users w'
                = users w
                  ++ [mkUser (users_next_id w) (validator_trim (body_name req))
                             (body_email req) (body_type req)
                             None None None false]
             /\ wss_clients w' = wss_clients w).
  { unfold post_users, handleValidationErrors. rewrite Hvalid.
    rewrite (db_query_ok _ _ _ Hf).
    unfold read_only, select_id_where_email. simpl users. rewrite E. simpl.
    eexists. split; [reflexivity | repeat split]. }
  destruct Heq as (w' & Heq & Hus & Hcl). exists w'.
  split; [unfold serve; now rewrite Heq |].
  split; [exact Hus |]. split; [exact Hcl |]. split; [reflexivity |].
  intros again Hsame Hup.
  assert (Hagain : fst (post_users req again) = conflict Create).
  { unfold post_users, handleValidationErrors.
    rewrite Hvalid, (db_query_up _ _ Hup).
    unfold read_only, select_id_where_email; simpl fst; simpl snd.
    rewrite Hsame, Hus, filter_app. simpl. rewrite String.eqb_refl.
    rewrite E. reflexivity. }
  unfold serve. destruct (post_users req again) as [r wr].
  simpl in Hagain. subst r. reflexivity.
Qed.

(** X25: a failed insert into the logs is only printed. When the store
    fails just that query, an update of an existing entry is answered
    200 and a delete 204, the entries are changed as asked, and the
    logs have no row of it. *)
Theorem unlogged_writes req w :
  (exists u, In u (users w) /\ u_id u = param_id req) ->
  (validateUser req = [] ->
   email_free_for (param_id req) (body_email req) w ->
   db_faults w = [false; false; true] ->
   status_of (fst (patch_users req w)) = Some 200
   /\ users (snd (patch_users req w))
      = map (fun u =>
               if u_id u =? param_id req
               then mkUser (u_id u) (validator_trim (body_name req))
                           (body_email req) (body_type req) (u_image u)
                           (u_password u) (u_two_factor_secret u)
                           (u_two_factor_enabled u)
               else u)
            (users w)
   /\ logs (snd (patch_users req w)) = logs w)
  /\ (db_faults w = [false; true] ->
      status_of (fst (delete_users req w)) = Some 204
      /\ users (snd (delete_users req w))
         = filter (fun u => negb (u_id u =? param_id req)) (users w)
      /\ logs (snd (delete_users req w)) = logs w).
Proof.
  intros [u [Hin Hid]].
  assert (K : (Z.of_nat (List.length
                           (filter (fun x => u_id x =? param_id req) (users w)))
               =? 0) = false).
  { apply (matched_rows _ _ u Hin). now apply Z.eqb_eq. }
  split.
  - intros Hvalid Hfree Hf.
    assert (E : filter (fun x => String.eqb (u_email x) (body_email req)
                                 && negb (u_id x =? param_id req)) (users w)
                = []).
    { apply filter_nil_iff. intros x Hx.
      destruct (String.eqb_spec (u_email x) (body_email req)); [| reflexivity].
      rewrite (Hfree x Hx e), Z.eqb_refl. reflexivity. }
    assert (Heq : exists w',
               patch_users req w
               = (Respond 200
                    (user_json (param_id req) (validator_trim (body_name req))
                               (body_email req) (body_type req)), w')
               /\ users w'
                  = map (fun u =>
                           if u_id u =? param_id req
                           then mkUser (u_id u) (validator_trim (body_name req))
                                       (body_email req) (body_type req)
                                       (u_image u) (u_password u)
                                       (u_two_factor_secret u)
                                       (u_two_factor_enabled u)
                           else u)
                        (users w)
               /\ logs w' = logs w).
    { unfold patch_users, handleValidationErrors. rewrite Hvalid.
      rewrite (db_query_ok _ _ _ Hf).
      unfold read_only, select_id_where_email_not_id. simpl users.
      rewrite E. simpl. rewrite K.
      eexists. split; [reflexivity | repeat split]. }
    destruct Heq as (w' & Heq & Hus & Hlogs). rewrite Heq.
    repeat split; assumption.
  - intros Hf.
    assert (Heq : exists w',
               delete_users req w = (Respond 204 JNull, w')
               /\ users w'
                  = filter (fun u => negb (u_id u =? param_id req)) (users w)
               /\ logs w' = logs w).
    { unfold delete_users.
      rewrite (db_query_ok _ _ _ Hf). simpl. rewrite K.
      eexists. split; [reflexivity | repeat split]. }
    destruct Heq as (w' & Heq & Hus & Hlogs). rewrite Heq.
    repeat split; assumption.
Qed.

(** X26: a client whose initial data could not be read stays connected:
    it has received nothing at first, and the ['USER_ADDED'] envelope of
    the next create that succeeds is its first message. *)
Theorem connect_without_snapshot id req w :
  validateUser req = [] ->
  db_faults w = [true] ->
  (forall u, In u (users w) -> u_email u <> body_email req) ->
  let entry :=
    mkUser (users_next_id w) (validator_trim (body_name req))
           (body_email req) (body_type req) None None None false in
  let added :=
    envelope "USER_ADDED"
             (user_json (users_next_id w) (validator_trim (body_name req))
                        (body_email req) (body_type req))
             (users w ++ [entry]) in
  wss_clients (on_connection id w)
  = wss_clients w ++ [mkClient id WebSocket_OPEN []]
  /\ exists others,
       wss_clients (snd (post_users req (on_connection id w)))
       = others ++ [mkClient id WebSocket_OPEN [added]]
       /\ delivered added (wss_clients w) others.
Proof.
  intros Hvalid Hf Hfree. cbv zeta.
  assert (Hconn : on_connection id w
                  = set_wss_clients
                      (wss_clients w ++ [mkClient id WebSocket_OPEN []])
                      (set_db_faults [] w)).
  { unfold on_connection, getAllUsers, db_query. rewrite Hf. reflexivity. }
  rewrite Hconn. split; [reflexivity |].
  destruct (post_users_success req
              (set_wss_clients
                 (wss_clients w ++ [mkClient id WebSocket_OPEN []])
                 (set_db_faults [] w)) Hvalid eq_refl Hfree)
    as (_ & _ & _ & _ & _ & _ & Hc).
  rewrite Hc. simpl wss_clients. simpl users. simpl users_next_id.
  rewrite map_app. eexists. split; [reflexivity | apply delivered_map].
Qed.

(** *** What a run of the monitor leaves alone *)

Lemma insert_ignore_adds user_id reason acc :
  let acc' := snd (db_query (insert_ignore_monitored user_id reason) acc) in
  (exists added,
      monitored_users acc' = monitored_users acc ++ added
      /\ (added = [] \/ added = [mkMonitored user_id reason (clock acc)]))
  /\ users acc' = users acc
  /\ logs acc' = logs acc
  /\ wss_clients acc' = wss_clients acc
  /\ clock acc' = clock acc.
Proof.
  cbv zeta.
  destruct (db_query_cases (insert_ignore_monitored user_id reason) acc)
    as [-> | ->]; simpl.
  - split; [exists []; rewrite app_nil_r; auto | repeat split].
  - unfold insert_ignore_monitored. cbv zeta.
    destruct (existsb _ (monitored_users (answered acc))); simpl.
    + split; [exists []; rewrite app_nil_r; auto | repeat split].
    + split; [eexists; split; [reflexivity | now right] | repeat split].
Qed.

Lemma monitor_fold_adds rows acc :
  NoDup (map fst rows) ->
  let acc' :=
    fold_left
      (fun acc row =>
         snd (db_query
                (insert_ignore_monitored (fst row) (high_frequency (snd row)))
                acc))
      rows acc in
  (exists added,
      monitored_users acc' = monitored_users acc ++ added
      /\ Forall (fun m => In (m_user_id m) (map fst rows)
                          /\ m_detected_at m = clock acc) added
      /\ NoDup (map m_user_id added))
  /\ users acc' = users acc
  /\ logs acc' = logs acc
  /\ wss_clients acc' = wss_clients acc.
Proof.
  revert acc. induction rows as [|row rows IH]; intros acc Hnd; cbv zeta.
  - simpl. split; [| repeat split].
    exists []. rewrite app_nil_r. repeat split; constructor.
  - simpl map in Hnd. inversion Hnd as [|? ? Hnot Hnd']; subst.
    simpl fold_left.
    destruct (insert_ignore_adds (fst row) (high_frequency (snd row)) acc)
      as ((first & Hm & Hfirst) & Hu & Hl & Hc & Hk).
    destruct (IH (snd (db_query
                         (insert_ignore_monitored
                            (fst row) (high_frequency (snd row))) acc)) Hnd')
      as ((more & Hm' & Hall & Hnd'') & Hu' & Hl' & Hc').
    rewrite Hu', Hl', Hc', Hu, Hl, Hc. split; [| repeat split].
    exists (first ++ more). rewrite Hm', Hm, <- app_assoc.
    split; [reflexivity |].
    assert (Hmore : Forall (fun m => In (m_user_id m) (map fst (row :: rows))
                                     /\ m_detected_at m = clock acc) more).
    { eapply Forall_impl; [| exact Hall]. simpl. intros m [Hin Hd].
      split; [now right | now rewrite <- Hk]. }
    destruct Hfirst as [-> | ->]; simpl; [now split |].
    split; [constructor; [simpl; split; [now left | reflexivity] | exact Hmore] |].
    constructor; [| exact Hnd''].
    intros Hin. apply Hnot. apply in_map_iff in Hin.
    destruct Hin as [m [Hm_id Hin]].
    rewrite Forall_forall in Hall. destruct (Hall m Hin) as [Hrow _].
    now rewrite Hm_id in Hrow.
Qed.

(** X21: whatever the unique indexes of [monitored_users] are and
    whichever queries the store answers, a run of the monitor only adds
    flags after the stored ones: at most one per actor, never for actor
    0, each dated now. It changes and removes no stored flag and leaves
    the users, the logs and the clients as they are. *)
Theorem monitor_tick_only_adds w :
  exists added,
    monitored_users (monitor_tick w) = monitored_users w ++ added
    /\ NoDup (map m_user_id added)
    /\ Forall (fun m => m_user_id m <> 0 /\ m_detected_at m = clock w) added
    /\ users (monitor_tick w) = users w
    /\ logs (monitor_tick w) = logs w
    /\ wss_clients (monitor_tick w) = wss_clients w.
Proof.
  unfold monitor_tick.
  destruct (db_query_read_only select_suspicious w) as [-> | ->].
  - exists []. simpl. rewrite app_nil_r. repeat split; constructor.
  - destruct (monitor_fold_adds (select_suspicious (answered w)) (answered w)
                (suspicious_NoDup (answered w)))
      as ((added & Hm & Hall & Hnd) & Hu & Hl & Hc).
    exists added. rewrite Hm, Hu, Hl, Hc. simpl.
    repeat split; [exact Hnd |].
    eapply Forall_impl; [| exact Hall]. simpl. intros m [Hin Hd].
    split; [| exact Hd].
    rewrite suspicious_actors in Hin. apply filter_In in Hin.
    destruct Hin as [Hin _]. apply nodup_In in Hin.
    exact (selected_actors_nonzero _ _ Hin).
Qed.

Lemma filter_repeat_true {A : Type} (f : A -> bool) (x : A) (n : nat) :
  f x = true -> filter f (repeat x n) = repeat x n.
Proof.
  intros H. induction n as [|n IH]; simpl; [reflexivity |].
  now rewrite H, IH.
Qed.

Section Monitored.

Hypothesis unique_has_user :
  forall old new,
    monitored_unique old new = true -> m_user_id old = m_user_id new.

Lemma tick_flags w actor :
  db_faults w = [] ->
  (forall old new, In old (monitored_users w) -> m_user_id new = actor ->
                   monitored_unique old new = false) ->
  flags_of actor (monitored_users (monitor_tick w))
  = flags_of actor (monitored_users w)
    + (if existsb (Z.eqb actor) (map fst (select_suspicious w)) then 1 else 0).
Proof.
  intros Hup Hfree. rewrite (monitor_tick_up _ Hup). simpl monitored_users.
  apply (flags_of_fold unique_has_user); [apply suspicious_NoDup | exact Hfree].
Qed.

(** X2: let a valid update of an existing entry, with an email no other
    entry holds, be sent [n] times by the same actor (a non-zero
    [x-user-id]) while the store answers. The next run of the monitor
    flags the actor once exactly when these [n] updates and the actor's
    earlier events inside the window are more than 10, provided no
    stored flag blocks the insert and no event is dated after the
    clock. *)
Theorem frequent_updates_flagged n req w actor :
  validateUser req = [] ->
  db_faults w = [] ->
  (exists u, In u (users w) /\ u_id u = param_id req) ->
  email_free_for (param_id req) (body_email req) w ->
  x_user_id req = Some actor -> actor <> 0 ->
  dated w ->
  (forall old new, In old (monitored_users w) -> m_user_id new = actor ->
                   monitored_unique old new = false) ->
  flags_of actor (monitored_users (monitor_tick (patch_users_times n req w)))
  = flags_of actor (monitored_users w)
    + (if events_in_window w actor + Z.of_nat n >? 10 then 1 else 0).
Proof.
  intros Hvalid Hup Hex Hfree Hactor Hnz Hdated Hblock.
  destruct (patch_users_times_world n _ _ Hvalid Hup Hex Hfree)
    as (Hl & Hm & Hc & Hf).
  set (w' := patch_users_times n req w) in *.
  assert (Hdated' : dated w').
  { intros l Hin. rewrite Hl in Hin. rewrite Hc.
    apply in_app_or in Hin. destruct Hin as [Hin | Hin];
      [now apply Hdated |].
    apply repeat_spec in Hin. subst l. simpl. lia. }
  assert (Hcount : events_in_window w' actor
                   = events_in_window w actor + Z.of_nat n).
  { unfold events_in_window. rewrite Hl, Hc, filter_app, length_app.
    rewrite filter_repeat_true, repeat_length; [lia |].
    unfold by_actor, in_window, event. simpl. rewrite Hactor, Z.eqb_refl.
    simpl. apply andb_true_iff. split; [apply Z.ltb_lt | apply Z.leb_le]; lia. }
  rewrite tick_flags; [| exact Hf | now rewrite Hm].
  rewrite Hm. f_equal. rewrite <- Hcount.
  destruct (existsb (Z.eqb actor) (map fst (select_suspicious w'))) eqn:E.
  - apply existsb_exists in E. destruct E as [x [Hx Hax]].
    apply Z.eqb_eq in Hax. subst x.
    apply (suspicious_iff _ _ Hdated') in Hx. destruct Hx as [_ Hg].
    apply Z.gtb_gt in Hg. now rewrite Hg.
  - destruct (events_in_window w' actor >? 10) eqn:Hg; [| reflexivity].
    apply Z.gtb_gt in Hg.
    assert (Hin : In actor (map fst (select_suspicious w')))
      by (apply (suspicious_iff _ _ Hdated'); split; [assumption | lia]).
    assert (Ht : existsb (Z.eqb actor) (map fst (select_suspicious w')) = true).
    { apply existsb_exists. exists actor. split; [exact Hin |].
      apply Z.eqb_refl. }
    congruence.
Qed.

End Monitored.

End Server.

(** ** The properties on sample data *)

(** *** The token guard *)

(** C7 as stated fails: the answer to a missing token and the answer to
    an invalid token differ. *)
Lemma rejections_not_uniform :
  has_problem None no_credentials 1000 Missing /\
  has_problem None (bearer (Jwt.Raw "garbage")) 1000 Invalid /\
  fst (post_2fa_verify None sample_hotp no_credentials sample_world)
  <> fst (post_2fa_verify None sample_hotp (bearer (Jwt.Raw "garbage"))
                          sample_world).
Proof.
  split; [| split].
  - now apply no_header.
  - apply malformed with (parts := [Jwt.Raw "Bearer"; Jwt.Raw "garbage"])
                         (text := "garbage"); [reflexivity | reflexivity |].
    discriminate.
  - vm_compute. discriminate.
Qed.

Lemma authenticated_rejects_witness :
  has_problem None (bearer (Jwt.Raw "garbage")) (clock sample_world) Invalid /\
  post_2fa_verify None sample_hotp (bearer (Jwt.Raw "garbage")) sample_world
  = (Respond 403 (error_body "Invalid or expired token"), sample_world).
Proof.
  assert (H : has_problem None (bearer (Jwt.Raw "garbage"))
                          (clock sample_world) Invalid).
  { apply malformed with (parts := [Jwt.Raw "Bearer"; Jwt.Raw "garbage"])
                         (text := "garbage"); [reflexivity | reflexivity |].
    discriminate. }
  split; [exact H |].
  exact (authenticated_rejects None (twofa_verify None sample_hotp) _ _ _ H).
Defined.

(** C1 as stated fails: the token that the login hands out to Ana, who
    still owes the second factor, is let through to the enrolment. On a
    store that is not strict [POST /2fa/setup] answers it with a new
    secret and replaces the one she had; on a strict store the handler
    runs as well and it is the store that refuses the text. *)
Lemma pending_token_accepted :
  fst (post_login None sample_compare
                  (login_request "ana@example.com" "ana") sample_world)
  = Respond 200 (challenge (issued None ana 1000 300))
  /\ fst (post_2fa_setup None sample_qrcode false sample_generated
                         (bearer (issued None ana 1000 300)) sample_world)
     = Respond 200
         (JObj [("secret", JStr (fst sample_generated));
                ("qrCode",
                 JStr "data:image/png;base64,otpauth://totp/YourApp")])
  /\ map u_two_factor_secret
         (users (snd (post_2fa_setup None sample_qrcode false sample_generated
                        (bearer (issued None ana 1000 300)) sample_world)))
     = [Some "KRUGS4ZANFZSAYJAON2HE2LOM4QG6ZRA"; None]
  /\ fst (post_2fa_setup None sample_qrcode true sample_generated
                         (bearer (issued None ana 1000 300)) sample_world)
     = Respond 500 (error_body "Failed to setup 2FA").
Proof.
  repeat split.
Qed.

Lemma pending_token_until_expiry_witness :
  fst (post_2fa_setup None sample_qrcode false sample_generated
                      (bearer (issued None ana 1000 300))
                      (sample_world_at 1299))
  = Respond 200
      (JObj [("secret", JStr (fst sample_generated));
             ("qrCode", JStr "data:image/png;base64,otpauth://totp/YourApp")])
  /\ fst (post_2fa_setup None sample_qrcode false sample_generated
                         (bearer (issued None ana 1000 300))
                         (sample_world_at 1300))
     = Respond 403 (error_body "Invalid or expired token").
Proof.
  split.
  - destruct (pending_token_until_expiry None sample_compare
                (twofa_setup sample_qrcode false sample_generated)
                (login_request "ana@example.com" "ana") sample_world
                (issued None ana 1000 300)
                (bearer (issued None ana 1000 300)) (sample_world_at 1299)
                eq_refl eq_refl) as [user [Huser [_ H]]].
    unfold post_2fa_setup. rewrite H. injection Huser as <-. reflexivity.
  - destruct (pending_token_until_expiry None sample_compare
                (twofa_setup sample_qrcode false sample_generated)
                (login_request "ana@example.com" "ana") sample_world
                (issued None ana 1000 300)
                (bearer (issued None ana 1000 300)) (sample_world_at 1300)
                eq_refl eq_refl) as [user [_ [_ H]]].
    unfold post_2fa_setup. rewrite H. reflexivity.
Defined.

(** *** Login and the second factor *)

Lemma login_outcomes_witness :
  fst (post_login None sample_compare
                  (login_request "bob@example.com" "bob") sample_world)
  = Respond 200
      (JObj [("accessToken", JTok (issued None bob 1000 3600));
             ("user", JObj [("id", JNum 2); ("email", JStr "bob@example.com");
                            ("name", JStr "Bob"); ("type", JStr "user")])])
  /\ fst (post_login None sample_compare
                     (login_request "cora@example.com" "cora")
                     (snd (post_users sample_trim sample_isEmail
                             (write_request 0 "Cora" "cora@example.com" "user")
                             sample_world)))
     = NoResponse.
Proof.
  split.
  - refine (proj1 (proj2 (proj2
             (login_outcomes None sample_compare
                (login_request "bob@example.com" "bob") sample_world _)))
             bob "hash-of-bob" "bob" _ _ _ _ _); try reflexivity.
    intros [secret [Hsecret _]]. discriminate.
  - refine (proj1 (proj2 (proj2 (proj2 (proj2
             (login_outcomes None sample_compare
                (login_request "cora@example.com" "cora")
                (snd (post_users sample_trim sample_isEmail
                        (write_request 0 "Cora" "cora@example.com" "user")
                        sample_world)) _)))))
             (mkUser 3 "Cora" "cora@example.com" "user" None None None false)
             _ _); [reflexivity | reflexivity |].
    left. reflexivity.
Defined.

(** A user added through [POST /users] has no password hash; a login
    with that email gets no answer at all. *)
Example post_login_without_hash :
  fst (post_login None sample_compare
                  (login_request "cora@example.com" "cora")
                  (snd (post_users sample_trim sample_isEmail
                          (write_request 0 "Cora" "cora@example.com" "user")
                          sample_world)))
  = NoResponse.
Proof. reflexivity. Qed.

(** A login for Bob whose body has no password gets no answer either,
    and the process is down afterwards. *)
Example post_login_without_password :
  serve (post_login None sample_compare
           (mkRequest None None 0 EmptyString "bob@example.com" EmptyString
                      None EmptyString))
        (Up sample_world)
  = (NoResponse, Down sample_world).
Proof. reflexivity. Qed.

Lemma second_factor_window_witness :
  fst (post_2fa_verify None sample_hotp
         (code_request (issued None ana 1000 300) "123456")
         (sample_world_at 1040))
  = Respond 200
      (JObj [("accessToken",
              JTok (Jwt.Jws (JWT_SECRET None)
                            (Jwt.mkClaims 1 "ana@example.com" (Some true)
                                          (Some 1000) (Some 4600))))]).
Proof.
  refine (proj1 (proj1 (proj2
           (second_factor_window None sample_compare sample_hotp
              (login_request "ana@example.com" "ana") sample_world
              (Jwt.mkClaims 1 "ana@example.com" None (Some 1000) (Some 1300))
              (code_request (issued None ana 1000 300) "123456")
              (sample_world_at 1040) sample_secret _ _ _ _ _ _))) _);
    try reflexivity.
  exists 0. split; [lia | reflexivity].
Defined.

(** C6 as stated fails on the expiry. Ana logs in at 1000 and verifies
    at 1040, or at 1070: either way the token issued expires at 4600,
    one hour after the login and 3300 seconds after the expiry of the
    pending token, not one hour after the verification. *)
Example verified_expiry_from_login :
  fst (post_2fa_verify None sample_hotp
         (code_request (issued None ana 1000 300) "123456")
         (sample_world_at 1040))
  = Respond 200 (JObj [("accessToken",
                        JTok (Jwt.Jws (JWT_SECRET None) ana_verified))])
  /\ fst (post_2fa_verify None sample_hotp
            (code_request (issued None ana 1000 300) "123456")
            (sample_world_at 1070))
     = Respond 200 (JObj [("accessToken",
                           JTok (Jwt.Jws (JWT_SECRET None) ana_verified))])
  /\ Jwt.exp ana_verified = Some (1300 + 3300)
  /\ Jwt.exp ana_verified <> Some (1040 + 3600)
  /\ Jwt.exp ana_verified <> Some (1070 + 3600).
Proof.
  repeat split; discriminate.
Qed.

(** *** The broadcaster and the directory *)

(** C2 as stated fails: the envelope that [broadcastUpdate] sends holds
    the [password] and the [two_factor_secret] of every row, and a world
    that differs in one password hash only sends another envelope. *)
Theorem broadcast_serialises_credentials :
  exists msg row rest,
    map ws_sent (wss_clients (snd (broadcastUpdate "USER_UPDATED" JNull
                                                   sample_world)))
    = [[msg]; []]
    /\ json_get "allUsers" msg = Some (JArr (row :: rest))
    /\ json_get "password" row = Some (JStr "hash-of-ana")
    /\ json_get "two_factor_secret" row = Some (JStr sample_secret)
    /\ existsb credential_key (all_keys msg) = true
    /\ map ws_sent
         (wss_clients
            (snd (broadcastUpdate "USER_UPDATED" JNull
                    (set_users
                       [mkUser 1 "Ana" "ana@example.com" "admin"
                               (Some "ana.png") (Some "another-hash")
                               (Some sample_secret) false; bob]
                       3 sample_world))))
       <> [[msg]; []].
Proof.
  do 3 eexists. vm_compute.
  split; [reflexivity |]. split; [reflexivity |]. split; [reflexivity |].
  split; [reflexivity |]. split; [reflexivity |]. discriminate.
Qed.

Lemma post_users_writes_no_log_witness :
  fst (post_users sample_trim sample_isEmail
                  (write_request 0 "Cora" "cora@example.com" "user")
                  sample_world)
  = Respond 201 (JObj [("id", JNum 3); ("name", JStr "Cora");
                       ("email", JStr "cora@example.com");
                       ("type", JStr "user"); ("image", JNull)])
  /\ logs (snd (post_users sample_trim sample_isEmail
                           (write_request 0 "Cora" "cora@example.com" "user")
                           sample_world))
     = [].
Proof.
  assert (H := post_users_writes_no_log sample_trim sample_isEmail
                 (write_request 0 "Cora" "cora@example.com" "user")
                 sample_world).
  cbv zeta in H.
  destruct H as (Hanswer & _ & _ & Hlogs).
  - reflexivity.
  - reflexivity.
  - intros u [<- | [<- | []]]; discriminate.
  - split; [exact Hanswer | exact Hlogs].
Defined.

Lemma duplicate_email_refused_witness :
  fst (patch_users sample_trim sample_isEmail
                   (write_request 2 "Bob" "ana@example.com" "user")
                   sample_world)
  = Respond 400 (error_body "Email already exists")
  /\ fst (post_users sample_trim sample_isEmail
                     (write_request 0 "Ann" "ana@example.com" "user")
                     sample_world)
     = Respond 400
         (JObj [("errors", JArr [JObj [("param", JStr "email");
                                       ("msg", JStr "Email already exists")]])]).
Proof.
  split.
  - refine (proj1 (duplicate_email_refused sample_trim sample_isEmail Update
                     (write_request 2 "Bob" "ana@example.com" "user")
                     sample_world _ _ _)); try reflexivity.
    exists ana. split; [now left |]. split; [reflexivity | discriminate].
  - refine (proj1 (duplicate_email_refused sample_trim sample_isEmail Create
                     (write_request 0 "Ann" "ana@example.com" "user")
                     sample_world _ _ _)); try reflexivity.
    exists ana. split; [now left |]. split; [reflexivity | exact I].
Defined.

(** An update that keeps the entry's own email is not a conflict. *)
Example patch_users_own_email :
  status_of (fst (patch_users sample_trim sample_isEmail
                              (write_request 1 "Anna" "ana@example.com" "admin")
                              sample_world))
  = Some 200.
Proof. reflexivity. Qed.

Lemma patch_users_reports_null_image_witness :
  map u_image
      (users (snd (patch_users sample_trim sample_isEmail
                     (write_request 1 "Anna" "anna@example.com" "admin")
                     sample_world)))
  = [Some "ana.png"; None]
  /\ delivered
       (JObj [("type", JStr "USER_UPDATED");
              ("data", JObj [("id", JNum 1); ("name", JStr "Anna");
                             ("email", JStr "anna@example.com");
                             ("type", JStr "admin"); ("image", JNull)]);
              ("allUsers",
               JArr (map row_json
                         (users (snd (patch_users sample_trim sample_isEmail
                                        (write_request 1 "Anna"
                                           "anna@example.com" "admin")
                                        sample_world)))))])
       (wss_clients sample_world)
       (wss_clients (snd (patch_users sample_trim sample_isEmail
                            (write_request 1 "Anna" "anna@example.com" "admin")
                            sample_world))).
Proof.
  split; [reflexivity |].
  exact (proj2 (proj2 (patch_users_reports_null_image
                         sample_trim sample_isEmail
                         (write_request 1 "Anna" "anna@example.com" "admin")
                         sample_world _ eq_refl))).
Defined.

(** *** The background monitor *)

Lemma busy_world_dated n : dated (busy_world n).
Proof.
  intros l [<- | Hl]; [simpl; lia |].
  apply repeat_spec in Hl. subst l. simpl. lia.
Defined.

Lemma monitor_flags_frequent_actors_witness :
  flags_of 7 (monitored_users (monitor_tick unique_user_id (busy_world 11))) = 1
  /\ flags_of 7 (monitored_users (monitor_tick unique_user_id (busy_world 10)))
     = 0
  /\ flags_of 0 (monitored_users (monitor_tick unique_user_id (busy_world 11)))
     = 0.
Proof.
  assert (Hkey : forall old new,
             unique_user_id old new = true -> m_user_id old = m_user_id new)
    by (intros old new E; now apply Z.eqb_eq in E).
  split; [| split].
  - refine (monitor_flags_frequent_actors unique_user_id Hkey
              (busy_world 11) 7 eq_refl (busy_world_dated 11) _).
    intros old new [].
  - refine (monitor_flags_frequent_actors unique_user_id Hkey
              (busy_world 10) 7 eq_refl (busy_world_dated 10) _).
    intros old new [].
  - refine (monitor_flags_frequent_actors unique_user_id Hkey
              (busy_world 11) 0 eq_refl (busy_world_dated 11) _).
    intros old new [].
Defined.

Lemma monitor_tick_twice_witness :
  monitored_users (monitor_tick unique_user_id
                                (monitor_tick unique_user_id (busy_world 11)))
  = monitored_users (monitor_tick unique_user_id (busy_world 11)).
Proof.
  refine (proj1 (monitor_tick_twice unique_user_id _ (busy_world 11) eq_refl)).
  intros row. apply Z.eqb_refl.
Defined.

(** *** The directory *)

Lemma sample_world_consistent : consistent sample_world.
Proof.
  split; [| split].
  - intros u [<- | [<- | []]]; simpl; lia.
  - simpl. repeat constructor; simpl; intuition discriminate.
  - simpl. repeat constructor; simpl; intuition discriminate.
Defined.

Lemma sample_email_free :
  email_free_for 1 "anna@example.com" sample_world.
Proof.
  intros u [<- | [<- | []]] H; simpl in H; discriminate.
Defined.

Lemma patch_users_records_event_witness :
  logs (snd (patch_users sample_trim sample_isEmail
                         (write_request 1 "Anna" "anna@example.com" "admin")
                         sample_world))
  = [mkLog (Some 7) "update" "user" 1 1000].
Proof.
  refine (proj2 (patch_users_records_event sample_trim sample_isEmail
                   (write_request 1 "Anna" "anna@example.com" "admin")
                   sample_world eq_refl eq_refl _ sample_email_free)).
  exists ana. split; [now left | reflexivity].
Defined.

Lemma frequent_updates_flagged_witness :
  flags_of 7
    (monitored_users
       (monitor_tick unique_user_id
          (patch_users_times sample_trim sample_isEmail 11
             (write_request 1 "Anna" "anna@example.com" "admin")
             sample_world)))
  = 1.
Proof.
  refine (frequent_updates_flagged sample_trim sample_isEmail unique_user_id
            _ 11 (write_request 1 "Anna" "anna@example.com" "admin")
            sample_world 7 eq_refl eq_refl _ sample_email_free eq_refl _ _ _).
  - intros old new E. now apply Z.eqb_eq in E.
  - exists ana. split; [now left | reflexivity].
  - discriminate.
  - intros l [].
  - intros old new [].
Defined.

Lemma create_then_get_witness :
  fst (get_user (write_request 3 EmptyString EmptyString EmptyString)
                (snd (post_users sample_trim sample_isEmail
                        (write_request 0 "Cora" "cora@example.com" "user")
                        sample_world)))
  = Respond 200 (JObj [("id", JNum 3); ("name", JStr "Cora");
                       ("email", JStr "cora@example.com"); ("image", JNull);
                       ("type", JStr "user")]).
Proof.
  refine (proj2 (create_then_get sample_trim sample_isEmail
                   (write_request 0 "Cora" "cora@example.com" "user")
                   sample_world
                   (write_request 3 EmptyString EmptyString EmptyString)
                   eq_refl eq_refl _ (proj1 sample_world_consistent) eq_refl)).
  intros u [<- | [<- | []]]; discriminate.
Defined.

Lemma create_then_login_unanswered_witness :
  fst (post_login None sample_compare
                  (login_request "cora@example.com" "any password")
                  (snd (post_users sample_trim sample_isEmail
                          (write_request 0 "Cora" "cora@example.com" "user")
                          sample_world)))
  = NoResponse.
Proof.
  refine (create_then_login_unanswered None sample_trim sample_isEmail
            sample_compare
            (write_request 0 "Cora" "cora@example.com" "user") sample_world
            (login_request "cora@example.com" "any password")
            eq_refl eq_refl _ eq_refl).
  intros u [<- | [<- | []]]; discriminate.
Defined.

Lemma get_user_discloses_no_credentials_witness :
  existsb credential_key
    (all_keys (JObj [("id", JNum 1); ("name", JStr "Ana");
                     ("email", JStr "ana@example.com");
                     ("image", JStr "ana.png"); ("type", JStr "admin")]))
  = false.
Proof.
  exact (get_user_discloses_no_credentials
           (write_request 1 EmptyString EmptyString EmptyString)
           sample_world _ eq_refl).
Defined.

Lemma update_then_get_witness :
  fst (get_user (write_request 1 EmptyString EmptyString EmptyString)
                (snd (patch_users sample_trim sample_isEmail
                        (write_request 1 "Anna" "anna@example.com" "admin")
                        sample_world)))
  = Respond 200 (JObj [("id", JNum 1); ("name", JStr "Anna");
                       ("email", JStr "anna@example.com");
                       ("image", JStr "ana.png"); ("type", JStr "admin")]).
Proof.
  destruct (update_then_get sample_trim sample_isEmail
              (write_request 1 "Anna" "anna@example.com" "admin") sample_world
              (write_request 1 EmptyString EmptyString EmptyString)
              eq_refl eq_refl
              (ex_intro _ ana (conj (or_introl eq_refl) eq_refl))
              sample_email_free eq_refl)
    as [u [Hu [_ H]]].
  simpl in Hu. injection Hu as <-. exact H.
Defined.

Lemma delete_users_removes_witness :
  users (snd (delete_users
                (write_request 2 EmptyString EmptyString EmptyString)
                sample_world))
  = [ana]
  /\ fst (get_user (write_request 2 EmptyString EmptyString EmptyString)
                   (snd (delete_users
                           (write_request 2 EmptyString EmptyString EmptyString)
                           sample_world)))
     = Respond 404 (error_body "User not found").
Proof.
  destruct (delete_users_removes
              (write_request 2 EmptyString EmptyString EmptyString)
              sample_world
              (write_request 2 EmptyString EmptyString EmptyString)
              eq_refl
              (ex_intro _ bob (conj (or_intror (or_introl eq_refl)) eq_refl))
              eq_refl)
    as (_ & Hu & _ & _ & Hget).
  split; [exact Hu | exact Hget].
Defined.

Lemma delete_users_unknown_witness :
  fst (delete_users (write_request 9 EmptyString EmptyString EmptyString)
                    sample_world)
  = Respond 404 (error_body "User not found").
Proof.
  refine (proj1 (delete_users_unknown
                   (write_request 9 EmptyString EmptyString EmptyString)
                   sample_world eq_refl _)).
  intros u [<- | [<- | []]]; discriminate.
Defined.

Lemma writes_keep_consistent_witness :
  consistent (snd (patch_users sample_trim sample_isEmail
                               (write_request 1 "Anna" "bob@example.com" "admin")
                               sample_world))
  /\ consistent (snd (delete_users
                        (write_request 2 EmptyString EmptyString EmptyString)
                        sample_world)).
Proof.
  destruct (writes_keep_consistent sample_trim sample_isEmail sample_hash
              sample_qrcode false sample_world
              (write_request 1 "Anna" "bob@example.com" "admin")
              sample_world_consistent) as (_ & Hpatch & _).
  destruct (writes_keep_consistent sample_trim sample_isEmail sample_hash
              sample_qrcode false sample_world
              (write_request 2 EmptyString EmptyString EmptyString)
              sample_world_consistent) as (_ & _ & Hdelete & _).
  split; [exact Hpatch | exact Hdelete].
Defined.

(** *** Registration, enrolment and sessions *)

Lemma register_then_login_witness :
  fst (post_login None sample_compare
                  (login_request "cora@example.com" "secret")
                  (snd (post_register sample_hash "salt"
                          (register_request "Cora" "cora@example.com"
                                            "secret" "user")
                          sample_world)))
  = Respond 200
      (JObj [("accessToken",
              JTok (Jwt.Jws (JWT_SECRET None)
                            (Jwt.mkClaims 3 "cora@example.com" None
                                          (Some 1000) (Some 4600))));
             ("user", JObj [("id", JNum 3); ("email", JStr "cora@example.com");
                            ("name", JStr "Cora"); ("type", JStr "user")])]).
Proof.
  refine (proj2 (proj2 (proj2
            (register_then_login None sample_compare sample_hash "salt"
               (register_request "Cora" "cora@example.com" "secret" "user")
               sample_world (login_request "cora@example.com" "secret")
               "secret" eq_refl eq_refl _ eq_refl eq_refl)))).
  intros u [<- | [<- | []]]; discriminate.
Defined.

Lemma register_twice_refused_witness :
  fst (post_register sample_hash "other salt"
         (register_request "Cory" "cora@example.com" "other" "admin")
         (snd (post_register sample_hash "salt"
                 (register_request "Cora" "cora@example.com" "secret" "user")
                 sample_world)))
  = Respond 400 (error_body "Email already exists").
Proof.
  refine (proj1 (register_twice_refused sample_hash "salt"
                   (register_request "Cora" "cora@example.com" "secret" "user")
                   sample_world "other salt"
                   (register_request "Cory" "cora@example.com" "other" "admin")
                   eq_refl eq_refl _ eq_refl eq_refl)).
  intros u [<- | [<- | []]]; discriminate.
Defined.

Lemma setup_failure_enrolls_witness :
  fst (twofa_setup sample_qrcode false
                   (fst sample_generated, EmptyString) bob_session
                   no_credentials sample_world)
  = Respond 500 (error_body "Failed to generate QR code")
  /\ fst (post_login None sample_compare (login_request "bob@example.com" "bob")
                     (snd (twofa_setup sample_qrcode false
                                       (fst sample_generated, EmptyString)
                                       bob_session no_credentials
                                       sample_world)))
     = Respond 200 (JObj [("requiresTwoFactor", JBool true);
                          ("tempToken", JTok (issued None bob 1000 300))]).
Proof.
  destruct (setup_failure_enrolls None sample_compare sample_qrcode false
              (fst sample_generated, EmptyString) bob_session no_credentials
              sample_world (login_request "bob@example.com" "bob")
              bob "hash-of-bob" "bob" eq_refl eq_refl eq_refl)
    as (Hanswer & _ & Hlogin); try reflexivity; [discriminate |].
  split; [exact Hanswer | exact Hlogin].
Defined.

Lemma enrol_login_verify_witness :
  fst (post_2fa_setup None sample_qrcode true sample_generated
                      (bearer (Jwt.Jws (JWT_SECRET None) bob_session))
                      sample_world)
  = Respond 500 (error_body "Failed to setup 2FA")
  /\ fst (post_2fa_setup None sample_qrcode false sample_generated
                         (bearer (Jwt.Jws (JWT_SECRET None) bob_session))
                         sample_world)
     = Respond 200
         (JObj [("secret", JStr (fst sample_generated));
                ("qrCode",
                 JStr "data:image/png;base64,otpauth://totp/YourApp")])
  /\ fst (post_2fa_verify None sample_hotp
            (code_request (issued None bob 1000 300) "123456")
            (snd (post_login None sample_compare
                    (login_request "bob@example.com" "bob")
                    (snd (post_2fa_setup None sample_qrcode false
                            sample_generated
                            (bearer (Jwt.Jws (JWT_SECRET None) bob_session))
                            sample_world)))))
     = Respond 200
         (JObj [("accessToken",
                 JTok (Jwt.Jws (JWT_SECRET None)
                               (Jwt.mkClaims 2 "bob@example.com" (Some true)
                                             (Some 1000) (Some 4600))))]).
Proof.
  assert (Hcode : exists step,
             -1 <= step <= 1
             /\ sample_hotp (Some (column_text (fst sample_generated)))
                            (clock sample_world / 30 + step) "123456" = true)
    by (exists 1; split; [lia | reflexivity]).
  assert (Hvalid : exists e,
             Jwt.exp bob_session = Some e /\ clock sample_world < e)
    by (exists 4500; split; reflexivity).
  assert (Hne : fst sample_generated <> EmptyString) by discriminate.
  split; [| split].
  - exact (proj1 (proj1
             (enrol_login_verify None sample_compare sample_hotp sample_qrcode
                true sample_generated
                "data:image/png;base64,otpauth://totp/YourApp" bob_session
                (bearer (Jwt.Jws (JWT_SECRET None) bob_session))
                (login_request "bob@example.com" "bob")
                (code_request (issued None bob 1000 300) "123456")
                sample_world bob "hash-of-bob" "bob"
                eq_refl eq_refl eq_refl Hvalid eq_refl eq_refl eq_refl eq_refl
                eq_refl eq_refl Hne eq_refl eq_refl Hcode)
             eq_refl)).
  - exact (proj1 (proj2
             (enrol_login_verify None sample_compare sample_hotp sample_qrcode
                false sample_generated
                "data:image/png;base64,otpauth://totp/YourApp" bob_session
                (bearer (Jwt.Jws (JWT_SECRET None) bob_session))
                (login_request "bob@example.com" "bob")
                (code_request (issued None bob 1000 300) "123456")
                sample_world bob "hash-of-bob" "bob"
                eq_refl eq_refl eq_refl Hvalid eq_refl eq_refl eq_refl eq_refl
                eq_refl eq_refl Hne eq_refl eq_refl Hcode)
             eq_refl)).
  - exact (proj2 (proj2 (proj2 (proj2
             (enrol_login_verify None sample_compare sample_hotp sample_qrcode
                false sample_generated
                "data:image/png;base64,otpauth://totp/YourApp" bob_session
                (bearer (Jwt.Jws (JWT_SECRET None) bob_session))
                (login_request "bob@example.com" "bob")
                (code_request (issued None bob 1000 300) "123456")
                sample_world bob "hash-of-bob" "bob"
                eq_refl eq_refl eq_refl Hvalid eq_refl eq_refl eq_refl eq_refl
                eq_refl eq_refl Hne eq_refl eq_refl Hcode)
             eq_refl)))).
Defined.

Lemma reverify_same_token_witness :
  fst (post_2fa_verify None sample_hotp
         (code_request (Jwt.Jws (JWT_SECRET None) ana_verified) "123456")
         (sample_world_at 1040))
  = Respond 200
      (JObj [("accessToken", JTok (Jwt.Jws (JWT_SECRET None) ana_verified))]).
Proof.
  refine (reverify_same_token None sample_hotp
            (code_request (Jwt.Jws (JWT_SECRET None) ana_verified) "123456")
            (sample_world_at 1040) ana_verified 1000 (Some sample_secret)
            eq_refl eq_refl eq_refl _ eq_refl eq_refl eq_refl eq_refl _).
  - discriminate.
  - exists 0. split; [lia | reflexivity].
Defined.

Lemma deleted_user_token_witness :
  fst (post_2fa_verify None sample_hotp
         (code_request (Jwt.Jws (JWT_SECRET None) bob_session) "123456")
         (snd (delete_users
                 (write_request 2 EmptyString EmptyString EmptyString)
                 sample_world)))
  = Respond 500 (error_body "Failed to verify 2FA").
Proof.
  exact (deleted_user_token None sample_hotp
           (write_request 2 EmptyString EmptyString EmptyString) sample_world
           (code_request (Jwt.Jws (JWT_SECRET None) bob_session) "123456")
           bob_session 4500 eq_refl
           (ex_intro _ bob (conj (or_intror (or_introl eq_refl)) eq_refl))
           eq_refl eq_refl eq_refl eq_refl).
Defined.

Lemma granted_token_lifetime_witness :
  post_2fa_verify None sample_hotp
    (code_request (issued None bob 1000 3600) "123456") (sample_world_at 4599)
  = twofa_verify None sample_hotp
      (Jwt.mkClaims 2 "bob@example.com" None (Some 1000) (Some 4600))
      (code_request (issued None bob 1000 3600) "123456")
      (sample_world_at 4599)
  /\ fst (post_2fa_verify None sample_hotp
            (code_request (issued None bob 1000 3600) "123456")
            (sample_world_at 4600))
     = Respond 403 (error_body "Invalid or expired token").
Proof.
  split.
  - destruct (granted_token_lifetime None sample_compare
                (twofa_verify None sample_hotp)
                (login_request "bob@example.com" "bob") sample_world
                (issued None bob 1000 3600) (userResponse bob)
                (code_request (issued None bob 1000 3600) "123456")
                (sample_world_at 4599)
                eq_refl eq_refl) as [user [Huser [_ [_ H]]]].
    unfold post_2fa_verify. rewrite H. injection Huser as <-. reflexivity.
  - destruct (granted_token_lifetime None sample_compare
                (twofa_verify None sample_hotp)
                (login_request "bob@example.com" "bob") sample_world
                (issued None bob 1000 3600) (userResponse bob)
                (code_request (issued None bob 1000 3600) "123456")
                (sample_world_at 4600)
                eq_refl eq_refl) as [user [_ [_ [_ H]]]].
    unfold post_2fa_verify. rewrite H. reflexivity.
Defined.

Lemma get_users_me_unguarded_witness :
  fst (get_users_me (bearer (Jwt.Jws (JWT_SECRET None) ana_verified))
                    sample_world)
  = Respond 404 (error_body "User not found")
  /\ fst (get_users_me no_credentials sample_world)
     = Respond 404 (error_body "User not found").
Proof.
  assert (Hids : forall u, In u (users sample_world) -> u_id u <> 0)
    by (intros u [<- | [<- | []]]; discriminate).
  split.
  - exact (f_equal fst
             (get_users_me_unguarded
                (bearer (Jwt.Jws (JWT_SECRET None) ana_verified))
                sample_world eq_refl Hids)).
  - exact (f_equal fst
             (get_users_me_unguarded no_credentials sample_world eq_refl
                                     Hids)).
Defined.

(** *** Observers, statements, the populate script *)

Lemma connect_then_create_witness :
  last (wss_clients
          (snd (post_users sample_trim sample_isEmail
                  (write_request 0 "Cora" "cora@example.com" "user")
                  (on_connection 3 sample_world))))
       open_client
  = mkClient 3 WebSocket_OPEN
      [JObj [("type", JStr "INITIAL_DATA"); ("data", JNull);
             ("allUsers", JArr (map row_json [ana; bob]))];
       JObj [("type", JStr "USER_ADDED");
             ("data", JObj [("id", JNum 3); ("name", JStr "Cora");
                            ("email", JStr "cora@example.com");
                            ("type", JStr "user"); ("image", JNull)]);
             ("allUsers",
              JArr (map row_json
                        [ana; bob;
                         mkUser 3 "Cora" "cora@example.com" "user"
                                None None None false]))]].
Proof.
  destruct (connect_then_create sample_trim sample_isEmail 3
              (write_request 0 "Cora" "cora@example.com" "user") sample_world
              eq_refl eq_refl) as [others [H _]].
  - intros u [<- | [<- | []]]; discriminate.
  - rewrite H. apply last_last.
Defined.

Lemma users_count_ignores_email_witness :
  snd (users_list_statement (fun _ => None)
         (mkUsersQuery (Some "an") None (Some "admin") None None None None))
  = snd (users_count_statement
           (mkUsersQuery (Some "an") None (Some "admin") None None None None))
    ++ [PNumber (Some 10); PNumber (Some 0)].
Proof.
  exact (proj2 (users_count_ignores_email (fun _ => None)
                  (mkUsersQuery (Some "an") None (Some "admin")
                                None None None None))
               eq_refl).
Defined.

Lemma populate_inserts_total_witness :
  exists w' added,
    insertBatch sample_faker 101 0 sample_world = Done w'
    /\ users w' = users sample_world ++ added
    /\ Z.of_nat (List.length added) = TOTAL
    /\ Forall (fun u => u_password u = None) added.
Proof.
  exact (proj1 (populate_inserts_total sample_faker 101 sample_world
                  (Nat.lt_succ_diag_r 100))
               eq_refl).
Defined.

(** *** Refusals, and queries that the store fails *)

Lemma refusals_change_nothing_witness :
  same_content sample_world
    (snd (delete_users (write_request 9 EmptyString EmptyString EmptyString)
                       sample_world)).
Proof.
  refine (refusals_change_nothing sample_trim sample_isEmail sample_hash
            "salt" delete_users
            (write_request 9 EmptyString EmptyString EmptyString)
            sample_world _ eq_refl).
  right. right. left. reflexivity.
Defined.

Lemma patch_users_unknown_witness :
  fst (patch_users sample_trim sample_isEmail
                   (write_request 9 "Zoe" "zoe@example.com" "user")
                   sample_world)
  = Respond 404 (error_body "User not found").
Proof.
  refine (proj1 (patch_users_unknown sample_trim sample_isEmail
                   (write_request 9 "Zoe" "zoe@example.com" "user")
                   sample_world eq_refl eq_refl _ _)).
  - intros u [<- | [<- | []]]; discriminate.
  - intros u [<- | [<- | []]]; discriminate.
Defined.

Lemma create_answer_lost_witness :
  exists w',
    serve (post_users sample_trim sample_isEmail
             (write_request 0 "Cora" "cora@example.com" "user"))
          (Up (set_db_faults [false; false; true] sample_world))
    = (NoResponse, Down w')
    /\ fst (serve (post_users sample_trim sample_isEmail
                     (write_request 0 "Cora" "cora@example.com" "user"))
                  (Down w'))
       = NoResponse.
Proof.
  destruct (create_answer_lost sample_trim sample_isEmail
              (write_request 0 "Cora" "cora@example.com" "user")
              (set_db_faults [false; false; true] sample_world)
              eq_refl eq_refl)
    as (w' & Hlost & _ & _ & Hdown & _).
  - intros u [<- | [<- | []]]; discriminate.
  - exists w'. split; [exact Hlost | exact Hdown].
Defined.

Lemma unlogged_writes_witness :
  status_of (fst (patch_users sample_trim sample_isEmail
                    (write_request 1 "Anna" "anna@example.com" "admin")
                    (set_db_faults [false; false; true] sample_world)))
  = Some 200
  /\ logs (snd (patch_users sample_trim sample_isEmail
                  (write_request 1 "Anna" "anna@example.com" "admin")
                  (set_db_faults [false; false; true] sample_world)))
     = [].
Proof.
  destruct (proj1 (unlogged_writes sample_trim sample_isEmail
                     (write_request 1 "Anna" "anna@example.com" "admin")
                     (set_db_faults [false; false; true] sample_world)
                     (ex_intro _ ana (conj (or_introl eq_refl) eq_refl)))
                  eq_refl sample_email_free eq_refl)
    as (Hstatus & _ & Hlogs).
  split; [exact Hstatus | exact Hlogs].
Defined.

Lemma connect_without_snapshot_witness :
  wss_clients (on_connection 3 (set_db_faults [true] sample_world))
  = wss_clients sample_world ++ [mkClient 3 WebSocket_OPEN []].
Proof.
  refine (proj1 (connect_without_snapshot sample_trim sample_isEmail 3
                   (write_request 0 "Cora" "cora@example.com" "user")
                   (set_db_faults [true] sample_world) eq_refl eq_refl _)).
  intros u [<- | [<- | []]]; discriminate.
Defined.
